(** * bento: statement importers and the rule classifier

    A shallow embedding of the transaction synthesis of the importers
    ([importers/*/*.py]) and of the rule classifier
    ([classifier/rule/rule_classify.py]), with the properties of the
    natural-language specification stated and proved over it.

    Conventions of the embedding.
    - A Python [str] is a [string] holding its UTF-8 bytes; substring tests
      on valid UTF-8 agree with the tests on code points.
    - A [Decimal] is the rational number it denotes ([Qc], with Leibniz
      equality).  The amounts of a statement are finite and far shorter than
      the 28 digits of the decimal context, so unary minus is exact.
    - An exception is a value: a computation that can raise returns a
      [result].  [try ... except Exception: return None] becomes a match on
      it.
    - What the code obtains from the Python library or interpreter (case
      folding, regular expressions, time formatting, attribute lookup on a
      class object) is a field of the class [Python]; every theorem holds for
      all of its instances. *)

From Stdlib Require Import QArith Qcanon.
From stdpp Require Import base strings list gmap numbers.

Open Scope string_scope.
Open Scope nat_scope.

(** ** Exceptions *)

Inductive exn : Type :=
  | AttributeError
  | KeyError
  | IndexError
  | ValueError
  | TypeError
  | OtherError.

Inductive result (A : Type) : Type :=
  | Return (a : A)
  | Raise (e : exn).
Arguments Return {A} a.
Arguments Raise {A} e.

Definition bind {A B : Type} (m : result A) (k : A → result B) : result B :=
  match m with
  | Return a => k a
  | Raise e => Raise e
  end.

Notation "'let*' x := m 'in' k" := (bind m (fun x => k))
  (at level 10, x name, m at level 100, k at level 200, only parsing).

Definition raises {A : Type} (m : result A) : bool :=
  match m with
  | Return _ => false
  | Raise _ => true
  end.

(** ** Values of the Python library used by the code *)

Definition Decimal : Type := Qc.

(** [datetime.date] as (year, month, day), [datetime.time] as
    (hour, minute, second); both are always truthy. *)
Abbreviation date := (nat * nat * nat)%type.
Abbreviation time := (nat * nat * nat)%type.

Class Python : Type := {
  (** [str.lower()] and [str.strip()] *)
  str_lower : string → string;
  str_strip : string → string;
  (** [bool(re.search(pattern, value))]; raises on a malformed pattern *)
  re_search : string → string → result bool;
  (** [getattr(Predicates, name)] for a [name] other than the five predicate
      methods: raises [AttributeError] when the class object has no such
      attribute, and otherwise gives what calling that attribute on
      [(value, target)] and testing the outcome for truth does. *)
  getattr_Predicates : string → result (string → string → result bool);
  (** [re.search] of a description for the pattern "anything, then a
      bracketed part": groups 1 (greedy, before the opening bracket) and 2
      (lazy, between the brackets) *)
  search_brackets : string → option (string * string);
  (** [re.search] of a note for the service fee, the marker 服务费¥ followed
      by digits with an optional fractional part, then [Decimal] of the
      digits found, which is total on such text *)
  search_fee : string → option Decimal;
  (** [strftime] as hours:minutes:seconds and as year-month-day *)
  strftime_HMS : time → string;
  strftime_Ymd : date → string;
  (** [datetime.strptime] of a cell in these two formats, and [D] of a cell
      holding an amount; each raises on text it cannot read *)
  strptime_HMS : string → result time;
  strptime_Ymd : string → result date;
  D : string → result Decimal;
  (** [os.path.basename] *)
  basename : string → string
}.

(** [needle in hay] *)
Fixpoint str_in (needle hay : string) : bool :=
  if String.prefix needle hay then true
  else match hay with
       | "" => false
       | String _ hay' => str_in needle hay'
       end.

(** [value.endswith(target)] *)
Fixpoint str_endswith (value target : string) : bool :=
  if String.eqb value target then true
  else match value with
       | "" => false
       | String _ value' => str_endswith value' target
       end.

Fixpoint str_drop (n : nat) (s : string) : string :=
  match n, s with
  | S k, String _ s' => str_drop k s'
  | _, _ => s
  end.

(** [s.split(sep, 1)] when [sep in s]: the text before and after the first
    occurrence of [sep]; [None] when [sep] does not occur. *)
Fixpoint split_once (sep s : string) : option (string * string) :=
  if String.prefix sep s then Some ("", str_drop (String.length sep) s)
  else match s with
       | "" => None
       | String c s' =>
           match split_once sep s' with
           | Some (before, after) => Some (String c before, after)
           | None => None
           end
       end.

(** [s.replace(sub, empty)] for a non-empty [sub]; [skip] counts the bytes
    of an occurrence still to be dropped. *)
Fixpoint str_remove (skip : nat) (sub s : string) : string :=
  match s with
  | "" => ""
  | String c s' =>
      match skip with
      | S k => str_remove k sub s'
      | O =>
          if String.prefix sub s
          then str_remove (String.length sub - 1) sub s'
          else String c (str_remove 0 sub s')
      end
  end.

(** [any(app in text for app in apps)] *)
Definition any_in (apps : list string) (text : string) : bool :=
  existsb (fun app => str_in app text) apps.

(** ** config.py *)

Module config.

Record LedgerSettings : Type := {
  duplicate_meta : string
}.

Definition default_ledger : LedgerSettings :=
  {| duplicate_meta := "__duplicate__" |}.

End config.

(** ** The ledger entries (beancount.core.data) *)

Module data.

Record Amount : Type := mkAmount {
  number : Decimal;
  currency : string
}.

(** [-Amount(n, c)] *)
Definition neg (a : Amount) : Amount :=
  mkAmount (- number a)%Qc (currency a).

(** [cost], [price], [flag] and [meta] are [None] in every posting the
    importers build and are left out.  [account] is [None] only when a
    classifier answers [(True, None)]; [units = None] is the implicit
    amount. *)
Record Posting : Type := mkPosting {
  account : option string;
  units : option Amount
}.

Inductive meta_value : Type :=
  | MStr (s : string)
  | MInt (n : Z)
  | MBool (b : bool).

Record Transaction : Type := {
  meta : gmap string meta_value;
  date_ : date;
  flag : string;
  payee : string;
  narration : string;
  tags : gset string;
  links : gset string;
  postings : list Posting
}.

(** [new_metadata(filename, lineno, kvlist)]: the two standard keys,
    updated with [kvlist]. *)
Definition new_metadata (filename : string) (lineno : Z)
    (kvlist : gmap string meta_value) : gmap string meta_value :=
  kvlist ∪ <["lineno" := MInt lineno]> (<["filename" := MStr filename]> ∅).

(** [create_simple_posting(entry, account, number, currency)] appends the
    posting to the posting list of [entry], in place. *)
Definition create_simple_posting (entry : Transaction) (acc : string)
    (n : Decimal) (cur : string) : Transaction :=
  {| meta := meta entry; date_ := date_ entry; flag := flag entry;
     payee := payee entry; narration := narration entry;
     tags := tags entry; links := links entry;
     postings := postings entry
                 ++ [mkPosting (Some acc) (Some (mkAmount n cur))] |}.

(** *** The balance of a posting list *)

Definition is_implicit (p : Posting) : bool :=
  match units p with
  | None => true
  | Some _ => false
  end.

Definition implicit_count (ps : list Posting) : nat :=
  length (filter (fun p => is_implicit p = true) ps).

(** The sum of the explicit amounts held in currency [cur]. *)
Fixpoint explicit_sum (cur : string) (ps : list Posting) : Decimal :=
  match ps with
  | [] => 0%Qc
  | p :: rest =>
      match units p with
      | Some a =>
          if String.eqb (currency a) cur
          then (number a + explicit_sum cur rest)%Qc
          else explicit_sum cur rest
      | None => explicit_sum cur rest
      end
  end.

(** The postings balance: at most one of them is implicit, and there is an
    amount per currency for the implicit one (none when all are explicit)
    with which every currency sums to zero. *)
Definition balanced (ps : list Posting) : Prop :=
  implicit_count ps ≤ 1 ∧
  ∃ fill : string → Decimal,
    ∀ cur, (explicit_sum cur ps
            + (if decide (implicit_count ps = 0%nat) then 0 else fill cur) = 0)%Qc.

End data.

(** The classifier an importer is given: a callable on (payee, narration)
    that answers [(reliable, predicted_account)] or raises. *)
Definition Classifier : Type :=
  string → string → result (bool * option string).

(** [reliable = False; if self.classifier: reliable, predicted_account = ...] *)
Definition run_classifier (classifier : option Classifier)
    (payee narration : string) : result (bool * option string) :=
  match classifier with
  | Some f => f payee narration
  | None => Return (false, None)
  end.

Definition flag_of (reliable : bool) : string :=
  if reliable then "*" else "!".

(** ** classifier/rule/rule_classify.py *)

Module rule_classify.
Section rule_classify.
Context `{Python}.

Definition equals (value target : string) : result bool :=
  Return (bool_decide (value = target)).

Definition contains (value target : string) : result bool :=
  Return (str_in target value).

Definition starts_with (value target : string) : result bool :=
  Return (String.prefix target value).

Definition ends_with (value target : string) : result bool :=
  Return (str_endswith value target).

Definition matches_ (value pattern : string) : result bool :=
  re_search pattern value.

(** [Predicates.get_predicate]: [getattr(Predicates, name)] *)
Definition get_predicate (name : string)
    : result (string → string → result bool) :=
  if decide (name = "equals") then Return equals
  else if decide (name = "contains") then Return contains
  else if decide (name = "starts_with") then Return starts_with
  else if decide (name = "ends_with") then Return ends_with
  else if decide (name = "matches") then Return matches_
  else getattr_Predicates name.

(** A dict in its iteration order. *)
Record AccountRule : Type := {
  name : string;
  condition : list (string * list (string * string));
  prediction_account : string
}.

(** The inner loop of [AccountRule.matches]: the value of [succ]. *)
Fixpoint all_hold (value : string) (conditions : list (string * string))
    : result bool :=
  match conditions with
  | [] => Return true
  | (predicate_name, target) :: rest =>
      let* predicate_func := get_predicate predicate_name in
      let* holds := predicate_func (str_lower value) (str_lower target) in
      if holds : bool then all_hold value rest else Return false
  end.

Definition field_value (field payee narration : string) : string :=
  if decide (field = "payee") then payee
  else if decide (field = "narration") then narration
  else "".

(** The outer loop of [AccountRule.matches]. *)
Fixpoint matches_condition
    (cond : list (string * list (string * string)))
    (payee narration : string) : result bool :=
  match cond with
  | [] => Return false
  | (field, conditions) :: rest =>
      let value := field_value field payee narration in
      if decide (value = "") then matches_condition rest payee narration
      else
        let* succ := all_hold value conditions in
        if succ : bool then Return true
        else matches_condition rest payee narration
  end.

Definition matches (self : AccountRule) (payee narration : string)
    : result bool :=
  matches_condition (condition self) payee narration.

(** One entry of [config["rules"]] as [yaml.safe_load] gives it: a key
    that is absent is [None]. *)
Record yaml_rule : Type := {
  yaml_name : option string;
  yaml_condition : option (list (string * list (string * string)));
  yaml_prediction_account : option string
}.

(** The loaded document: [yaml_rules] is [config["rules"]]. *)
Record yaml_config : Type := {
  yaml_rules : option (list yaml_rule)
}.

Definition getitem {A : Type} (o : option A) : result A :=
  match o with
  | Some a => Return a
  | None => Raise KeyError
  end.

Fixpoint load_rule_list (rs : list yaml_rule) : result (list AccountRule) :=
  match rs with
  | [] => Return []
  | rule :: rest =>
      let* n := getitem (yaml_name rule) in
      let* c := getitem (yaml_condition rule) in
      let* a := getitem (yaml_prediction_account rule) in
      let* rules := load_rule_list rest in
      Return ({| name := n; condition := c; prediction_account := a |}
              :: rules)
  end.

Definition _load_rules (cfg : yaml_config) : result (list AccountRule) :=
  let* rs := getitem (yaml_rules cfg) in
  load_rule_list rs.

Record RuleAccountClassifier : Type := {
  rules : list AccountRule
}.

(** [RuleAccountClassifier.__init__], from the parsed rule file *)
Definition __init__ (cfg : yaml_config) : result RuleAccountClassifier :=
  let* rs := _load_rules cfg in
  Return {| rules := rs |}.

(** *** The rule file as [yaml.safe_load] gives it

    [yaml.safe_load] gives a dict for a mapping and, for every other
    document, a value that cannot be subscripted with a text: [None] for an
    empty file, a list, a text, a number, a boolean, a date, bytes or a set.
    Subscripting such a value with a key raises [TypeError]. *)

(** One value met when iterating [config["rules"]]. *)
Inductive yaml_item : Type :=
  | item_mapping (rule : yaml_rule)
  | item_other.

(** [config["rules"]]: a list; another iterable (a text, a mapping, a set,
    bytes), iterating which gives [n] values none of which is a mapping,
    since the characters of a text and the keys of a mapping and of a set are
    scalars; or a value that cannot be iterated ([None] for [rules:] left
    empty, a number, a boolean, a date). *)
Inductive yaml_rules_value : Type :=
  | rules_sequence (items : list yaml_item)
  | rules_scalars (n : nat)
  | rules_not_iterable.

(** The loaded document: a mapping, with the value under [rules] when the
    key is there, or anything else. *)
Inductive yaml_document : Type :=
  | document_mapping (rules_value : option yaml_rules_value)
  | document_other.

(** [config["rules"]] *)
Definition getitem_rules (doc : yaml_document) : result yaml_rules_value :=
  match doc with
  | document_mapping rules_value => getitem rules_value
  | document_other => Raise TypeError
  end.

(** [for rule in config["rules"]]: the values the loop runs over. *)
Definition iter (rules_value : yaml_rules_value) : result (list yaml_item) :=
  match rules_value with
  | rules_sequence items => Return items
  | rules_scalars n => Return (replicate n item_other)
  | rules_not_iterable => Raise TypeError
  end.

(** [rule[key]] for the three keys, in the order of the call. *)
Definition load_item (item : yaml_item) : result AccountRule :=
  match item with
  | item_mapping rule =>
      let* n := getitem (yaml_name rule) in
      let* c := getitem (yaml_condition rule) in
      let* a := getitem (yaml_prediction_account rule) in
      Return {| name := n; condition := c; prediction_account := a |}
  | item_other => Raise TypeError
  end.

(** The loop of [_load_rules]. *)
Fixpoint load_items (items : list yaml_item) : result (list AccountRule) :=
  match items with
  | [] => Return []
  | item :: rest =>
      let* rule := load_item item in
      let* rules := load_items rest in
      Return (rule :: rules)
  end.

(** [RuleAccountClassifier(rule_file)] from whatever [yaml.safe_load] gave
    for the file. *)
Definition load_document (doc : yaml_document)
    : result RuleAccountClassifier :=
  let* rules_value := getitem_rules doc in
  let* items := iter rules_value in
  let* rs := load_items items in
  Return {| rules := rs |}.

(** A rule file that is a mapping whose [rules], when there, is a list of
    mappings, as a document. *)
Definition document_of (cfg : yaml_config) : yaml_document :=
  document_mapping
    (option_map (fun ys => rules_sequence (item_mapping <$> ys))
       (yaml_rules cfg)).

(** The item is a mapping that has the three keys. *)
Definition complete_item (item : yaml_item) : Prop :=
  ∃ rule, item = item_mapping rule ∧
          is_Some (yaml_name rule) ∧ is_Some (yaml_condition rule) ∧
          is_Some (yaml_prediction_account rule).

Fixpoint classify_rules (rs : list AccountRule) (payee narration : string)
    : result (bool * option string) :=
  match rs with
  | [] => Return (false, None)
  | rule :: rest =>
      let* m := matches rule payee narration in
      if m : bool then Return (true, Some (prediction_account rule))
      else classify_rules rest payee narration
  end.

Definition classify (self : RuleAccountClassifier)
    (payee narration : string) : result (bool * option string) :=
  classify_rules (rules self) payee narration.

End rule_classify.
End rule_classify.

(** ** What the importers share *)

(** The two postings of the ordinary case, written out in [alipay], [boc],
    [cmb], [cmb_credit] and [citic_credit] alike: for an expense the own
    account is implicit and the counter account carries the amount, and
    otherwise the own account carries it and the counter account is
    implicit. *)
Definition two_postings (is_expense : bool) (own : string)
    (amount : Decimal) (reliable : bool) (predicted_account : option string)
    (expense_fallback other_fallback : string) : list data.Posting :=
  if is_expense then
    [ data.mkPosting (Some own) None;
      data.mkPosting
        (if reliable then predicted_account else Some expense_fallback)
        (Some (data.mkAmount amount "CNY")) ]
  else
    [ data.mkPosting (Some own) (Some (data.mkAmount amount "CNY"));
      data.mkPosting
        (if reliable then predicted_account else Some other_fallback)
        None ].

(** [if self.ignore_apps: if any(app in text for app in apps):
    meta[settings.ledger.duplicate_meta] = True] *)
Definition mark_duplicate (ledger : config.LedgerSettings)
    (ignore_apps : bool) (apps : list string) (text : string)
    (meta : gmap string data.meta_value) : gmap string data.meta_value :=
  if ignore_apps then
    if any_in apps text
    then <[config.duplicate_meta ledger := data.MBool true]> meta
    else meta
  else meta.

(** [payee, narration = description.split(sep, 1)] when [sep] occurs in the
    description, and the whole description with an empty narration
    otherwise. *)
Definition split_description (sep description : string) : string * string :=
  if str_in sep description then
    match split_once sep description with
    | Some parts => parts
    | None => (description, "")
    end
  else (description, "").

(** ** importers/alipay/alipay.py *)

Module alipay.
Section alipay.
Context `{Python}.

Record record : Type := {
  transaction_time : date * time;
  transaction_category : string;
  transaction_counterparty : string;
  counterparty_account : string;
  product_description : string;
  income_expense : string;
  amount : Decimal;
  payment_method : string;
  transaction_status : string;
  transaction_order_number : string;
  merchant_order_number : string;
  notes : string
}.

Record Importer : Type := {
  account : string;
  additional_accounts : gmap string string;
  default_expense_account : string;
  classifier : option Classifier
}.

(** Set by [__init__], not configurable. *)
Definition income_account : string := "Income:RedPacket".

Definition _get_asset_account (self : Importer) (payment_method : string)
    : string :=
  default (account self) (additional_accounts self !! payment_method).

Definition meta_kv (row : record) : gmap string data.meta_value :=
  let kv : gmap string data.meta_value :=
    <["payment_method" := data.MStr (payment_method row)]>
      (<["transaction_type" := data.MStr (transaction_category row)]> ∅) in
  let kv :=
    if decide (transaction_order_number row = "") then kv
    else <["alipay_trade_no" :=
             data.MStr (str_strip (transaction_order_number row))]> kv in
  if decide (merchant_order_number row = "") then kv
  else if decide (merchant_order_number row = "/") then kv
  else <["out_trade_no" :=
           data.MStr (str_strip (merchant_order_number row))]> kv.

Definition _parse_transaction (self : Importer) (file_name : string)
    (row : record) : option data.Transaction :=
  let payee := transaction_counterparty row in
  if decide (payee = "余额宝") then None
  else
    let narration :=
      transaction_category row ++ " " ++ product_description row in
    let is_expense := bool_decide (income_expense row = "支出") in
    let asset_account := _get_asset_account self (payment_method row) in
    match run_classifier (classifier self) payee narration with
    | Raise _ => None
    | Return (reliable, predicted_account) =>
        let postings :=
          two_postings is_expense asset_account (amount row)
            reliable predicted_account
            (default_expense_account self) income_account in
        Some {| data.meta :=
                  data.new_metadata (basename file_name) 0 (meta_kv row);
                data.date_ := fst (transaction_time row);
                data.flag := flag_of reliable;
                data.payee := payee;
                data.narration := narration;
                data.tags := ∅;
                data.links := ∅;
                data.postings := postings |}
    end.

Definition extract (self : Importer) (file_name : string)
    (records : list record) : list data.Transaction :=
  omap (_parse_transaction self file_name) records.

(** *** What the properties are stated with *)

(** The payee and the narration the importer derives from a record, and the
    answer of its classifier on them. *)
Definition payee_narration (r : record) : string * string :=
  (transaction_counterparty r,
   transaction_category r ++ " " ++ product_description r).

Definition classified (self : Importer) (r : record)
    : result (bool * option string) :=
  run_classifier (classifier self)
    (fst (payee_narration r)) (snd (payee_narration r)).

End alipay.
End alipay.

(** ** importers/wechat/wechat.py *)

Module wechat.
Section wechat.
Context `{Python}.

Record record : Type := {
  transaction_time : date * time;
  transaction_category : string;
  transaction_counterparty : string;
  product : string;
  income_expense : string;
  amount : Decimal;
  payment_method : string;
  transaction_status : string;
  wechat_trade_no : string;
  out_trade_no : string;
  note : string
}.

Record Importer : Type := {
  account : string;
  fee_account : string;
  additional_accounts : gmap string string;
  default_expense_account : string;
  classifier : option Classifier
}.

Definition income_account : string := "Income:RedPacket".
Definition comment_prefix : string := "转账备注:".

Definition _get_asset_account (self : Importer) (payment_method : string)
    : string :=
  default (account self) (additional_accounts self !! payment_method).

Definition meta_kv (r : record) : gmap string data.meta_value :=
  let kv : gmap string data.meta_value :=
    <["time" := data.MStr (strftime_HMS (snd (transaction_time r)))]>
      (<["payment_method" := data.MStr (payment_method r)]>
         (<["transaction_type" := data.MStr (transaction_category r)]> ∅)) in
  let kv :=
    if decide (note r = "") then kv
    else if decide (note r = "/") then kv
    else <["note" := data.MStr (str_strip (note r))]> kv in
  let kv :=
    if decide (wechat_trade_no r = "") then kv
    else <["wechat_trade_no" :=
             data.MStr (str_strip (wechat_trade_no r))]> kv in
  if decide (out_trade_no r = "") then kv
  else if decide (out_trade_no r = "/") then kv
  else <["out_trade_no" := data.MStr (str_strip (out_trade_no r))]> kv.

(** The fee of a withdrawal, read from the note; zero when the note is
    empty, does not mention the fee or holds no amount after the marker. *)
Definition withdrawal_fee (r : record) : Decimal :=
  if decide (note r = "") then 0%Qc
  else if str_in "服务费" (note r) then
    match search_fee (note r) with
    | Some fee => fee
    | None => 0%Qc
    end
  else 0%Qc.

Definition _parse_transaction (self : Importer) (file_name : string)
    (r : record) : option data.Transaction :=
  let transaction_type := transaction_category r in
  let payee := transaction_counterparty r in
  let narration :=
    if str_in comment_prefix (product r)
    then str_remove 0 comment_prefix (product r)
    else product r in
  let asset_account := _get_asset_account self (payment_method r) in
  match run_classifier (classifier self) payee narration with
  | Raise _ => None
  | Return (reliable, predicted_account) =>
      let postings :=
        if decide (income_expense r = "收入") then
          [ data.mkPosting (Some asset_account)
              (Some (data.mkAmount (amount r) "CNY"));
            data.mkPosting (Some income_account) None ]
        else if decide (transaction_type = "零钱提现") then
          [ data.mkPosting (Some asset_account)
              (Some (data.mkAmount (- amount r)%Qc "CNY"));
            data.mkPosting
              (Some (_get_asset_account self (payment_method r))) None;
            data.mkPosting (Some (fee_account self))
              (Some (data.mkAmount (withdrawal_fee r) "CNY")) ]
        else
          [ data.mkPosting (Some asset_account) None;
            data.mkPosting
              (if reliable then predicted_account
               else Some (default_expense_account self))
              (Some (data.mkAmount (amount r) "CNY")) ] in
      Some {| data.meta :=
                data.new_metadata (basename file_name) 0 (meta_kv r);
              data.date_ := fst (transaction_time r);
              data.flag :=
                if bool_decide (income_expense r = "收入")
                   || bool_decide (transaction_type = "零钱提现")
                   || reliable
                then "*" else "!";
              data.payee := payee;
              data.narration := narration;
              data.tags := ∅;
              data.links := ∅;
              data.postings := postings |}
  end.

(** The entries are returned newest last: [entries[::-1]]. *)
Definition extract (self : Importer) (file_name : string)
    (records : list record) : list data.Transaction :=
  reverse (omap (_parse_transaction self file_name) records).

(** *** What the properties are stated with *)

(** The payee and the narration the importer derives from a record, and the
    answer of its classifier on them. *)
Definition payee_narration (r : record) : string * string :=
  (transaction_counterparty r,
   if str_in comment_prefix (product r)
   then str_remove 0 comment_prefix (product r)
   else product r).

Definition classified (self : Importer) (r : record)
    : result (bool * option string) :=
  run_classifier (classifier self)
    (fst (payee_narration r)) (snd (payee_narration r)).

End wechat.
End wechat.

(** ** importers/boc/boc.py *)

Module boc.
Section boc.
Context `{Python}.
Context (ledger : config.LedgerSettings).

Definition apps : list string := ["微信"; "支付宝"].

Record record : Type := {
  card_last_four : string;
  transaction_date : date;
  transaction_time : time;
  currency : string;
  is_expense : bool;
  amount : Decimal;
  balance : Decimal;
  transaction_name : string;
  transaction_channel : string;
  transaction_site : string;
  comment : string;
  counterparty_account_name : string;
  counterparty_card_number : string;
  counterparty_bank : string
}.

Record Importer : Type := {
  account : string;
  default_expense_account : string;
  default_income_account : string;
  ignore_apps : bool;
  classifier : option Classifier
}.

Definition _parse_transaction (self : Importer) (file_name : string)
    (card : string) (r : record) : option data.Transaction :=
  if decide (currency r = "人民币") then
    let payee :=
      counterparty_account_name r ++ " " ++ counterparty_card_number r in
    let narration := transaction_name r ++ " " ++ transaction_channel r in
    match run_classifier (classifier self) payee narration with
    | Raise _ => None
    | Return (reliable, predicted_account) =>
        let postings :=
          two_postings (is_expense r) (account self ++ ":" ++ card)
            (amount r) reliable predicted_account
            (default_expense_account self) (default_income_account self) in
        let meta := data.new_metadata (basename file_name) 0 ∅ in
        let meta :=
          <["time" := data.MStr (strftime_HMS (transaction_time r))]> meta in
        let meta := mark_duplicate ledger (ignore_apps self) apps payee meta in
        Some {| data.meta := meta;
                data.date_ := transaction_date r;
                data.flag := flag_of reliable;
                data.payee := payee;
                data.narration := narration;
                data.tags := ∅;
                data.links := ∅;
                data.postings := postings |}
    end
  else None.

Definition extract (self : Importer) (file_name : string)
    (records : list record) : list data.Transaction :=
  omap (fun r => _parse_transaction self file_name (card_last_four r) r)
    records.

(** *** The rows of a table in [extract_pdf_content] *)

(** [row[i]] *)
Definition cell (row : list string) (i : nat) : result string :=
  match row !! i with
  | Some c => Return c
  | None => Raise IndexError
  end.

Definition newline : string := String (Ascii.ascii_of_nat 10) "".

(** [c.replace(newline, empty)] *)
Definition one_line (c : string) : string := str_remove 0 newline c.

(** One turn of the loop over the rows of a table: [None] when the row is
    passed over (the header line, a row in another currency), the record of
    the row otherwise; any exception leaves the function, which then gives
    no statement at all. *)
Definition parse_row (card : string) (row : list string)
    : result (option record) :=
  let* c0 := cell row 0 in
  if str_in "记账日期" c0 then Return None
  else
    let* d := strptime_Ymd c0 in
    let* c1 := cell row 1 in
    let* t := strptime_HMS c1 in
    let* cur := cell row 2 in
    if decide (cur = "人民币") then
      let* c3 := cell row 3 in
      let* expense :=
        match c3 with
        | "" => Raise IndexError
        | String _ _ => Return (String.prefix "-" c3)
        end in
      let* a := D (if expense : bool then str_drop 1 c3 else c3) in
      let* c4 := cell row 4 in
      let* b := D c4 in
      let* c5 := cell row 5 in
      let* c6 := cell row 6 in
      let* c7 := cell row 7 in
      let* c8 := cell row 8 in
      let* c9 := cell row 9 in
      let* c10 := cell row 10 in
      let* c11 := cell row 11 in
      Return (Some {| card_last_four := card;
                      transaction_date := d;
                      transaction_time := t;
                      currency := cur;
                      is_expense := expense;
                      amount := a;
                      balance := b;
                      transaction_name := one_line c5;
                      transaction_channel := one_line c6;
                      transaction_site := one_line c7;
                      comment := one_line c8;
                      counterparty_account_name := one_line c9;
                      counterparty_card_number := one_line c10;
                      counterparty_bank := one_line c11 |})
    else Return None.

(** The loop over the rows, from the records gathered so far. *)
Fixpoint table_rows (card : string) (rows : list (list string))
    (records : list record) : result (list record) :=
  match rows with
  | [] => Return records
  | row :: rest =>
      let* parsed := parse_row card row in
      table_rows card rest
        (match parsed with
         | Some r => (records ++ [r])%list
         | None => records
         end)
  end.

(** *** What the properties are stated with *)

(** The payee and the narration the importer derives from a record, and the
    answer of its classifier on them. *)
Definition payee_narration (r : record) : string * string :=
  (counterparty_account_name r ++ " " ++ counterparty_card_number r,
   transaction_name r ++ " " ++ transaction_channel r).

Definition classified (self : Importer) (r : record)
    : result (bool * option string) :=
  run_classifier (classifier self)
    (fst (payee_narration r)) (snd (payee_narration r)).

(** The importer with the policy on the known apps set to [b]. *)
Definition set_ignore_apps (b : bool) (self : Importer) : Importer :=
  {| account := account self;
     default_expense_account := default_expense_account self;
     default_income_account := default_income_account self;
     ignore_apps := b;
     classifier := classifier self |}.

End boc.
End boc.

(** ** importers/cmb/cmb.py *)

Module cmb.
Section cmb.
Context `{Python}.
Context (ledger : config.LedgerSettings).

Definition apps : list string := ["财付通-"].

Record record : Type := {
  card_last_four : string;
  transaction_date : date;
  transaction_time : time;
  is_expense : bool;
  amount : Decimal;
  balance : Decimal;
  transaction_type : string;
  transaction_note : string
}.

Record Importer : Type := {
  account : string;
  default_expense_account : string;
  income_account : string;
  ignore_apps : bool;
  classifier : option Classifier
}.

Definition _parse_transaction (self : Importer) (file_name : string)
    (r : record) : option data.Transaction :=
  let payee := transaction_type r in
  let narration := transaction_note r in
  match run_classifier (classifier self) payee narration with
  | Raise _ => None
  | Return (reliable, predicted_account) =>
      let postings :=
        two_postings (is_expense r)
          (account self ++ ":" ++ card_last_four r)
          (amount r) reliable predicted_account
          (default_expense_account self) (income_account self) in
      let meta := data.new_metadata (basename file_name) 0 ∅ in
      let meta :=
        <["time" := data.MStr (strftime_HMS (transaction_time r))]> meta in
      let meta :=
        mark_duplicate ledger (ignore_apps self) apps narration meta in
      Some {| data.meta := meta;
              data.date_ := transaction_date r;
              data.flag := flag_of reliable;
              data.payee := payee;
              data.narration := narration;
              data.tags := ∅;
              data.links := ∅;
              data.postings := postings |}
  end.

Definition extract (self : Importer) (file_name : string)
    (records : list record) : list data.Transaction :=
  reverse (omap (_parse_transaction self file_name) records).

(** *** What the properties are stated with *)

(** The payee and the narration the importer derives from a record, and the
    answer of its classifier on them. *)
Definition payee_narration (r : record) : string * string :=
  (transaction_type r, transaction_note r).

Definition classified (self : Importer) (r : record)
    : result (bool * option string) :=
  run_classifier (classifier self)
    (fst (payee_narration r)) (snd (payee_narration r)).

(** The importer with the policy on the known apps set to [b]. *)
Definition set_ignore_apps (b : bool) (self : Importer) : Importer :=
  {| account := account self;
     default_expense_account := default_expense_account self;
     income_account := income_account self;
     ignore_apps := b;
     classifier := classifier self |}.

End cmb.
End cmb.

(** ** importers/cmb/cmb_credit.py *)

Module cmb_credit.
Section cmb_credit.
Context `{Python}.
Context (ledger : config.LedgerSettings).

Definition apps : list string := ["微信"; "支付宝"].

(** [transaction_date] is [None] on a repayment line. *)
Record record : Type := {
  transaction_type : string;
  transaction_date : option date;
  posted_date : date;
  transaction_description : string;
  amount : Decimal;
  card_last_four : string
}.

Record Importer : Type := {
  account : string;
  default_expense_account : string;
  asset_account : string;
  ignore_apps : bool;
  classifier : option Classifier
}.

Definition _parse_transaction (self : Importer) (file_name : string)
    (r : record) : option data.Transaction :=
  let transaction_date :=
    default (posted_date r) (transaction_date r) in
  let '(payee, narration) :=
    split_description "-" (transaction_description r) in
  let is_expense := bool_decide (transaction_type r = "消费") in
  match run_classifier (classifier self) payee narration with
  | Raise _ => None
  | Return (reliable, predicted_account) =>
      let postings :=
        two_postings is_expense
          (account self ++ ":" ++ card_last_four r)
          (amount r) reliable predicted_account
          (default_expense_account self) (asset_account self) in
      let meta := data.new_metadata (basename file_name) 0 ∅ in
      let meta := mark_duplicate ledger (ignore_apps self) apps payee meta in
      let meta :=
        if decide (transaction_type r = "还款")
        then <[config.duplicate_meta ledger := data.MBool true]> meta
        else meta in
      Some {| data.meta := meta;
              data.date_ := transaction_date;
              data.flag := flag_of reliable;
              data.payee := payee;
              data.narration := narration;
              data.tags := ∅;
              data.links := ∅;
              data.postings := postings |}
  end.

Definition extract (self : Importer) (file_name : string)
    (records : list record) : list data.Transaction :=
  omap (_parse_transaction self file_name) records.

(** *** What the properties are stated with *)

(** The payee and the narration the importer derives from a record, and the
    answer of its classifier on them. *)
Definition payee_narration (r : record) : string * string :=
  split_description "-" (transaction_description r).

Definition classified (self : Importer) (r : record)
    : result (bool * option string) :=
  run_classifier (classifier self)
    (fst (payee_narration r)) (snd (payee_narration r)).

(** The importer with the policy on the known apps set to [b]. *)
Definition set_ignore_apps (b : bool) (self : Importer) : Importer :=
  {| account := account self;
     default_expense_account := default_expense_account self;
     asset_account := asset_account self;
     ignore_apps := b;
     classifier := classifier self |}.

End cmb_credit.
End cmb_credit.

(** ** importers/citic/citic_credit.py *)

Module citic_credit.
Section citic_credit.
Context `{Python}.
Context (ledger : config.LedgerSettings).

Definition apps : list string := ["财付通"; "支付宝"].

Record record : Type := {
  transaction_date : date;
  posted_date : date;
  transaction_description : string;
  card_last_four : string;
  positive_amount : bool;
  amount : Decimal
}.

Record Importer : Type := {
  account : string;
  default_expense_account : string;
  asset_account : string;
  ignore_apps : bool;
  classifier : option Classifier
}.

(** A date is truthy, so the date of the entry is [transaction_date]. *)
Definition _parse_transaction (self : Importer) (file_name : string)
    (r : record) : option data.Transaction :=
  let '(payee, narration) :=
    split_description "－" (transaction_description r) in
  let is_expense := positive_amount r in
  match run_classifier (classifier self) payee narration with
  | Raise _ => None
  | Return (reliable, predicted_account) =>
      let postings :=
        two_postings is_expense
          (account self ++ ":" ++ card_last_four r)
          (amount r) reliable predicted_account
          (default_expense_account self) (asset_account self) in
      let meta := data.new_metadata (basename file_name) 0 ∅ in
      let meta := mark_duplicate ledger (ignore_apps self) apps payee meta in
      Some {| data.meta := meta;
              data.date_ := transaction_date r;
              data.flag := flag_of reliable;
              data.payee := payee;
              data.narration := narration;
              data.tags := ∅;
              data.links := ∅;
              data.postings := postings |}
  end.

Definition extract (self : Importer) (file_name : string)
    (records : list record) : list data.Transaction :=
  omap (_parse_transaction self file_name) records.

(** *** What the properties are stated with *)

(** The payee and the narration the importer derives from a record, and the
    answer of its classifier on them. *)
Definition payee_narration (r : record) : string * string :=
  split_description "－" (transaction_description r).

Definition classified (self : Importer) (r : record)
    : result (bool * option string) :=
  run_classifier (classifier self)
    (fst (payee_narration r)) (snd (payee_narration r)).

(** The importer with the policy on the known apps set to [b]. *)
Definition set_ignore_apps (b : bool) (self : Importer) : Importer :=
  {| account := account self;
     default_expense_account := default_expense_account self;
     asset_account := asset_account self;
     ignore_apps := b;
     classifier := classifier self |}.

End citic_credit.
End citic_credit.

(** ** importers/boc/boc_credit.py *)

Module boc_credit.
Section boc_credit.
Context `{Python}.
Context (ledger : config.LedgerSettings).

Definition apps : list string := ["微信"].

Record record : Type := {
  transaction_date : date;
  posted_date : date;
  card_last_four : string;
  description : string;
  amount : Decimal;
  currency : string;
  is_expense : bool
}.

Record Importer : Type := {
  account : string;
  default_expense_account : string;
  asset_account : string;
  ignore_apps : bool;
  classifier : option Classifier
}.

(** The objects of one [extract] call.  An entry is created once and then
    shared by the output list and by [cached_entries]; [heap] holds the
    entries in creation order and both refer to an entry by its position
    there, so a posting appended through the cache shows in the output. *)
Record state : Type := {
  heap : list data.Transaction;
  cached_entries : gmap (date * string * string) nat
}.

Definition payee_narration (r : record) : string * string :=
  match search_brackets (description r) with
  | Some (g1, g2) => (str_strip g1, str_strip g2)
  | None => (description r, "")
  end.

(** The key under which [cached_entries] holds the entry of a record. *)
Definition merge_key (r : record) : date * string * string :=
  (posted_date r, card_last_four r, fst (payee_narration r)).

(** The posting a record adds to an entry that exists already. *)
Definition leg (self : Importer) (r : record) : data.Posting :=
  data.mkPosting (Some (account self ++ ":" ++ card_last_four r))
    (Some (data.mkAmount
             (if is_expense r then (- amount r)%Qc else amount r)
             (currency r))).

(** The entry a record creates when its key is new. *)
Definition new_entry (self : Importer) (file_name : string) (r : record)
    (reliable : bool) (predicted_account : option string)
    : data.Transaction :=
  let '(payee, narration) := payee_narration r in
  let own := account self ++ ":" ++ card_last_four r in
  let postings :=
    if is_expense r then
      [ data.mkPosting (Some own)
          (Some (data.neg (data.mkAmount (amount r) (currency r))));
        data.mkPosting
          (if reliable then predicted_account
           else Some (default_expense_account self))
          None ]
    else
      [ data.mkPosting (Some own)
          (Some (data.mkAmount (amount r) (currency r)));
        data.mkPosting
          (if reliable then predicted_account
           else Some (asset_account self))
          None ] in
  let meta := data.new_metadata (basename file_name) 0 ∅ in
  let meta :=
    <["transaction_date" :=
        data.MStr (strftime_Ymd (transaction_date r))]> meta in
  let meta := mark_duplicate ledger (ignore_apps self) apps payee meta in
  {| data.meta := meta;
     data.date_ := posted_date r;
     data.flag := flag_of reliable;
     data.payee := payee;
     data.narration := narration;
     data.tags := ∅;
     data.links := ∅;
     data.postings := postings |}.

(** The classifier runs first; then a cached key appends a posting to the
    cached entry and returns [None], and a new key creates the entry,
    caches it and returns it. *)
Definition _parse_transaction (self : Importer) (file_name : string)
    (r : record) (st : state) : state * option nat :=
  let '(payee, narration) := payee_narration r in
  match run_classifier (classifier self) payee narration with
  | Raise _ => (st, None)
  | Return (reliable, predicted_account) =>
      match cached_entries st !! (posted_date r, card_last_four r, payee) with
      | Some entry =>
          ({| heap :=
                alter
                  (fun e =>
                     data.create_simple_posting e
                       (account self ++ ":" ++ card_last_four r)
                       (if is_expense r then (- amount r)%Qc else amount r)
                       (currency r))
                  entry (heap st);
              cached_entries := cached_entries st |},
           None)
      | None =>
          let entry := length (heap st) in
          ({| heap :=
                heap st
                ++ [new_entry self file_name r reliable predicted_account];
              cached_entries :=
                <[(posted_date r, card_last_four r, payee) := entry]>
                  (cached_entries st) |},
           Some entry)
      end
  end.

(** One turn of the loop of [extract]. *)
Definition extract_step (self : Importer) (file_name : string)
    (acc : state * list nat) (r : record) : state * list nat :=
  let '(st, entries) := acc in
  match _parse_transaction self file_name r st with
  | (st', Some entry) => (st', (entries ++ [entry])%list)
  | (st', None) => (st', entries)
  end.

(** [entries = []; cached_entries = {}] *)
Definition extract_init : state * list nat :=
  ({| heap := []; cached_entries := ∅ |}, []).

Definition extract_run (self : Importer) (file_name : string)
    (records : list record) : state * list nat :=
  foldl (extract_step self file_name) extract_init records.

(** The list [extract] returns, each entry as it is at the end. *)
Definition extract (self : Importer) (file_name : string)
    (records : list record) : list data.Transaction :=
  let '(st, entries) := extract_run self file_name records in
  omap (fun entry => heap st !! entry) entries.

(** *** What the merge is stated with *)

(** The answer of the classifier on a record. *)
Definition classified (self : Importer) (r : record)
    : result (bool * option string) :=
  run_classifier (classifier self)
    (fst (payee_narration r)) (snd (payee_narration r)).

(** The record has key [k] and the classifier returns on it. *)
Definition opens (self : Importer) (k : date * string * string)
    (r : record) : bool :=
  bool_decide (merge_key r = k) && negb (raises (classified self r)).

(** The first record under key [k] on which the classifier returns. *)
Definition first_under (self : Importer) (k : date * string * string)
    (records : list record) : option record :=
  List.find (opens self k) records.

(** Two entries with the same date, flag, payee, narration, metadata, tags
    and links; the postings may differ. *)
Definition same_envelope (t t' : data.Transaction) : Prop :=
  data.meta t = data.meta t' ∧
  data.date_ t = data.date_ t' ∧
  data.flag t = data.flag t' ∧
  data.payee t = data.payee t' ∧
  data.narration t = data.narration t' ∧
  data.tags t = data.tags t' ∧
  data.links t = data.links t'.

(** What holds of the state after the records [pre]: the output lists the
    entries in creation order, and a key is cached exactly when some record
    under it passed the classifier, with the entry the first such record
    created, extended by postings only. *)
Definition run_invariant (self : Importer) (file_name : string)
    (pre : list record) (acc : state * list nat) : Prop :=
  acc.2 = seq 0 (length (heap acc.1)) ∧
  ∀ k,
    match cached_entries acc.1 !! k with
    | None => first_under self k pre = None
    | Some entry =>
        ∃ r1 reliable predicted t,
          first_under self k pre = Some r1 ∧
          classified self r1 = Return (reliable, predicted) ∧
          heap acc.1 !! entry = Some t ∧
          same_envelope t (new_entry self file_name r1 reliable predicted)
    end.


(** The importer with the policy on the known apps set to [b]. *)
Definition set_ignore_apps (b : bool) (self : Importer) : Importer :=
  {| account := account self;
     default_expense_account := default_expense_account self;
     asset_account := asset_account self;
     ignore_apps := b;
     classifier := classifier self |}.

(** *** The account of a file *)

Record PDFStatement : Type := {
  title : string;
  file_date : date;
  records : list record
}.

(** [card_counts.get(card, 0)], the dict being the list of its items in
    insertion order. *)
Fixpoint dict_get (card_counts : list (string * nat)) (card : string)
    : nat :=
  match card_counts with
  | [] => 0
  | (k, v) :: rest => if decide (k = card) then v else dict_get rest card
  end.

(** [card_counts[card] = v]: the value of a key that is there is replaced
    where it stands, a new key goes to the end. *)
Fixpoint dict_set (card_counts : list (string * nat)) (card : string)
    (v : nat) : list (string * nat) :=
  match card_counts with
  | [] => [(card, v)]
  | (k, v') :: rest =>
      if decide (k = card) then (k, v) :: rest
      else (k, v') :: dict_set rest card v
  end.

(** The loop that counts the occurrences of each card. *)
Definition count_cards (records : list record) : list (string * nat) :=
  foldl (fun card_counts r =>
           dict_set card_counts (card_last_four r)
             (dict_get card_counts (card_last_four r) + 1))
    [] records.

(** [max(items, key=...)] on the count, from the best item so far: a later
    item takes its place only when its count is greater. *)
Fixpoint max_from (best : string * nat) (items : list (string * nat))
    : string * nat :=
  match items with
  | [] => best
  | x :: rest => max_from (if best.2 <? x.2 then x else best) rest
  end.

(** [max] of an empty sequence raises [ValueError]. *)
Definition max_by_count (items : list (string * nat))
    : result (string * nat) :=
  match items with
  | [] => Raise ValueError
  | x :: rest => Return (max_from x rest)
  end.

(** [file.convert(extract_pdf_content)] is [None] when the file could not
    be read. *)
Definition file_account (self : Importer) (pdf_content : option PDFStatement)
    : result string :=
  match pdf_content with
  | None => Return (account self)
  | Some pdf =>
      match records pdf with
      | [] => Return (account self)
      | _ :: _ =>
          let card_counts := count_cards (records pdf) in
          let* most_common := max_by_count card_counts in
          Return (account self ++ ":" ++ most_common.1)
      end
  end.

End boc_credit.
End boc_credit.

(** ** What the duplicate marker may change *)

(** [t_on] is [t_off] with nothing changed but the metadata, where the
    reserved key is set to [True] when [marked] holds. *)
Definition only_duplicate_added (ledger : config.LedgerSettings)
    (marked : bool) (t_off t_on : data.Transaction) : Prop :=
  data.postings t_on = data.postings t_off ∧
  data.date_ t_on = data.date_ t_off ∧
  data.payee t_on = data.payee t_off ∧
  data.narration t_on = data.narration t_off ∧
  data.flag t_on = data.flag t_off ∧
  data.tags t_on = data.tags t_off ∧
  data.links t_on = data.links t_off ∧
  data.meta t_on =
    if marked
    then <[config.duplicate_meta ledger := data.MBool true]> (data.meta t_off)
    else data.meta t_off.

(** ** What an unmatched record gives *)

(** The entry is flagged as uncertain and has two postings, the second of
    which, the counter posting, is on the account [fallback]. *)
Definition uncertain_on (fallback : string) (t : data.Transaction) : Prop :=
  data.flag t = "!" ∧
  ∃ own counter,
    data.postings t = [own; counter] ∧ data.account counter = Some fallback.

(** The entry is flagged as sure and has two postings, the second of which,
    the counter posting, is on the account the classifier gave. *)
Definition confident_on (predicted : option string) (t : data.Transaction)
    : Prop :=
  data.flag t = "*" ∧
  ∃ own counter,
    data.postings t = [own; counter] ∧ data.account counter = predicted.

(** ** What the merge of a whole file is stated with *)

(** The records of a file on which the classifier returns: the others are
    passed over. *)
Definition accepted_records `{Python} (self : boc_credit.Importer)
    (records : list boc_credit.record) : list boc_credit.record :=
  filter (fun r => raises (boc_credit.classified self r) = false) records.

(** How many of the records are on the card [card]. *)
Definition card_count (card : string) (records : list boc_credit.record)
    : nat :=
  length (filter (fun r => boc_credit.card_last_four r = card) records).

(** The cards of a list in the order in which they are first seen. *)
Definition first_seen (cards : list string) : list string :=
  foldl (fun seen c => if decide (c ∈ seen) then seen else (seen ++ [c])%list)
    [] cards.

(** The power of ten with exponent [exponent]. *)
Definition power_of_ten (exponent : Z) : Decimal :=
  if (0 <=? exponent)%Z then Q2Qc (inject_Z (10 ^ exponent))
  else (/ Q2Qc (inject_Z (10 ^ (- exponent))))%Qc.

(** A number the default context of [decimal] holds exactly: an integer of
    at most 28 digits times a power of ten whose exponent keeps the number
    within the exponent range of the context.  The unary minus of a
    [Decimal] rounds its result to the context, and raises when it
    overflows; on these numbers it is the exact negation, as the importers
    are modelled with. *)
Definition within_context (a : Decimal) : Prop :=
  ∃ coefficient exponent : Z,
    (Z.abs coefficient < 10 ^ 28)%Z ∧
    (-999999 ≤ exponent ≤ 999971)%Z ∧
    a = (Q2Qc (inject_Z coefficient) * power_of_ten exponent)%Qc.

(** Every explicit amount of the entry is within the context. *)
Definition amounts_within_context (t : data.Transaction) : Prop :=
  Forall (fun p => ∀ a, data.units p = Some a →
                        within_context (data.number a))
    (data.postings t).

(** The amount of a record with the sign it is booked with on the card
    account: negative for an expense. *)
Definition signed_amount (r : boc_credit.record) : Decimal :=
  if boc_credit.is_expense r then (- boc_credit.amount r)%Qc
  else boc_credit.amount r.

(** The signed amounts of the records in currency [cur], added up. *)
Definition charged (cur : string) (records : list boc_credit.record)
    : Decimal :=
  foldr (fun r total =>
           if String.eqb (boc_credit.currency r) cur
           then (signed_amount r + total)%Qc else total)
    0%Qc records.

(** The explicit amounts of the entries in currency [cur], added up. *)
Definition booked (cur : string) (entries : list data.Transaction)
    : Decimal :=
  foldr (fun t total => (data.explicit_sum cur (data.postings t) + total)%Qc)
    0%Qc entries.

(** ** What the metadata is stated with *)

(** The metadata of the entry holds the base name of the file it was read
    from, and line 0. *)
Definition names_file `{Python} (file_name : string) (t : data.Transaction)
    : Prop :=
  data.meta t !! "filename" = Some (data.MStr (basename file_name)) ∧
  data.meta t !! "lineno" = Some (data.MInt 0).

(** The reserved key is in the metadata, set to [True], when [marked] holds,
    and not there at all otherwise. *)
Definition duplicate_key_iff (ledger : config.LedgerSettings)
    (marked : bool) (t : data.Transaction) : Prop :=
  data.meta t !! config.duplicate_meta ledger
  = if marked then Some (data.MBool true) else None.

(** ** What the balance is proved from *)

(** Exactly one posting of the entry is implicit. *)
Definition one_implicit (t : data.Transaction) : Prop :=
  data.implicit_count (data.postings t) = 1.

(** ** A concrete library, for running the code on examples

    Each field agrees with Python on the inputs named in its comment, which
    are the only ones the examples below use. *)

Module sample.

(** Lower case of the ASCII letters. *)
Definition lower_ascii (c : Ascii.ascii) : Ascii.ascii :=
  let n := Ascii.nat_of_ascii c in
  if (65 <=? n) && (n <=? 90) then Ascii.ascii_of_nat (n + 32) else c.

Fixpoint lower (s : string) : string :=
  match s with
  | "" => ""
  | String c s' => String (lower_ascii c) (lower s')
  end.

(** The text after the last slash. *)
Fixpoint basename_from (s : string) : string :=
  match s with
  | "" => ""
  | String c s' =>
      if str_in "/" s' then basename_from s'
      else if String.prefix "/" s then s' else s
  end.

Definition two_digits (n : nat) : string :=
  String (Ascii.ascii_of_nat (48 + n / 10))
    (String (Ascii.ascii_of_nat (48 + n mod 10)) "").

Definition four_digits (n : nat) : string :=
  two_digits (n / 100) ++ two_digits (n mod 100).

(** Leading spaces dropped, then trailing ones. *)
Fixpoint lstrip (s : string) : string :=
  match s with
  | String c s' => if String.prefix " " s then lstrip s' else s
  | "" => ""
  end.

Definition strip (s : string) : string :=
  String.rev (lstrip (String.rev (lstrip s))).

(** The text before the first closing bracket. *)
Fixpoint until_close (s : string) : option string :=
  match s with
  | "" => None
  | String c s' =>
      if String.prefix "]" s then Some ""
      else match until_close s' with
           | Some inside => Some (String c inside)
           | None => None
           end
  end.

(** The two groups of the description pattern: the greedy first group ends
    at the last opening bracket that a closing bracket follows, and the lazy
    second group ends at the first closing bracket after it. *)
Fixpoint brackets (s : string) : option (string * string) :=
  match s with
  | "" => None
  | String c s' =>
      match brackets s' with
      | Some (g1, g2) => Some (String c g1, g2)
      | None =>
          if String.prefix "[" s then
            match until_close s' with
            | Some g2 => Some ("", g2)
            | None => None
            end
          else None
      end
  end.

(** The number a string of ASCII digits writes; [None] on anything else. *)
Definition digit (c : Ascii.ascii) : option nat :=
  let n := Ascii.nat_of_ascii c in
  if (48 <=? n) && (n <=? 57) then Some (n - 48) else None.

Fixpoint number_from (acc : nat) (s : string) : option nat :=
  match s with
  | "" => Some acc
  | String c s' =>
      match digit c with
      | Some d => number_from (10 * acc + d) s'
      | None => None
      end
  end.

Definition number (s : string) : option nat :=
  match s with
  | "" => None
  | _ => number_from 0 s
  end.

(** Three numbers separated by [sep], as in 2024-08-02 and 09:05:30. *)
Definition three_numbers (sep s : string) : result (nat * nat * nat) :=
  match split_once sep s with
  | Some (a, rest) =>
      match split_once sep rest with
      | Some (b, c) =>
          match number a, number b, number c with
          | Some x, Some y, Some z => Return (x, y, z)
          | _, _, _ => Raise ValueError
          end
      | None => Raise ValueError
      end
  | None => Raise ValueError
  end.

(** An amount written with digits and at most one point. *)
Definition amount_of (s : string) : result Decimal :=
  match split_once "." s with
  | Some (whole, fraction) =>
      match number whole, number fraction with
      | Some w, Some f =>
          Return (Q2Qc (Qplus (inject_Z (Z.of_nat w))
                          (Qmake (Z.of_nat f)
                             (Pos.of_nat (10 ^ String.length fraction)))))
      | _, _ => Raise ValueError
      end
  | None =>
      match number s with
      | Some w => Return (Q2Qc (inject_Z (Z.of_nat w)))
      | None => Raise ValueError
      end
  end.

(** The longest run of ASCII digits a text begins with, and what follows
    it. *)
Fixpoint leading_digits (s : string) : string * string :=
  match s with
  | "" => ("", "")
  | String c rest =>
      match digit c with
      | Some _ =>
          let '(digits, tail) := leading_digits rest in
          (String c digits, tail)
      | None => ("", s)
      end
  end.

(** The amount a text begins with: digits, then, if a point follows, the
    point and the digits after it. *)
Definition leading_amount (s : string) : option Decimal :=
  let '(whole, rest) := leading_digits s in
  match whole with
  | "" => None
  | String _ _ =>
      let fraction :=
        if String.prefix "." rest then (leading_digits (str_drop 1 rest)).1
        else "" in
      match amount_of (match fraction with
                       | "" => whole
                       | String _ _ => whole ++ "." ++ fraction
                       end) with
      | Return a => Some a
      | Raise _ => None
      end
  end.

(** The amount after the first fee marker that is followed by a digit. *)
Fixpoint fee_from (note : string) : option Decimal :=
  match (if String.prefix "服务费¥" note
         then leading_amount (str_drop (String.length "服务费¥") note)
         else None) with
  | Some fee => Some fee
  | None =>
      match note with
      | "" => None
      | String _ rest => fee_from rest
      end
  end.

(** - [str_lower]: ASCII text.
    - [str_strip]: text whose white space is the space character.
    - [re_search]: patterns without special characters, where searching is
      a substring test.
    - [getattr_Predicates]: names the class object has no attribute for.
    - [search_brackets]: descriptions of one line.
    - [search_fee]: notes whose digits are ASCII digits.
    - [strftime_HMS], [strftime_Ymd]: times of day, and dates of the years
      1000 to 9999.
    - [strptime_HMS], [strptime_Ymd]: two-digit fields (four for the year)
      within the range of a time of day and of a date.
    - [D]: unsigned amounts written with digits and a point.
    - [basename]: any path. *)
Definition python : Python :=
  {| str_lower := lower;
     str_strip := strip;
     re_search := fun pattern value => Return (str_in pattern value);
     getattr_Predicates := fun _ => Raise AttributeError;
     search_brackets := brackets;
     search_fee := fee_from;
     strftime_HMS := fun '(h, m, s) =>
       two_digits h ++ ":" ++ two_digits m ++ ":" ++ two_digits s;
     strftime_Ymd := fun '(y, m, d) =>
       four_digits y ++ "-" ++ two_digits m ++ "-" ++ two_digits d;
     strptime_HMS := three_numbers ":";
     strptime_Ymd := three_numbers "-";
     D := amount_of;
     basename := basename_from |}.

(** A classifier that raises on every call. *)
Definition failing_classifier : Classifier :=
  fun _ _ => Raise OtherError.

(** A classifier that never matches. *)
Definition unmatched_classifier : Classifier :=
  fun _ _ => Return (false, None).

(** An amount of whole yuan. *)
Definition yuan (n : Z) : Decimal := Q2Qc (inject_Z n).

(** *** Rule files *)

Definition coffee : rule_classify.AccountRule :=
  {| rule_classify.name := "coffee";
     rule_classify.condition := [("payee", [("contains", "starbucks")])];
     rule_classify.prediction_account := "Expenses:Coffee" |}.

Definition taxi : rule_classify.AccountRule :=
  {| rule_classify.name := "taxi";
     rule_classify.condition :=
       [("payee", [("equals", "didi")]);
        ("narration", [("starts_with", "ride"); ("ends_with", "fare")])];
     rule_classify.prediction_account := "Expenses:Transport" |}.

Definition cafe : rule_classify.AccountRule :=
  {| rule_classify.name := "cafe";
     rule_classify.condition := [("narration", [("matches", "latte")])];
     rule_classify.prediction_account := "Expenses:Cafe" |}.

Definition three_rules : rule_classify.RuleAccountClassifier :=
  {| rule_classify.rules := [taxi; coffee; cafe] |}.

(** A rule with an empty block for the payee, after a block for the
    narration that names a predicate the class does not have. *)
Definition catch_all : rule_classify.AccountRule :=
  {| rule_classify.name := "catch-all";
     rule_classify.condition :=
       [("narration", [("includes", "lunch")]); ("payee", [])];
     rule_classify.prediction_account := "Expenses:Misc" |}.

(** The same with the blocks in the other order. *)
Definition catch_all_first : rule_classify.AccountRule :=
  {| rule_classify.name := "catch-all";
     rule_classify.condition :=
       [("narration", [("contains", "dinner")]); ("payee", [])];
     rule_classify.prediction_account := "Expenses:Misc" |}.

(** A rule file whose only rule names a predicate the class does not
    have. *)
Definition mistyped_rule_file : rule_classify.yaml_config :=
  {| rule_classify.yaml_rules :=
       Some [ {| rule_classify.yaml_name := Some "coffee";
                 rule_classify.yaml_condition :=
                   Some [("payee", [("includes", "starbucks")])];
                 rule_classify.yaml_prediction_account :=
                   Some "Expenses:Coffee" |} ] |}.

Definition mistyped_rule : rule_classify.AccountRule :=
  {| rule_classify.name := "coffee";
     rule_classify.condition := [("payee", [("includes", "starbucks")])];
     rule_classify.prediction_account := "Expenses:Coffee" |}.

(** A rule that tests the narration for a refund and then names a predicate
    the class does not have: [classify] raises on a narration with the word
    and answers without a match on any other. *)
Definition refund_rule : rule_classify.AccountRule :=
  {| rule_classify.name := "refunds";
     rule_classify.condition :=
       [("narration", [("contains", "refund"); ("is_refund", "yes")])];
     rule_classify.prediction_account := "Income:Refund" |}.

Definition refund_classifier : Classifier :=
  rule_classify.classify (H := python)
    {| rule_classify.rules := [refund_rule] |}.

(** *** Statements *)

Definition alipay_importer (c : option Classifier) : alipay.Importer :=
  {| alipay.account := "Assets:Alipay";
     alipay.additional_accounts := ∅;
     alipay.default_expense_account := "Expenses:Uncategorized";
     alipay.classifier := c |}.

Definition alipay_row : alipay.record :=
  {| alipay.transaction_time := ((2024, 8, 1), (12, 30, 0));
     alipay.transaction_category := "餐饮美食";
     alipay.transaction_counterparty := "STARBUCKS COFFEE";
     alipay.counterparty_account := "/";
     alipay.product_description := "Latte";
     alipay.income_expense := "支出";
     alipay.amount := yuan 35;
     alipay.payment_method := "余额";
     alipay.transaction_status := "交易成功";
     alipay.transaction_order_number := "2024080122001";
     alipay.merchant_order_number := "/";
     alipay.notes := "" |}.

Definition boc_importer (c : option Classifier) : boc.Importer :=
  {| boc.account := "Assets:BOC";
     boc.default_expense_account := "Expenses:Uncategorized";
     boc.default_income_account := "Income:Uncategorized";
     boc.ignore_apps := true;
     boc.classifier := c |}.

Definition boc_row (cur : string) : boc.record :=
  {| boc.card_last_four := "1234";
     boc.transaction_date := (2024, 8, 2);
     boc.transaction_time := (9, 5, 30);
     boc.currency := cur;
     boc.is_expense := true;
     boc.amount := yuan 20;
     boc.balance := yuan 980;
     boc.transaction_name := "网上快捷支付";
     boc.transaction_channel := "银企对接";
     boc.transaction_site := "";
     boc.comment := "";
     boc.counterparty_account_name := "Bookshop";
     boc.counterparty_card_number := "6222";
     boc.counterparty_bank := "" |}.

Definition boc_credit_importer (c : option Classifier)
    : boc_credit.Importer :=
  {| boc_credit.account := "Liabilities:Credit:BOC";
     boc_credit.default_expense_account := "Expenses:Uncategorized";
     boc_credit.asset_account := "Assets:Uncategorized";
     boc_credit.ignore_apps := true;
     boc_credit.classifier := c |}.

(** A charge of 500.00 at a hotel and, under the same key, a refund of
    120.00. *)
Definition hotel_charge : boc_credit.record :=
  {| boc_credit.transaction_date := (2024, 8, 3);
     boc_credit.posted_date := (2024, 8, 4);
     boc_credit.card_last_four := "1234";
     boc_credit.description := "Hotel X [room]";
     boc_credit.amount := yuan 500;
     boc_credit.currency := "CNY";
     boc_credit.is_expense := true |}.

Definition hotel_refund : boc_credit.record :=
  {| boc_credit.transaction_date := (2024, 8, 4);
     boc_credit.posted_date := (2024, 8, 4);
     boc_credit.card_last_four := "1234";
     boc_credit.description := "Hotel X [refund]";
     boc_credit.amount := yuan 120;
     boc_credit.currency := "CNY";
     boc_credit.is_expense := false |}.

(** A charge of 30.00 on the card [card]. *)
Definition card_charge (card : string) : boc_credit.record :=
  {| boc_credit.transaction_date := (2024, 8, 5);
     boc_credit.posted_date := (2024, 8, 6);
     boc_credit.card_last_four := card;
     boc_credit.description := "Bookshop";
     boc_credit.amount := yuan 30;
     boc_credit.currency := "CNY";
     boc_credit.is_expense := true |}.

(** A statement of BOC credit with the records [records]. *)
Definition boc_credit_statement (records : list boc_credit.record)
    : boc_credit.PDFStatement :=
  {| boc_credit.title := "BOC Credit Card Billing Statement";
     boc_credit.file_date := (2024, 8, 1);
     boc_credit.records := records |}.

Definition wechat_importer (c : option Classifier) : wechat.Importer :=
  {| wechat.account := "Assets:WeChat";
     wechat.fee_account := "Expenses:Fee";
     wechat.additional_accounts := ∅;
     wechat.default_expense_account := "Expenses:Uncategorized";
     wechat.classifier := c |}.

Definition wechat_withdrawal : wechat.record :=
  {| wechat.transaction_time := ((2024, 8, 5), (18, 0, 0));
     wechat.transaction_category := "零钱提现";
     wechat.transaction_counterparty := "Bank";
     wechat.product := "/";
     wechat.income_expense := "/";
     wechat.amount := yuan 1000;
     wechat.payment_method := "零钱";
     wechat.transaction_status := "提现已到账";
     wechat.wechat_trade_no := "4200001";
     wechat.out_trade_no := "/";
     wechat.note := "/" |}.

(** The same withdrawal with a fee of 0.10 written in the note. *)
Definition wechat_withdrawal_with_fee : wechat.record :=
  {| wechat.transaction_time := ((2024, 8, 5), (18, 0, 0));
     wechat.transaction_category := "零钱提现";
     wechat.transaction_counterparty := "Bank";
     wechat.product := "/";
     wechat.income_expense := "/";
     wechat.amount := yuan 1000;
     wechat.payment_method := "零钱";
     wechat.transaction_status := "提现已到账";
     wechat.wechat_trade_no := "4200001";
     wechat.out_trade_no := "/";
     wechat.note := "服务费¥0.10" |}.

(** The cells of two rows of a BOC table, the second in another
    currency. *)
Definition boc_cells (cur amount : string) : list string :=
  [ "2024-08-02"; "09:05:30"; cur; amount; "980.00"; "网上快捷支付";
    "银企对接"; ""; ""; "Bookshop"; "6222"; "" ].

Definition cmb_credit_importer (ignore : bool) : cmb_credit.Importer :=
  {| cmb_credit.account := "Liabilities:Credit:CMB";
     cmb_credit.default_expense_account := "Expenses:Uncategorized";
     cmb_credit.asset_account := "Assets:Uncategorized";
     cmb_credit.ignore_apps := ignore;
     cmb_credit.classifier := None |}.

Definition cmb_credit_repayment : cmb_credit.record :=
  {| cmb_credit.transaction_type := "还款";
     cmb_credit.transaction_date := None;
     cmb_credit.posted_date := (2024, 8, 6);
     cmb_credit.transaction_description := "Auto repayment";
     cmb_credit.amount := yuan 300;
     cmb_credit.card_last_four := "6066" |}.

End sample.

(** * Properties of the rule classifier *)

Section classifier_properties.
Context `{Python}.
Import rule_classify.

Lemma bind_Return {A B : Type} (m : result A) (k : A → result B) (b : B) :
  bind m k = Return b → ∃ a, m = Return a ∧ k a = Return b.
Proof. destruct m as [a|e]; simpl; [eauto | discriminate]. Qed.

(** The loop of [classify] over a rule list that returns a match. *)
Lemma classify_rules_true (rs : list AccountRule) (payee narration : string)
    (acc : option string) :
  classify_rules rs payee narration = Return (true, acc) →
  ∃ i rule,
    rs !! i = Some rule ∧
    acc = Some (prediction_account rule) ∧
    matches rule payee narration = Return true ∧
    ∀ j rule', j < i → rs !! j = Some rule' →
      matches rule' payee narration = Return false.
Proof.
  induction rs as [|r rs IH]; simpl; [discriminate|].
  intros Hc. apply bind_Return in Hc as ([|] & Hm & Hk).
  - assert (acc = Some (prediction_account r)) as -> by congruence.
    exists 0, r. repeat split; [done|].
    intros j rule' Hj. lia.
  - destruct (IH Hk) as (i & rule & Hi & Hacc & Hrule & Hbefore).
    exists (S i), rule. repeat split; try done.
    intros [|j] rule' Hj Hlook; simpl in Hlook.
    + by injection Hlook as <-.
    + apply (Hbefore j); [lia | done].
Qed.

Lemma classify_rules_first (rs : list AccountRule) (payee narration : string)
    (i : nat) (rule : AccountRule) :
  rs !! i = Some rule →
  matches rule payee narration = Return true →
  (∀ j rule', j < i → rs !! j = Some rule' →
     matches rule' payee narration = Return false) →
  classify_rules rs payee narration
  = Return (true, Some (prediction_account rule)).
Proof.
  revert i. induction rs as [|r rs IH]; intros i Hi Hm Hbefore.
  - by rewrite lookup_nil in Hi.
  - destruct i as [|i]; simpl in *.
    + injection Hi as ->. by rewrite Hm.
    + rewrite (Hbefore 0 r); [simpl | lia | done].
      apply (IH i); [done.. |].
      intros j rule' Hj Hlook. apply (Hbefore (S j)); [lia | done].
Qed.

Lemma classify_rules_false (rs : list AccountRule) (payee narration : string)
    (acc : option string) :
  classify_rules rs payee narration = Return (false, acc) ↔
  acc = None ∧ Forall (fun rule => matches rule payee narration = Return false) rs.
Proof.
  induction rs as [|r rs IH]; simpl.
  - split; [intros [= <-]; by split | intros [-> _]; done].
  - split.
    + intros Hc. apply bind_Return in Hc as ([|] & Hm & Hk); [discriminate|].
      apply IH in Hk as [-> Hall]. split; [done|]. by constructor.
    + intros [-> Hall]. inversion Hall as [|? ? Hr Hrs]; subst.
      rewrite Hr; simpl. apply IH; by split.
Qed.

Lemma classify_rules_raise (rs : list AccountRule) (payee narration : string)
    (e : exn) :
  classify_rules rs payee narration = Raise e ↔
  ∃ i rule,
    rs !! i = Some rule ∧
    matches rule payee narration = Raise e ∧
    ∀ j rule', j < i → rs !! j = Some rule' →
      matches rule' payee narration = Return false.
Proof.
  induction rs as [|r rs IH]; simpl.
  - split; [discriminate|]. by intros (i & rule & Hi & _).
  - split.
    + destruct (matches r payee narration) as [[|]|e'] eqn:Hm; simpl.
      * discriminate.
      * intros Hc. apply IH in Hc as (i & rule & Hi & Hrule & Hbefore).
        exists (S i), rule. repeat split; try done.
        intros [|j] rule' Hj Hlook; simpl in Hlook.
        -- by injection Hlook as <-.
        -- apply (Hbefore j); [lia | done].
      * intros [= ->]. exists 0, r. repeat split; try done.
        intros j rule' Hj. lia.
    + intros (i & rule & Hi & Hrule & Hbefore).
      destruct i as [|i]; simpl in Hi.
      * injection Hi as ->. by rewrite Hrule.
      * rewrite (Hbefore 0 r); [simpl | lia | done].
        apply IH. exists i, rule. repeat split; try done.
        intros j rule' Hj Hlook. apply (Hbefore (S j)); [lia | done].
Qed.

(** C3.  [classify] answers with the account of the first rule, in the order
    of the rule list, whose condition holds: an answer [(True, account)] comes
    from a rule that matches while every rule before it does not; a rule that
    matches while every rule before it does not is the one answered with; and
    the answer after all rules have failed to match, and only then, is
    [(False, None)].  The one other outcome is that [classify] gives no
    answer: it raises what the first rule that does not return [False]
    raises. *)
Theorem classify_first_match_wins (self : RuleAccountClassifier)
    (payee narration : string) :
  (∀ acc, classify self payee narration = Return (true, acc) →
     ∃ i rule,
       rules self !! i = Some rule ∧
       acc = Some (prediction_account rule) ∧
       matches rule payee narration = Return true ∧
       ∀ j rule', j < i → rules self !! j = Some rule' →
         matches rule' payee narration = Return false) ∧
  (∀ i rule,
     rules self !! i = Some rule →
     matches rule payee narration = Return true →
     (∀ j rule', j < i → rules self !! j = Some rule' →
        matches rule' payee narration = Return false) →
     classify self payee narration
     = Return (true, Some (prediction_account rule))) ∧
  (Forall (fun rule => matches rule payee narration = Return false)
     (rules self) ↔
   classify self payee narration = Return (false, None)) ∧
  (∀ e, classify self payee narration = Raise e ↔
     ∃ i rule,
       rules self !! i = Some rule ∧
       matches rule payee narration = Raise e ∧
       ∀ j rule', j < i → rules self !! j = Some rule' →
         matches rule' payee narration = Return false).
Proof.
  unfold classify. split; [|split; [|split]].
  - intros acc. apply classify_rules_true.
  - intros i rule. apply classify_rules_first.
  - rewrite classify_rules_false. split; [by intros | by intros [_ ?]].
  - intros e. apply classify_rules_raise.
Qed.

(** The outer loop of [matches] over the fields before and from a given
    field. *)
Lemma matches_condition_app
    (pre rest : list (string * list (string * string)))
    (payee narration : string) :
  matches_condition (pre ++ rest)%list payee narration
  = match matches_condition pre payee narration with
    | Return true => Return true
    | Return false => matches_condition rest payee narration
    | Raise e => Raise e
    end.
Proof.
  induction pre as [|[field conditions] pre IH]; simpl; [done|].
  case_decide; [done|].
  destruct (all_hold _ conditions) as [[|]|e]; simpl; done.
Qed.

(** C9, as amended.  A rule whose condition binds a field to an empty
    predicate map matches every input whose value for that field is not
    empty, provided that no block of a field listed before it raises; when
    such a block raises, [matches] raises the same. *)
Theorem empty_block_matches (rule : AccountRule) (field : string)
    (pre post : list (string * list (string * string)))
    (payee narration : string) :
  condition rule = (pre ++ (field, []) :: post)%list →
  field_value field payee narration ≠ "" →
  (raises (matches_condition pre payee narration) = false →
   matches rule payee narration = Return true) ∧
  (∀ e, matches_condition pre payee narration = Raise e →
        matches rule payee narration = Raise e).
Proof.
  intros Hcond Hvalue. unfold matches.
  rewrite Hcond, matches_condition_app.
  destruct (matches_condition pre payee narration) as [[|]|e]; simpl.
  - by split.
  - split; [|done]. intros _. by case_decide.
  - split; [discriminate|]. by intros e' [= ->].
Qed.

(** Loading copies the three keys of every rule and looks at nothing
    else. *)
Lemma load_rule_list_total (rs : list yaml_rule) :
  Forall (fun y => is_Some (yaml_name y) ∧ is_Some (yaml_condition y)
                   ∧ is_Some (yaml_prediction_account y)) rs →
  ∃ loaded,
    load_rule_list rs = Return loaded ∧
    Forall2 (fun y rule =>
               yaml_name y = Some (name rule) ∧
               yaml_condition y = Some (condition rule) ∧
               yaml_prediction_account y = Some (prediction_account rule))
      rs loaded.
Proof.
  induction rs as [|y rs IH]; intros Hall.
  - exists []. by split.
  - inversion Hall as [|? ? ([n Hn] & [c Hc] & [a Ha]) Hrs]; subst.
    destruct (IH Hrs) as (loaded & Hload & Hrel).
    exists ({| name := n; condition := c; prediction_account := a |}
            :: loaded).
    simpl. rewrite Hn, Hc, Ha. simpl. rewrite Hload. simpl.
    split; [done|]. by constructor.
Qed.

Lemma matches_condition_empty_values
    (cond : list (string * list (string * string))) :
  matches_condition cond "" "" = Return false.
Proof.
  induction cond as [|[field conditions] cond IH]; simpl; [done|].
  case_decide as Hv; [done|].
  exfalso. apply Hv. unfold field_value. by repeat case_decide.
Qed.

(** The inner loop of [matches] over the predicates before and from a given
    predicate. *)
Lemma all_hold_app (value : string) (earlier later : list (string * string)) :
  all_hold value (earlier ++ later)%list
  = match all_hold value earlier with
    | Return true => all_hold value later
    | Return false => Return false
    | Raise e => Raise e
    end.
Proof.
  induction earlier as [|[predicate_name target] earlier IH]; simpl; [done|].
  destruct (get_predicate predicate_name) as [predicate_func|e]; simpl;
    [|done].
  destruct (predicate_func _ _) as [[|]|e]; simpl; done.
Qed.

(** C4, as amended.  Loading never looks at predicate names: construction
    succeeds on every rule file whose rules carry their three keys and keeps
    each condition as written.  A name that [get_predicate] cannot resolve
    raises only when [matches] reaches it: [classify] raises when the rules
    before the rule with that name do not match, the blocks before its block
    do not hold, the value of its field is not empty and the predicates
    before it in the block hold.  When payee and narration are both empty no
    predicate is reached, and [classify] answers [(False, None)] whatever the
    rules name. *)
Theorem unknown_predicate_found_at_match_time :
  (∀ cfg rs,
     yaml_rules cfg = Some rs →
     Forall (fun y => is_Some (yaml_name y) ∧ is_Some (yaml_condition y)
                      ∧ is_Some (yaml_prediction_account y)) rs →
     ∃ self,
       __init__ cfg = Return self ∧
       Forall2 (fun y rule =>
                  yaml_name y = Some (name rule) ∧
                  yaml_condition y = Some (condition rule) ∧
                  yaml_prediction_account y = Some (prediction_account rule))
         rs (rules self)) ∧
  (∀ self i rule blocks_before field earlier predicate_name target later
      blocks_after payee narration e,
     get_predicate predicate_name = Raise e →
     rules self !! i = Some rule →
     (∀ j rule', j < i → rules self !! j = Some rule' →
        matches rule' payee narration = Return false) →
     condition rule
     = (blocks_before
        ++ (field, (earlier ++ (predicate_name, target) :: later)%list)
           :: blocks_after)%list →
     matches_condition blocks_before payee narration = Return false →
     field_value field payee narration ≠ "" →
     all_hold (field_value field payee narration) earlier = Return true →
     classify self payee narration = Raise e) ∧
  (∀ self, classify self "" "" = Return (false, None)).
Proof.
  split; [|split].
  - intros cfg rs Hrs Hall. unfold __init__, _load_rules.
    rewrite Hrs. simpl.
    destruct (load_rule_list_total rs Hall) as (loaded & -> & Hrel).
    simpl. by exists {| rules := loaded |}.
  - intros self i rule blocks_before field earlier predicate_name target
      later blocks_after payee narration e Hget Hi Hbefore Hcond Hblocks
      Hvalue Hearlier.
    unfold classify. apply classify_rules_raise.
    exists i, rule. split; [done|]. split; [|done].
    unfold matches. rewrite Hcond, matches_condition_app, Hblocks. simpl.
    case_decide; [done|].
    rewrite all_hold_app, Hearlier. simpl. by rewrite Hget.
  - intros [rs]. unfold classify. simpl.
    apply classify_rules_false. split; [done|].
    apply Forall_forall. intros rule _. apply matches_condition_empty_values.
Qed.

End classifier_properties.

(** * Properties of the importers *)

Section balance.
Context `{Python}.
Context (ledger : config.LedgerSettings).

Lemma implicit_count_app (ps qs : list data.Posting) :
  data.implicit_count (ps ++ qs)
  = data.implicit_count ps + data.implicit_count qs.
Proof. unfold data.implicit_count. by rewrite list.filter_app, List.length_app. Qed.

(** One implicit posting takes what is left in every currency. *)
Lemma one_implicit_balanced (ps : list data.Posting) :
  data.implicit_count ps = 1 → data.balanced ps.
Proof.
  intros Hone. split; [lia|].
  exists (fun cur => (- data.explicit_sum cur ps)%Qc).
  intros cur. rewrite Hone. simpl. ring.
Qed.

Lemma two_postings_one_implicit is_expense own amount reliable predicted
    expense_fallback other_fallback :
  data.implicit_count
    (two_postings is_expense own amount reliable predicted
       expense_fallback other_fallback) = 1.
Proof. by destruct is_expense. Qed.

Lemma Forall_omap_Some {A B : Type} (P : B → Prop) (f : A → option B)
    (l : list A) :
  (∀ a b, f a = Some b → P b) → Forall P (omap f l).
Proof.
  intros Hf. induction l as [|a l IH]; simpl; [constructor|].
  destruct (f a) as [b|] eqn:Hb; [constructor; eauto | done].
Qed.

Lemma alipay_one_implicit self file_name row t :
  alipay._parse_transaction self file_name row = Some t → one_implicit t.
Proof.
  unfold alipay._parse_transaction. case_decide; [done|].
  destruct (run_classifier _ _ _) as [[reliable predicted]|e]; [|done].
  intros [= <-]. apply two_postings_one_implicit.
Qed.

Lemma wechat_one_implicit self file_name r t :
  wechat._parse_transaction self file_name r = Some t → one_implicit t.
Proof.
  unfold wechat._parse_transaction.
  destruct (run_classifier _ _ _) as [[reliable predicted]|e]; [|done].
  intros [= <-]. unfold one_implicit. simpl. by repeat case_decide.
Qed.

Lemma boc_one_implicit self file_name card r t :
  boc._parse_transaction ledger self file_name card r = Some t →
  one_implicit t.
Proof.
  unfold boc._parse_transaction. case_decide; [|done].
  destruct (run_classifier _ _ _) as [[reliable predicted]|e]; [|done].
  intros [= <-]. apply two_postings_one_implicit.
Qed.

Lemma cmb_one_implicit self file_name r t :
  cmb._parse_transaction ledger self file_name r = Some t → one_implicit t.
Proof.
  unfold cmb._parse_transaction.
  destruct (run_classifier _ _ _) as [[reliable predicted]|e]; [|done].
  intros [= <-]. apply two_postings_one_implicit.
Qed.

Lemma cmb_credit_one_implicit self file_name r t :
  cmb_credit._parse_transaction ledger self file_name r = Some t →
  one_implicit t.
Proof.
  unfold cmb_credit._parse_transaction.
  destruct (split_description _ _) as [payee narration].
  destruct (run_classifier _ _ _) as [[reliable predicted]|e]; [|done].
  intros [= <-]. apply two_postings_one_implicit.
Qed.

Lemma citic_credit_one_implicit self file_name r t :
  citic_credit._parse_transaction ledger self file_name r = Some t →
  one_implicit t.
Proof.
  unfold citic_credit._parse_transaction.
  destruct (split_description _ _) as [payee narration].
  destruct (run_classifier _ _ _) as [[reliable predicted]|e]; [|done].
  intros [= <-]. apply two_postings_one_implicit.
Qed.

Lemma new_entry_one_implicit self file_name r reliable predicted :
  one_implicit (boc_credit.new_entry ledger self file_name r reliable predicted).
Proof.
  unfold boc_credit.new_entry, one_implicit.
  destruct (boc_credit.payee_narration r) as [payee narration]. simpl.
  by destruct (boc_credit.is_expense r).
Qed.

Lemma create_simple_posting_one_implicit t acc n cur :
  one_implicit t → one_implicit (data.create_simple_posting t acc n cur).
Proof.
  unfold one_implicit. simpl. rewrite implicit_count_app. intros ->. done.
Qed.

End balance.

(** ** The run of [extract] in [boc_credit] *)

Section merge_engine.
Context `{Python}.
Context (ledger : config.LedgerSettings).
Context (self : boc_credit.Importer) (file_name : string).
Import boc_credit.

Local Abbreviation step := (extract_step ledger self file_name).
Local Abbreviation run := (extract_run ledger self file_name).

Lemma payee_narration_eta (r : record) :
  payee_narration r = (fst (payee_narration r), snd (payee_narration r)).
Proof. by destruct (payee_narration r). Qed.

(** The three ways a turn of the loop can go. *)
Lemma step_raise st entries r e :
  classified self r = Raise e → step (st, entries) r = (st, entries).
Proof.
  unfold classified, extract_step, _parse_transaction.
  rewrite (payee_narration_eta r). simpl. by intros ->.
Qed.

Lemma step_hit st entries r reliable predicted entry :
  classified self r = Return (reliable, predicted) →
  cached_entries st !! merge_key r = Some entry →
  step (st, entries) r
  = ({| heap :=
          alter (fun e =>
                   data.create_simple_posting e
                     (account self ++ ":" ++ card_last_four r)
                     (if is_expense r then (- amount r)%Qc else amount r)
                     (currency r))
            entry (heap st);
        cached_entries := cached_entries st |}, entries).
Proof.
  unfold classified, merge_key, extract_step, _parse_transaction.
  rewrite (payee_narration_eta r). simpl. by intros -> ->.
Qed.

Lemma step_miss st entries r reliable predicted :
  classified self r = Return (reliable, predicted) →
  cached_entries st !! merge_key r = None →
  step (st, entries) r
  = ({| heap :=
          (heap st
           ++ [new_entry ledger self file_name r reliable predicted])%list;
        cached_entries :=
          <[merge_key r := length (heap st)]> (cached_entries st) |},
     (entries ++ [length (heap st)])%list).
Proof.
  unfold classified, merge_key, extract_step, _parse_transaction.
  rewrite (payee_narration_eta r). simpl. by intros -> ->.
Qed.

Lemma run_snoc pre r : run (pre ++ [r])%list = step (run pre) r.
Proof. unfold extract_run. by rewrite foldl_app. Qed.

Lemma first_under_snoc k pre r :
  first_under self k (pre ++ [r])%list
  = match first_under self k pre with
    | Some r1 => Some r1
    | None => if opens self k r then Some r else None
    end.
Proof.
  unfold first_under. induction pre as [|a pre IH]; simpl; [done|].
  by destruct (opens self k a).
Qed.

Lemma opens_other k r : merge_key r ≠ k → opens self k r = false.
Proof. intros Hk. unfold opens. by rewrite bool_decide_eq_false_2. Qed.

Lemma opens_raise k r e : classified self r = Raise e → opens self k r = false.
Proof. intros Hr. unfold opens. rewrite Hr. simpl. apply andb_false_r. Qed.

Lemma opens_own r reliable predicted :
  classified self r = Return (reliable, predicted) →
  opens self (merge_key r) r = true.
Proof. intros Hr. unfold opens. rewrite Hr. by rewrite bool_decide_eq_true_2. Qed.

Lemma same_envelope_refl t : same_envelope t t.
Proof. by repeat split. Qed.

Lemma same_envelope_posting t t' acc n cur :
  same_envelope t t' →
  same_envelope (data.create_simple_posting t acc n cur) t'.
Proof. done. Qed.

Lemma run_invariant_holds pre :
  run_invariant ledger self file_name pre (run pre).
Proof.
  induction pre as [|r pre IH] using rev_ind.
  - split; [done|]. intros k. simpl. by rewrite lookup_empty.
  - rewrite run_snoc. destruct (run pre) as [st entries].
    destruct IH as [Hentries Hcache]. simpl in Hentries, Hcache.
    destruct (classified self r) as [[reliable predicted]|e] eqn:Hr.
    + destruct (cached_entries st !! merge_key r) as [entry|] eqn:Hkey.
      * rewrite (step_hit _ _ _ _ _ _ Hr Hkey). split; simpl.
        { by rewrite length_alter. }
        intros k. specialize (Hcache k). rewrite first_under_snoc.
        destruct (cached_entries st !! k) as [entry'|] eqn:Hk.
        -- destruct Hcache as (r1 & rel & pred & t & -> & Hr1 & Ht & Henv).
           destruct (decide (entry' = entry)) as [->|Hne].
           ++ exists r1, rel, pred. eexists. split; [done|]. split; [done|].
              split; [by rewrite list_lookup_alter_eq, Ht|].
              by apply same_envelope_posting.
           ++ exists r1, rel, pred, t. split; [done|]. split; [done|].
              split; [by rewrite list_lookup_alter_ne|done].
        -- rewrite Hcache. rewrite opens_other; [done|].
           intros <-. congruence.
      * rewrite (step_miss _ _ _ _ _ Hr Hkey). split; simpl.
        { rewrite Hentries, List.length_app. simpl.
          by rewrite Nat.add_1_r, seq_S. }
        intros k. rewrite first_under_snoc.
        destruct (decide (merge_key r = k)) as [<-|Hne].
        -- rewrite lookup_insert_eq.
           specialize (Hcache (merge_key r)). rewrite Hkey in Hcache.
           rewrite Hcache, (opens_own _ _ _ Hr).
           exists r, reliable, predicted. eexists.
           split; [done|]. split; [done|].
           split; [by rewrite lookup_app_r, Nat.sub_diag by lia|].
           apply same_envelope_refl.
        -- rewrite lookup_insert_ne by done.
           specialize (Hcache k). rewrite (opens_other _ _ Hne).
           destruct (cached_entries st !! k) as [entry'|].
           ++ destruct Hcache as (r1 & rel & pred & t & -> & Hr1 & Ht & Henv).
              exists r1, rel, pred, t. split; [done|]. split; [done|].
              split; [|done]. rewrite lookup_app_l; [done|].
              by eapply lookup_lt_Some.
           ++ by rewrite Hcache.
    + rewrite (step_raise _ _ _ _ Hr). split; [done|].
      intros k. rewrite first_under_snoc, (opens_raise _ _ _ Hr).
      specialize (Hcache k). simpl.
      destruct (cached_entries st !! k) as [entry'|].
      * destruct Hcache as (r1 & rel & pred & t & -> & Hrest).
        by exists r1, rel, pred, t.
      * by rewrite Hcache.
Qed.

Lemma omap_agree {A B : Type} (f g : A → option B) (l : list A) :
  (∀ a, a ∈ l → f a = g a) → omap f l = omap g l.
Proof.
  induction l as [|a l IH]; intros Hfg; csimpl; [done|].
  rewrite (Hfg a) by constructor.
  assert (omap f l = omap g l) as ->; [|done].
  apply IH. intros b Hb. apply Hfg. by constructor.
Qed.

Lemma omap_lookup_seq {A : Type} (l : list A) :
  omap (fun i => l !! i) (seq 0 (length l)) = l.
Proof.
  induction l as [|a l IH] using rev_ind; [done|].
  rewrite List.length_app. simpl. rewrite Nat.add_1_r, seq_S. simpl.
  rewrite omap_app. simpl.
  rewrite lookup_app_r, Nat.sub_diag by lia. simpl.
  f_equal. rewrite <- IH at 2.
  apply omap_agree. intros i Hi.
  apply elem_of_seq in Hi. by rewrite lookup_app_l by lia.
Qed.

(** [extract] returns the entries in creation order, as they are at the
    end of the run. *)
Lemma extract_heap records :
  extract ledger self file_name records = heap (run records).1.
Proof.
  unfold extract. pose proof (run_invariant_holds records) as [Hentries _].
  fold (run records). destruct (run records) as [st entries].
  simpl in *. rewrite Hentries. apply omap_lookup_seq.
Qed.

(** Every entry of the run, created or extended, has one implicit
    posting. *)
Lemma heap_one_implicit records :
  Forall one_implicit (heap (run records).1).
Proof.
  induction records as [|r pre IH] using rev_ind; [by constructor|].
  rewrite run_snoc. destruct (run pre) as [st entries]. simpl in IH.
  destruct (classified self r) as [[reliable predicted]|e] eqn:Hr.
  - destruct (cached_entries st !! merge_key r) as [entry|] eqn:Hkey.
    + rewrite (step_hit _ _ _ _ _ _ Hr Hkey). simpl.
      apply Forall_alter; [done|].
      intros t _ Ht. by apply create_simple_posting_one_implicit.
    + rewrite (step_miss _ _ _ _ _ Hr Hkey). simpl.
      apply Forall_app. split; [done|].
      constructor; [|constructor]. apply new_entry_one_implicit.
  - by rewrite (step_raise _ _ _ _ Hr).
Qed.

End merge_engine.

Section balance_invariant.
Context `{Python}.
Context (ledger : config.LedgerSettings).

Lemma Forall_balanced (ts : list data.Transaction) :
  Forall one_implicit ts →
  Forall (fun t => data.balanced (data.postings t)) ts.
Proof.
  apply Forall_impl. intros t. apply one_implicit_balanced.
Qed.

(** C1.  Every entry an importer returns balances: its postings hold at
    most one implicit posting, and the explicit amounts of each currency
    together with the implicit posting sum to zero.  This covers the two
    postings of the ordinary case, the three postings of a WeChat withdrawal
    and the entries of [boc_credit] that later records extended. *)
Theorem balance_invariant :
  (∀ self file_name records,
     Forall (fun t => data.balanced (data.postings t))
       (alipay.extract self file_name records)) ∧
  (∀ self file_name records,
     Forall (fun t => data.balanced (data.postings t))
       (wechat.extract self file_name records)) ∧
  (∀ self file_name records,
     Forall (fun t => data.balanced (data.postings t))
       (boc.extract ledger self file_name records)) ∧
  (∀ self file_name records,
     Forall (fun t => data.balanced (data.postings t))
       (boc_credit.extract ledger self file_name records)) ∧
  (∀ self file_name records,
     Forall (fun t => data.balanced (data.postings t))
       (cmb.extract ledger self file_name records)) ∧
  (∀ self file_name records,
     Forall (fun t => data.balanced (data.postings t))
       (cmb_credit.extract ledger self file_name records)) ∧
  (∀ self file_name records,
     Forall (fun t => data.balanced (data.postings t))
       (citic_credit.extract ledger self file_name records)).
Proof.
  repeat split; intros self file_name records; apply Forall_balanced.
  - apply Forall_omap_Some. apply alipay_one_implicit.
  - apply Forall_reverse, Forall_omap_Some. apply wechat_one_implicit.
  - apply Forall_omap_Some. intros r t. apply boc_one_implicit.
  - rewrite extract_heap. apply heap_one_implicit.
  - apply Forall_reverse, Forall_omap_Some. apply cmb_one_implicit.
  - apply Forall_omap_Some. apply cmb_credit_one_implicit.
  - apply Forall_omap_Some. apply citic_credit_one_implicit.
Qed.

End balance_invariant.

(** ** The leg merge of [boc_credit] *)

Section leg_merge.
Context `{Python}.
Context (ledger : config.LedgerSettings).
Context (self : boc_credit.Importer) (file_name : string).
Import boc_credit.

Lemma alter_as_insert {A : Type} (f : A → A) (l : list A) (i : nat) (a : A) :
  l !! i = Some a → alter f i l = <[i := f a]> l.
Proof.
  intros Ha. rewrite list_insert_alter.
  apply list_alter_ext; [|done]. intros x Hx. congruence.
Qed.


End leg_merge.

(** ** Unmatched records, withdrawals, foreign currency, repayments *)

Section synthesis.
Context `{Python}.
Context (ledger : config.LedgerSettings).

Lemma two_postings_unmatched is_expense own amount predicted
    expense_fallback other_fallback :
  ∃ p q,
    two_postings is_expense own amount false predicted
      expense_fallback other_fallback = [p; q] ∧
    data.account q
    = Some (if is_expense then expense_fallback else other_fallback).
Proof. destruct is_expense; simpl; eauto. Qed.

Lemma split_eta (description sep : string) :
  split_description sep description
  = (fst (split_description sep description),
     snd (split_description sep description)).
Proof. by destruct (split_description sep description). Qed.

(** C5, as amended.  When the classifier answers without a match, or none
    is configured, a record that reaches the synthesis gives an entry flagged
    ["!"] whose counter posting is on the fallback account of the importer:
    every record of [cmb], [cmb_credit] and [citic_credit], an Alipay record
    whose payee is not 余额宝, a BOC record in 人民币, the entry a BOC credit
    record creates, and a WeChat record that is neither an income nor a
    withdrawal.  When the classifier raises, the record gives no entry. *)
Theorem unmatched_is_uncertain :
  (∀ self file_name r predicted,
     alipay.classified self r = Return (false, predicted) →
     alipay.transaction_counterparty r ≠ "余额宝" →
     ∃ t, alipay._parse_transaction self file_name r = Some t ∧
          uncertain_on
            (if bool_decide (alipay.income_expense r = "支出")
             then alipay.default_expense_account self
             else alipay.income_account) t) ∧
  (∀ self file_name r predicted,
     boc.classified self r = Return (false, predicted) →
     boc.currency r = "人民币" →
     ∃ t, boc._parse_transaction ledger self file_name
            (boc.card_last_four r) r = Some t ∧
          uncertain_on
            (if boc.is_expense r then boc.default_expense_account self
             else boc.default_income_account self) t) ∧
  (∀ self file_name r predicted,
     cmb.classified self r = Return (false, predicted) →
     ∃ t, cmb._parse_transaction ledger self file_name r = Some t ∧
          uncertain_on
            (if cmb.is_expense r then cmb.default_expense_account self
             else cmb.income_account self) t) ∧
  (∀ self file_name r predicted,
     cmb_credit.classified self r = Return (false, predicted) →
     ∃ t, cmb_credit._parse_transaction ledger self file_name r = Some t ∧
          uncertain_on
            (if bool_decide (cmb_credit.transaction_type r = "消费")
             then cmb_credit.default_expense_account self
             else cmb_credit.asset_account self) t) ∧
  (∀ self file_name r predicted,
     citic_credit.classified self r = Return (false, predicted) →
     ∃ t, citic_credit._parse_transaction ledger self file_name r = Some t ∧
          uncertain_on
            (if citic_credit.positive_amount r
             then citic_credit.default_expense_account self
             else citic_credit.asset_account self) t) ∧
  (∀ self file_name r predicted,
     uncertain_on
       (if boc_credit.is_expense r
        then boc_credit.default_expense_account self
        else boc_credit.asset_account self)
       (boc_credit.new_entry ledger self file_name r false predicted)) ∧
  (∀ self file_name r predicted,
     wechat.classified self r = Return (false, predicted) →
     wechat.income_expense r ≠ "收入" →
     wechat.transaction_category r ≠ "零钱提现" →
     ∃ t, wechat._parse_transaction self file_name r = Some t ∧
          uncertain_on (wechat.default_expense_account self) t) ∧
  (∀ self file_name r e,
     alipay.classified self r = Raise e →
     alipay._parse_transaction self file_name r = None) ∧
  (∀ self file_name card r e,
     boc.classified self r = Raise e →
     boc._parse_transaction ledger self file_name card r = None) ∧
  (∀ self file_name r e,
     cmb.classified self r = Raise e →
     cmb._parse_transaction ledger self file_name r = None) ∧
  (∀ self file_name r e,
     cmb_credit.classified self r = Raise e →
     cmb_credit._parse_transaction ledger self file_name r = None) ∧
  (∀ self file_name r e,
     citic_credit.classified self r = Raise e →
     citic_credit._parse_transaction ledger self file_name r = None) ∧
  (∀ self file_name r st e,
     boc_credit.classified self r = Raise e →
     boc_credit._parse_transaction ledger self file_name r st = (st, None)) ∧
  (∀ self file_name r e,
     wechat.classified self r = Raise e →
     wechat._parse_transaction self file_name r = None).
Proof.
  repeat apply conj.
  - intros self file_name r predicted Hc Hpayee.
    unfold alipay._parse_transaction, alipay.classified in *. simpl in Hc.
    case_decide; [done|]. rewrite Hc. eexists. split; [done|].
    split; [done|]. simpl.
    destruct (two_postings_unmatched
                (bool_decide (alipay.income_expense r = "支出"))
                (alipay._get_asset_account self (alipay.payment_method r))
                (alipay.amount r) predicted
                (alipay.default_expense_account self) alipay.income_account)
      as (p & q & -> & Hq).
    by exists p, q.
  - intros self file_name r predicted Hc Hcur.
    unfold boc._parse_transaction, boc.classified in *. simpl in Hc.
    case_decide; [|done]. rewrite Hc. eexists. split; [done|].
    split; [done|]. simpl.
    destruct (two_postings_unmatched (boc.is_expense r)
                (boc.account self ++ ":" ++ boc.card_last_four r)
                (boc.amount r) predicted
                (boc.default_expense_account self)
                (boc.default_income_account self))
      as (p & q & -> & Hq).
    by exists p, q.
  - intros self file_name r predicted Hc.
    unfold cmb._parse_transaction, cmb.classified in *. simpl in Hc.
    rewrite Hc. eexists. split; [done|]. split; [done|]. simpl.
    destruct (two_postings_unmatched (cmb.is_expense r)
                (cmb.account self ++ ":" ++ cmb.card_last_four r)
                (cmb.amount r) predicted
                (cmb.default_expense_account self) (cmb.income_account self))
      as (p & q & -> & Hq).
    by exists p, q.
  - intros self file_name r predicted Hc.
    unfold cmb_credit._parse_transaction, cmb_credit.classified,
      cmb_credit.payee_narration in *.
    rewrite split_eta, Hc. eexists. split; [done|]. split; [done|]. simpl.
    destruct (two_postings_unmatched
                (bool_decide (cmb_credit.transaction_type r = "消费"))
                (cmb_credit.account self ++ ":" ++ cmb_credit.card_last_four r)
                (cmb_credit.amount r) predicted
                (cmb_credit.default_expense_account self)
                (cmb_credit.asset_account self))
      as (p & q & -> & Hq).
    by exists p, q.
  - intros self file_name r predicted Hc.
    unfold citic_credit._parse_transaction, citic_credit.classified,
      citic_credit.payee_narration in *.
    rewrite split_eta, Hc. eexists. split; [done|]. split; [done|]. simpl.
    destruct (two_postings_unmatched (citic_credit.positive_amount r)
                (citic_credit.account self ++ ":"
                 ++ citic_credit.card_last_four r)
                (citic_credit.amount r) predicted
                (citic_credit.default_expense_account self)
                (citic_credit.asset_account self))
      as (p & q & -> & Hq).
    by exists p, q.
  - intros self file_name r predicted. unfold boc_credit.new_entry.
    destruct (boc_credit.payee_narration r) as [payee narration].
    split; [done|]. simpl.
    destruct (boc_credit.is_expense r); by eexists _, _.
  - intros self file_name r predicted Hc Hincome Hwithdrawal.
    unfold wechat._parse_transaction, wechat.classified in *. simpl in Hc.
    rewrite Hc. eexists. split; [done|]. split; simpl.
    + by rewrite !bool_decide_eq_false_2.
    + repeat case_decide; try done. by eexists _, _.
  - intros self file_name r e Hc.
    unfold alipay._parse_transaction, alipay.classified in *. simpl in Hc.
    case_decide; [done|]. by rewrite Hc.
  - intros self file_name card r e Hc.
    unfold boc._parse_transaction, boc.classified in *. simpl in Hc.
    case_decide; [|done]. by rewrite Hc.
  - intros self file_name r e Hc.
    unfold cmb._parse_transaction, cmb.classified in *. simpl in Hc.
    by rewrite Hc.
  - intros self file_name r e Hc.
    unfold cmb_credit._parse_transaction, cmb_credit.classified,
      cmb_credit.payee_narration in *.
    by rewrite split_eta, Hc.
  - intros self file_name r e Hc.
    unfold citic_credit._parse_transaction, citic_credit.classified,
      citic_credit.payee_narration in *.
    by rewrite split_eta, Hc.
  - intros self file_name r st e Hc.
    unfold boc_credit._parse_transaction, boc_credit.classified in *.
    destruct (boc_credit.payee_narration r) as [payee narration].
    simpl in Hc. by rewrite Hc.
  - intros self file_name r e Hc.
    unfold wechat._parse_transaction, wechat.classified in *. simpl in Hc.
    by rewrite Hc.
Qed.


Lemma table_rows_app (card : string) (pre rest : list (list string))
    (records : list boc.record) :
  boc.table_rows card (pre ++ rest)%list records
  = bind (boc.table_rows card pre records) (boc.table_rows card rest).
Proof.
  revert records. induction pre as [|row pre IH]; intros records; [done|].
  simpl. destruct (boc.parse_row card row) as [parsed|e]; [|done].
  simpl. apply IH.
Qed.

(** C7.  A BOC record in a currency other than 人民币 gives no entry, and
    the records before and after it are extracted as if it were not there.
    The same holds where the statement is read: a row of a table in another
    currency, whose date and time read well, gives no record, and the rows
    before and after it are read as if it were not there. *)
Theorem foreign_currency_is_skipped :
  (∀ (self : boc.Importer) (file_name : string)
      (pre post : list boc.record) (r : boc.record),
     boc.currency r ≠ "人民币" →
     (∀ card, boc._parse_transaction ledger self file_name card r = None) ∧
     boc.extract ledger self file_name (pre ++ r :: post)%list
     = (boc.extract ledger self file_name pre
        ++ boc.extract ledger self file_name post)%list) ∧
  (∀ (card : string) (row : list string) (c0 c1 cur : string)
      (d : date) (t : time),
     row !! 0 = Some c0 → str_in "记账日期" c0 = false →
     strptime_Ymd c0 = Return d →
     row !! 1 = Some c1 → strptime_HMS c1 = Return t →
     row !! 2 = Some cur → cur ≠ "人民币" →
     boc.parse_row card row = Return None ∧
     ∀ rows_before rows_after records,
       boc.table_rows card (rows_before ++ row :: rows_after)%list records
       = boc.table_rows card (rows_before ++ rows_after)%list records).
Proof.
  split.
  - intros self file_name pre post r Hcur.
    assert (∀ card,
              boc._parse_transaction ledger self file_name card r = None)
      as Hskip.
    { intros card. unfold boc._parse_transaction. by case_decide. }
    split; [done|].
    unfold boc.extract. rewrite omap_app. csimpl. by rewrite Hskip.
  - intros card row c0 c1 cur d t H0 Hheader Hd H1 Ht H2 Hcur.
    assert (boc.parse_row card row = Return None) as Hrow.
    { unfold boc.parse_row, boc.cell.
      rewrite H0. simpl. rewrite Hheader, Hd. simpl.
      rewrite H1. simpl. rewrite Ht. simpl. rewrite H2. simpl.
      by case_decide. }
    split; [done|]. intros rows_before rows_after records.
    rewrite !table_rows_app.
    destruct (boc.table_rows card rows_before records) as [recs|e]; [|done].
    simpl. by rewrite Hrow.
Qed.

(** C10.  Every entry a repayment line (还款) of a CMB credit statement
    gives has the reserved duplicate key set to [True], whatever the policy
    on the known apps says and whatever the payee is; and the line gives an
    entry unless the classifier raises. *)
Theorem repayment_is_duplicate (self : cmb_credit.Importer)
    (file_name : string) (r : cmb_credit.record) :
  cmb_credit.transaction_type r = "还款" →
  (∀ t,
     cmb_credit._parse_transaction ledger self file_name r = Some t →
     data.meta t !! config.duplicate_meta ledger = Some (data.MBool true)) ∧
  (cmb_credit._parse_transaction ledger self file_name r = None ↔
   raises (cmb_credit.classified self r) = true).
Proof.
  intros Htype.
  unfold cmb_credit._parse_transaction, cmb_credit.classified,
    cmb_credit.payee_narration.
  rewrite split_eta.
  destruct (run_classifier _ _ _) as [[reliable predicted]|e]; simpl.
  - split; [|done]. intros t [= <-]. simpl.
    case_decide; [|done]. apply lookup_insert_eq.
  - done.
Qed.

End synthesis.

(** ** The duplicate marker *)

Section duplicate_flag.
Context `{Python}.
Context (ledger : config.LedgerSettings).

(** The entries [boc_credit] holds with the policy off and on, record after
    record: the same output positions, the same cache, and entries that
    differ in the marker only. *)
Lemma boc_credit_runs_related (self : boc_credit.Importer)
    (file_name : string) (records : list boc_credit.record) :
  let off := boc_credit.extract_run ledger
               (boc_credit.set_ignore_apps false self) file_name records in
  let on := boc_credit.extract_run ledger
              (boc_credit.set_ignore_apps true self) file_name records in
  off.2 = on.2 ∧
  boc_credit.cached_entries off.1 = boc_credit.cached_entries on.1 ∧
  Forall2
    (fun t_off t_on =>
       only_duplicate_added ledger
         (any_in boc_credit.apps (data.payee t_off)) t_off t_on)
    (boc_credit.heap off.1) (boc_credit.heap on.1).
Proof.
  induction records as [|r pre IH] using rev_ind.
  - simpl. repeat split. constructor.
  - simpl in *. rewrite !run_snoc.
    destruct (boc_credit.extract_run ledger
                (boc_credit.set_ignore_apps false self) file_name pre)
      as [st_off e_off].
    destruct (boc_credit.extract_run ledger
                (boc_credit.set_ignore_apps true self) file_name pre)
      as [st_on e_on].
    destruct IH as (He & Hcache & Hheap). simpl in He, Hcache, Hheap.
    subst e_on.
    destruct (boc_credit.classified self r) as [[reliable predicted]|e]
      eqn:Hr.
    + destruct (boc_credit.cached_entries st_off !! boc_credit.merge_key r)
        as [entry|] eqn:Hkey.
      * rewrite (step_hit ledger (boc_credit.set_ignore_apps false self)
                   file_name st_off e_off r reliable predicted entry Hr Hkey).
        rewrite Hcache in Hkey.
        rewrite (step_hit ledger (boc_credit.set_ignore_apps true self)
                   file_name st_on e_off r reliable predicted entry Hr Hkey).
        simpl. repeat split; [done|].
        apply Forall2_alter; [done|].
        intros t_off t_on _ _ (Hp & Hrest). split; [|done].
        simpl. by rewrite Hp.
      * rewrite (step_miss ledger (boc_credit.set_ignore_apps false self)
                   file_name st_off e_off r reliable predicted Hr Hkey).
        rewrite Hcache in Hkey.
        rewrite (step_miss ledger (boc_credit.set_ignore_apps true self)
                   file_name st_on e_off r reliable predicted Hr Hkey).
        assert (length (boc_credit.heap st_off)
                = length (boc_credit.heap st_on)) as Hlen
          by (by eapply Forall2_length).
        simpl. rewrite Hlen, Hcache.
        repeat split; [].
        apply Forall2_app; [done|]. constructor; [|constructor].
        unfold boc_credit.new_entry.
        destruct (boc_credit.payee_narration r) as [payee narration].
        by repeat split.
    + rewrite (step_raise ledger (boc_credit.set_ignore_apps false self)
                 file_name st_off e_off r e Hr).
      rewrite (step_raise ledger (boc_credit.set_ignore_apps true self)
                 file_name st_on e_off r e Hr).
      by repeat split.
Qed.

(** C8.  With the policy on the known apps on instead of off, an importer
    gives an entry for the same records, and each entry differs from the one
    given with the policy off in its metadata only, where the reserved
    duplicate key is set to [True] when the text the importer inspects (the
    narration in [cmb], the payee elsewhere) holds a marker of a known app:
    postings, amounts, date, payee, narration and flag are the same. *)
Theorem duplicate_flag_is_additive :
  (∀ self file_name card r,
     option_Forall2
       (fun t_off t_on =>
          only_duplicate_added ledger
            (any_in boc.apps (data.payee t_off)) t_off t_on)
       (boc._parse_transaction ledger (boc.set_ignore_apps false self)
          file_name card r)
       (boc._parse_transaction ledger (boc.set_ignore_apps true self)
          file_name card r)) ∧
  (∀ self file_name r,
     option_Forall2
       (fun t_off t_on =>
          only_duplicate_added ledger
            (any_in cmb.apps (data.narration t_off)) t_off t_on)
       (cmb._parse_transaction ledger (cmb.set_ignore_apps false self)
          file_name r)
       (cmb._parse_transaction ledger (cmb.set_ignore_apps true self)
          file_name r)) ∧
  (∀ self file_name r,
     option_Forall2
       (fun t_off t_on =>
          only_duplicate_added ledger
            (any_in cmb_credit.apps (data.payee t_off)) t_off t_on)
       (cmb_credit._parse_transaction ledger
          (cmb_credit.set_ignore_apps false self) file_name r)
       (cmb_credit._parse_transaction ledger
          (cmb_credit.set_ignore_apps true self) file_name r)) ∧
  (∀ self file_name r,
     option_Forall2
       (fun t_off t_on =>
          only_duplicate_added ledger
            (any_in citic_credit.apps (data.payee t_off)) t_off t_on)
       (citic_credit._parse_transaction ledger
          (citic_credit.set_ignore_apps false self) file_name r)
       (citic_credit._parse_transaction ledger
          (citic_credit.set_ignore_apps true self) file_name r)) ∧
  (∀ self file_name records,
     Forall2
       (fun t_off t_on =>
          only_duplicate_added ledger
            (any_in boc_credit.apps (data.payee t_off)) t_off t_on)
       (boc_credit.extract ledger (boc_credit.set_ignore_apps false self)
          file_name records)
       (boc_credit.extract ledger (boc_credit.set_ignore_apps true self)
          file_name records)).
Proof.
  repeat apply conj.
  - intros self file_name card r. unfold boc._parse_transaction. simpl.
    case_decide; [|constructor].
    destruct (run_classifier _ _ _) as [[reliable predicted]|e];
      constructor.
    by repeat split.
  - intros self file_name r. unfold cmb._parse_transaction. simpl.
    destruct (run_classifier _ _ _) as [[reliable predicted]|e];
      constructor.
    by repeat split.
  - intros self file_name r. unfold cmb_credit._parse_transaction.
    rewrite split_eta. simpl.
    destruct (run_classifier _ _ _) as [[reliable predicted]|e];
      constructor.
    repeat split. simpl.
    case_decide; by destruct (str_in _ _ || _).
  - intros self file_name r. unfold citic_credit._parse_transaction.
    rewrite split_eta. simpl.
    destruct (run_classifier _ _ _) as [[reliable predicted]|e];
      constructor.
    by repeat split.
  - intros self file_name records. rewrite !extract_heap.
    apply (boc_credit_runs_related self file_name records).
Qed.

End duplicate_flag.

(** * The properties on concrete statements *)

Section examples.
Import sample.
Import rule_classify.

Local Existing Instance python.

(** The balance is a real constraint: explicit postings that do not sum to
    zero, and two implicit postings, do not balance. *)
Example explicit_postings_must_cancel :
  data.balanced
    [ data.mkPosting (Some "Assets:Card") (Some (data.mkAmount (yuan (-5)) "CNY"));
      data.mkPosting (Some "Expenses:Food") (Some (data.mkAmount (yuan 5) "CNY")) ] ∧
  ¬ data.balanced
    [ data.mkPosting (Some "Assets:Card") (Some (data.mkAmount (yuan (-5)) "CNY"));
      data.mkPosting (Some "Expenses:Food") (Some (data.mkAmount (yuan 4) "CNY")) ] ∧
  ¬ data.balanced
    [ data.mkPosting (Some "Assets:Card") None;
      data.mkPosting (Some "Expenses:Food") None ].
Proof.
  split; [|split].
  - split; [vm_compute; lia|]. exists (fun _ => 0%Qc). intros cur.
    case_decide as Hcount; [|by vm_compute in Hcount].
    cbn [data.explicit_sum data.units data.currency data.number].
    destruct (String.eqb "CNY" cur); apply Qc_is_canon; reflexivity.
  - intros [_ [fill Hfill]]. specialize (Hfill "CNY"). by vm_compute in Hfill.
  - intros [Hcount _]. vm_compute in Hcount. lia.
Qed.

(** C3 on a rule file of three rules: the second rule answers although the
    third matches as well, and an input no rule matches is left unmatched. *)
Lemma classify_first_match_wins_witness :
  classify three_rules "STARBUCKS COFFEE" "Latte"
  = Return (true, Some "Expenses:Coffee") ∧
  classify three_rules "Bookshop" "novel" = Return (false, None) ∧
  ∃ i rule,
    rules three_rules !! i = Some rule ∧
    Some "Expenses:Coffee" = Some (prediction_account rule) ∧
    matches rule "STARBUCKS COFFEE" "Latte" = Return true ∧
    ∀ j rule', j < i → rules three_rules !! j = Some rule' →
      matches rule' "STARBUCKS COFFEE" "Latte" = Return false.
Proof.
  pose proof (classify_first_match_wins three_rules "STARBUCKS COFFEE" "Latte")
    as (Hfrom & Hfirst & _).
  pose proof (classify_first_match_wins three_rules "Bookshop" "novel")
    as (_ & _ & Hnone & _).
  split; [|split].
  - apply (Hfirst 1 coffee); [reflexivity | reflexivity |].
    intros [|j] rule' Hj Hl; [|lia].
    injection Hl as <-. reflexivity.
  - apply Hnone. repeat constructor.
  - apply Hfrom. reflexivity.
Defined.

(** C9 fails when a block before the empty one raises: the narration block
    of [catch_all] names a predicate the class does not have. *)
Lemma empty_block_counterexample :
  condition catch_all !! 1 = Some ("payee", []) ∧
  field_value "payee" "shop" "lunch" = "shop" ∧
  matches catch_all "shop" "lunch" = Raise AttributeError.
Proof. repeat split. Qed.

Lemma empty_block_matches_witness :
  matches catch_all_first "shop" "lunch" = Return true ∧
  matches catch_all "shop" "lunch" = Raise AttributeError.
Proof.
  split.
  - apply (empty_block_matches catch_all_first "payee"
             [("narration", [("contains", "dinner")])] [] "shop" "lunch");
      [reflexivity | discriminate | reflexivity].
  - apply (empty_block_matches catch_all "payee"
             [("narration", [("includes", "lunch")])] [] "shop" "lunch");
      [reflexivity | discriminate | reflexivity].
Defined.

(** C4 fails on a rule file with a mistyped predicate: the classifier is
    built, the error shows when a payee is classified, and not at all when
    there is no payee. *)
Lemma unknown_predicate_counterexample :
  __init__ mistyped_rule_file = Return {| rules := [mistyped_rule] |} ∧
  raises (get_predicate "includes") = true ∧
  classify {| rules := [mistyped_rule] |} "Starbucks" "latte"
  = Raise AttributeError ∧
  classify {| rules := [mistyped_rule] |} "" "latte" = Return (false, None).
Proof. repeat split. Qed.

Lemma unknown_predicate_found_at_match_time_witness :
  (∃ self,
     __init__ mistyped_rule_file = Return self ∧
     Forall2
       (fun y rule =>
          yaml_name y = Some (name rule) ∧
          yaml_condition y = Some (condition rule) ∧
          yaml_prediction_account y = Some (prediction_account rule))
       [ {| yaml_name := Some "coffee";
            yaml_condition := Some [("payee", [("includes", "starbucks")])];
            yaml_prediction_account := Some "Expenses:Coffee" |} ]
       (rule_classify.rules self)) ∧
  classify {| rules := [mistyped_rule; coffee] |} "Starbucks" "latte"
  = Raise AttributeError ∧
  classify {| rules := [mistyped_rule; coffee] |} "" "" = Return (false, None).
Proof.
  pose proof unknown_predicate_found_at_match_time as (Hload & Hraise & Hquiet).
  split; [|split].
  - apply (Hload mistyped_rule_file); [reflexivity|].
    repeat constructor; by eexists.
  - apply (Hraise {| rules := [mistyped_rule; coffee] |} 0 mistyped_rule
             [] "payee" [] "includes" "starbucks" [] []
             "Starbucks" "latte" AttributeError);
      try reflexivity; [intros j rule' Hj; lia | discriminate].
  - apply Hquiet.
Defined.



(** C5 fails when the classifier raises: the record gives no entry. *)
Lemma classifier_failure_counterexample :
  alipay.transaction_counterparty alipay_row ≠ "余额宝" ∧
  alipay._parse_transaction (alipay_importer (Some failing_classifier))
    "alipay.csv" alipay_row = None ∧
  boc._parse_transaction config.default_ledger
    (boc_importer (Some failing_classifier)) "boc.pdf" "1234"
    (boc_row "人民币") = None.
Proof. repeat split; discriminate. Qed.

Lemma unmatched_is_uncertain_witness :
  (∃ t, alipay._parse_transaction (alipay_importer None) "alipay.csv"
          alipay_row = Some t ∧
        uncertain_on "Expenses:Uncategorized" t) ∧
  (∃ t, boc._parse_transaction config.default_ledger
          (boc_importer (Some unmatched_classifier)) "boc.pdf" "1234"
          (boc_row "人民币") = Some t ∧
        uncertain_on "Expenses:Uncategorized" t) ∧
  alipay._parse_transaction (alipay_importer (Some failing_classifier))
    "alipay.csv" alipay_row = None.
Proof.
  pose proof (unmatched_is_uncertain config.default_ledger)
    as (Halipay & Hboc & _ & _ & _ & _ & _ & Hraise & _).
  split; [|split].
  - apply (Halipay (alipay_importer None) "alipay.csv" alipay_row None);
      [reflexivity | discriminate].
  - apply (Hboc (boc_importer (Some unmatched_classifier)) "boc.pdf"
             (boc_row "人民币") None); reflexivity.
  - apply (Hraise (alipay_importer (Some failing_classifier)) "alipay.csv"
             alipay_row OtherError). reflexivity.
Defined.


(** The two withdrawals as they are booked, the entries coming out in
    reverse: no fee where the note holds none, and the fee of 0.10 read
    from the note. *)
Example withdrawal_fee_read :
  ((fun t =>
      (fun p => (data.account p,
                 (fun a => Qcanon.this (data.number a)) <$> data.units p))
      <$> data.postings t)
   <$> wechat.extract (wechat_importer None) "wechat.csv"
         [wechat_withdrawal_with_fee; wechat_withdrawal])
  = [ [ (Some "Assets:WeChat", Some (-1000 # 1)%Q);
        (Some "Assets:WeChat", None);
        (Some "Expenses:Fee", Some (0 # 1)%Q) ];
      [ (Some "Assets:WeChat", Some (-1000 # 1)%Q);
        (Some "Assets:WeChat", None);
        (Some "Expenses:Fee", Some (1 # 10)%Q) ] ].
Proof. vm_compute. reflexivity. Qed.

Lemma foreign_currency_is_skipped_witness :
  ((∀ card,
      boc._parse_transaction config.default_ledger (boc_importer None)
        "boc.pdf" card (boc_row "美元") = None) ∧
   boc.extract config.default_ledger (boc_importer None) "boc.pdf"
     ([boc_row "人民币"] ++ boc_row "美元" :: [boc_row "人民币"])%list
   = (boc.extract config.default_ledger (boc_importer None) "boc.pdf"
        [boc_row "人民币"]
      ++ boc.extract config.default_ledger (boc_importer None) "boc.pdf"
           [boc_row "人民币"])%list) ∧
  (boc.parse_row "1234" (boc_cells "美元" "-3.00") = Return None ∧
   ∀ rows_before rows_after records,
     boc.table_rows "1234"
       (rows_before ++ boc_cells "美元" "-3.00" :: rows_after)%list records
     = boc.table_rows "1234" (rows_before ++ rows_after)%list records).
Proof.
  pose proof (foreign_currency_is_skipped config.default_ledger)
    as [Hrecord Hrow].
  split.
  - apply (Hrecord (boc_importer None) "boc.pdf"
             [boc_row "人民币"] [boc_row "人民币"] (boc_row "美元")).
    discriminate.
  - apply (Hrow "1234" (boc_cells "美元" "-3.00")
             "2024-08-02" "09:05:30" "美元" (2024, 8, 2) (9, 5, 30));
      try reflexivity.
    discriminate.
Defined.

Lemma repayment_is_duplicate_witness :
  (∀ t,
     cmb_credit._parse_transaction config.default_ledger
       (cmb_credit_importer false) "cmb.pdf" cmb_credit_repayment = Some t →
     data.meta t !! "__duplicate__" = Some (data.MBool true)) ∧
  (cmb_credit._parse_transaction config.default_ledger
     (cmb_credit_importer false) "cmb.pdf" cmb_credit_repayment = None ↔
   raises (cmb_credit.classified (cmb_credit_importer false)
             cmb_credit_repayment) = true).
Proof.
  apply (repayment_is_duplicate config.default_ledger
           (cmb_credit_importer false) "cmb.pdf" cmb_credit_repayment).
  reflexivity.
Defined.

(** The charge and the refund with no classifier configured: one entry of
    three postings, flagged as uncertain. *)
Example merged_entry :
  (fun t => (data.flag t, data.payee t, data.narration t, data.postings t))
  <$> boc_credit.extract config.default_ledger (boc_credit_importer None)
        "statement.pdf" [hotel_charge; hotel_refund]
  = [ ("!", "Hotel X", "room",
       [ data.mkPosting (Some "Liabilities:Credit:BOC:1234")
           (Some (data.mkAmount (yuan (-500)) "CNY"));
         data.mkPosting (Some "Expenses:Uncategorized") None;
         data.mkPosting (Some "Liabilities:Credit:BOC:1234")
           (Some (data.mkAmount (yuan 120) "CNY")) ]) ].
Proof. vm_compute. reflexivity. Qed.

(** The coffee of the specification, with the rule file as classifier: the
    rule gives the account and the entry is flagged as sure. *)
Example classified_entry :
  (fun t => (data.flag t, data.postings t))
  <$> alipay._parse_transaction
        (alipay_importer (Some (classify three_rules))) "alipay.csv"
        alipay_row
  = Some ("*",
          [ data.mkPosting (Some "Assets:Alipay") None;
            data.mkPosting (Some "Expenses:Coffee")
              (Some (data.mkAmount (yuan 35) "CNY")) ]).
Proof. vm_compute. reflexivity. Qed.

(** A repayment with the policy on the known apps off: the marker is
    there. *)
Example repayment_entry :
  (fun t => data.meta t !! "__duplicate__")
  <$> cmb_credit._parse_transaction config.default_ledger
        (cmb_credit_importer false) "cmb.pdf" cmb_credit_repayment
  = Some (Some (data.MBool true)).
Proof. vm_compute. reflexivity. Qed.

(** Two rows of a BOC table with a row in dollars between them: two
    records. *)
Example rows_read :
  match boc.table_rows "1234"
          [ boc_cells "人民币" "-20.00"; boc_cells "美元" "-3.00";
            boc_cells "人民币" "15.50" ] [] with
  | Return records =>
      (fun r => (boc.is_expense r, Qcanon.this (boc.amount r))) <$> records
  | Raise _ => []
  end
  = [(true, 20 # 1); (false, 31 # 2)]%Q.
Proof. vm_compute. reflexivity. Qed.

End examples.

(** * Further properties of the rule classifier *)

Section strings.

Lemma prefix_spec (s1 s2 : string) :
  String.prefix s1 s2 = true ↔ ∃ rest, s2 = s1 ++ rest.
Proof.
  revert s2. induction s1 as [|c s1 IH]; intros s2; simpl.
  - split; [intros _; by exists s2 | by destruct s2].
  - destruct s2 as [|d s2]; simpl.
    + split; [done | intros [rest Hrest]; discriminate].
    + destruct (Ascii.ascii_dec c d) as [->|Hne].
      * rewrite IH. split; intros [rest Hrest]; exists rest.
        -- by rewrite Hrest.
        -- by injection Hrest.
      * split; [done|]. intros [rest Hrest]. injection Hrest as Hcd _.
        by destruct Hne.
Qed.

Lemma str_in_unfold (needle hay : string) :
  str_in needle hay
  = if String.prefix needle hay then true
    else match hay with
         | "" => false
         | String _ hay' => str_in needle hay'
         end.
Proof. by destruct hay. Qed.

Lemma str_in_spec (needle hay : string) :
  str_in needle hay = true ↔ ∃ before after, hay = before ++ needle ++ after.
Proof.
  induction hay as [|c hay IH]; rewrite str_in_unfold.
  - destruct (String.prefix needle "") eqn:Hp.
    + split; [|done]. intros _. apply prefix_spec in Hp as [rest Hrest].
      by exists "", rest.
    + split; [done|]. intros (before & after & Heq).
      destruct before as [|b before]; [|discriminate].
      simpl in Heq. assert (String.prefix needle "" = true) as Hp'
        by (apply prefix_spec; by exists after).
      congruence.
  - destruct (String.prefix needle (String c hay)) eqn:Hp.
    + split; [|done]. intros _. apply prefix_spec in Hp as [rest Hrest].
      by exists "", rest.
    + rewrite IH. split.
      * intros (before & after & ->). by exists (String c before), after.
      * intros (before & after & Heq). destruct before as [|b before].
        -- simpl in Heq. assert (String.prefix needle (String c hay) = true)
             as Hp' by (apply prefix_spec; by exists after).
           congruence.
        -- injection Heq as _ Heq. by exists before, after.
Qed.

Lemma str_endswith_unfold (value target : string) :
  str_endswith value target
  = if String.eqb value target then true
    else match value with
         | "" => false
         | String _ value' => str_endswith value' target
         end.
Proof. by destruct value. Qed.

Lemma str_endswith_spec (value target : string) :
  str_endswith value target = true ↔ ∃ before, value = before ++ target.
Proof.
  induction value as [|c value IH]; rewrite str_endswith_unfold.
  - destruct (String.eqb_spec "" target) as [<-|Hne].
    + split; [|done]. intros _. by exists "".
    + split; [done|]. intros [before Heq].
      destruct before; [|discriminate]. by destruct Hne.
  - destruct (String.eqb_spec (String c value) target) as [<-|Hne].
    + split; [|done]. intros _. by exists "".
    + rewrite IH. split.
      * intros [before ->]. by exists (String c before).
      * intros [before Heq]. destruct before as [|b before].
        -- by destruct Hne.
        -- injection Heq as _ Heq. by exists before.
Qed.

Lemma str_drop_prefix (s1 rest : string) :
  str_drop (String.length s1) (s1 ++ rest) = rest.
Proof. induction s1 as [|c s1 IH]; simpl; [by destruct rest | done]. Qed.

End strings.

Section more_classifier.
Context `{Python}.
Import rule_classify.

(** X1.  What the four string predicates decide: [equals] holds exactly of
    equal texts, [contains] exactly when the target occurs in the value,
    [starts_with] exactly when the value begins with the target and
    [ends_with] exactly when it ends with it; none of them raises. *)
Theorem predicates_decide (value target : string) :
  (equals value target = Return true ↔ value = target) ∧
  (contains value target = Return true ↔
   ∃ before after, value = before ++ target ++ after) ∧
  (starts_with value target = Return true ↔ ∃ after, value = target ++ after) ∧
  (ends_with value target = Return true ↔ ∃ before, value = before ++ target) ∧
  raises (equals value target) = false ∧
  raises (contains value target) = false ∧
  raises (starts_with value target) = false ∧
  raises (ends_with value target) = false.
Proof.
  unfold equals, contains, starts_with, ends_with.
  repeat split; try done.
  - intros [= Hb]. by apply bool_decide_eq_true in Hb.
  - intros ->. by rewrite bool_decide_eq_true_2.
  - intros [= Hb]. by apply str_in_spec.
  - intros Hex. f_equal. by apply str_in_spec.
  - intros [= Hb]. by apply prefix_spec.
  - intros Hex. f_equal. by apply prefix_spec.
  - intros [= Hb]. by apply str_endswith_spec.
  - intros Hex. f_equal. by apply str_endswith_spec.
Qed.

Lemma all_hold_lower (value value' : string)
    (conditions : list (string * string)) :
  str_lower value = str_lower value' →
  all_hold value conditions = all_hold value' conditions.
Proof.
  intros Hlower.
  induction conditions as [|[predicate_name target] conditions IH]; simpl;
    [done|].
  rewrite Hlower.
  destruct (get_predicate predicate_name) as [predicate_func|e]; simpl;
    [|done].
  destruct (predicate_func _ _) as [[|]|e]; simpl; done.
Qed.

Lemma matches_condition_lower
    (cond : list (string * list (string * string)))
    (payee payee' narration narration' : string) :
  str_lower payee = str_lower payee' → (payee = "" ↔ payee' = "") →
  str_lower narration = str_lower narration' →
  (narration = "" ↔ narration' = "") →
  matches_condition cond payee narration
  = matches_condition cond payee' narration'.
Proof.
  intros Hp Hpe Hn Hne.
  induction cond as [|[field conditions] cond IH]; simpl; [done|].
  assert (str_lower (field_value field payee narration)
          = str_lower (field_value field payee' narration')) as Hv.
  { unfold field_value. by repeat case_decide. }
  assert (field_value field payee narration = ""
          ↔ field_value field payee' narration' = "") as Hve.
  { unfold field_value. by repeat case_decide. }
  rewrite (all_hold_lower _ _ conditions Hv), IH.
  repeat case_decide; try done; tauto.
Qed.

(** X2.  Matching ignores case: two inputs with the same lower-case payee
    and narration, each empty in the one exactly when it is in the other,
    get the same answer from every rule and from [classify]. *)
Theorem classification_ignores_case (payee payee' narration narration' : string) :
  str_lower payee = str_lower payee' → (payee = "" ↔ payee' = "") →
  str_lower narration = str_lower narration' →
  (narration = "" ↔ narration' = "") →
  (∀ rule, matches rule payee narration = matches rule payee' narration') ∧
  (∀ self, classify self payee narration = classify self payee' narration').
Proof.
  intros Hp Hpe Hn Hne.
  assert (∀ rule, matches rule payee narration
                  = matches rule payee' narration') as Hrule.
  { intros rule. by apply matches_condition_lower. }
  split; [done|]. intros [rs]. unfold classify. simpl.
  induction rs as [|r rs IH]; simpl; [done|].
  by rewrite Hrule, IH.
Qed.

(** The predicates of a block all resolve and hold of the value. *)
Lemma all_hold_true (value : string) (conditions : list (string * string)) :
  all_hold value conditions = Return true ↔
  Forall (fun c => ∃ predicate_func,
            get_predicate c.1 = Return predicate_func ∧
            predicate_func (str_lower value) (str_lower c.2) = Return true)
    conditions.
Proof.
  induction conditions as [|[predicate_name target] conditions IH]; simpl.
  - split; [constructor | done].
  - split.
    + intros Hall.
      destruct (get_predicate predicate_name) as [predicate_func|e] eqn:Hg;
        [|done].
      simpl in Hall.
      destruct (predicate_func _ _) as [[|]|e] eqn:Hf; simpl in Hall;
        try done.
      constructor; [by exists predicate_func | by apply IH].
    + intros Hall. inversion Hall as [|? ? (f & Hg & Hf) Hrest]; subst.
      simpl in Hg, Hf. rewrite Hg. simpl. rewrite Hf. simpl. by apply IH.
Qed.

Lemma all_hold_false (value : string) (conditions : list (string * string)) :
  all_hold value conditions = Return false →
  ∃ c predicate_func,
    c ∈ conditions ∧
    get_predicate c.1 = Return predicate_func ∧
    predicate_func (str_lower value) (str_lower c.2) = Return false.
Proof.
  induction conditions as [|[predicate_name target] conditions IH]; simpl;
    [done|].
  destruct (get_predicate predicate_name) as [predicate_func|e] eqn:Hg;
    [|done].
  simpl. destruct (predicate_func _ _) as [[|]|e] eqn:Hf; simpl; [| |done].
  - intros Hrest. destruct (IH Hrest) as (c & f & Hc & Hcg & Hcf).
    exists c, f. split; [by constructor | done].
  - intros _. exists (predicate_name, target), predicate_func.
    split; [constructor | done].
Qed.

(** X3.  A rule is the disjunction of its blocks and a block the
    conjunction of its predicates: when [matches] returns [True], the rule
    has a block for a field whose value is not empty all of whose predicates
    hold of that value; when it returns [False], every block for a field
    whose value is not empty has a predicate that does not hold. *)
Theorem rule_is_or_of_and (rule : AccountRule) (payee narration : string) :
  (matches rule payee narration = Return true →
   ∃ field conditions,
     (field, conditions) ∈ condition rule ∧
     field_value field payee narration ≠ "" ∧
     Forall (fun c => ∃ predicate_func,
               get_predicate c.1 = Return predicate_func ∧
               predicate_func (str_lower (field_value field payee narration))
                 (str_lower c.2) = Return true)
       conditions) ∧
  (matches rule payee narration = Return false →
   ∀ field conditions,
     (field, conditions) ∈ condition rule →
     field_value field payee narration ≠ "" →
     ∃ c predicate_func,
       c ∈ conditions ∧
       get_predicate c.1 = Return predicate_func ∧
       predicate_func (str_lower (field_value field payee narration))
         (str_lower c.2) = Return false).
Proof.
  unfold matches. destruct rule as [n cond a]. simpl. split.
  - induction cond as [|[field conditions] cond IH]; simpl; [done|].
    case_decide as Hv.
    + intros Hm. destruct (IH Hm) as (f & cs & Hin & Hrest).
      exists f, cs. split; [by constructor | done].
    + destruct (all_hold _ conditions) as [[|]|e] eqn:Hall; simpl; [| |done].
      * intros _. exists field, conditions.
        split; [constructor|]. split; [done|]. by apply all_hold_true.
      * intros Hm. destruct (IH Hm) as (f & cs & Hin & Hrest).
        exists f, cs. split; [by constructor | done].
  - induction cond as [|[field conditions] cond IH]; simpl.
    + intros _ f cs Hin. by apply elem_of_nil in Hin.
    + case_decide as Hv.
      * intros Hm f cs Hin Hne. apply elem_of_cons in Hin as [[= -> ->]|Hin];
          [done | by apply IH].
      * destruct (all_hold _ conditions) as [[|]|e] eqn:Hall; simpl;
          [done| |done].
        intros Hm f cs Hin Hne. apply elem_of_cons in Hin as [[= -> ->]|Hin];
          [by apply all_hold_false | by apply IH].
Qed.

(** X4.  Blocks for fields other than payee and narration are never
    evaluated: a rule answers as it does with these blocks removed, whatever
    predicates they name, and a rule that has no other block never matches
    and never raises. *)
Theorem other_fields_are_ignored (rule : AccountRule)
    (payee narration : string) :
  matches rule payee narration
  = matches_condition
      (filter (fun block => block.1 = "payee" ∨ block.1 = "narration")
         (condition rule))
      payee narration ∧
  (Forall (fun block => block.1 ≠ "payee" ∧ block.1 ≠ "narration")
     (condition rule) →
   matches rule payee narration = Return false).
Proof.
  unfold matches. destruct rule as [n cond a]. simpl. split.
  - induction cond as [|[field conditions] cond IH]; simpl; [done|].
    rewrite filter_cons. simpl.
    destruct (decide (field = "payee" ∨ field = "narration")) as [Hk|Hk].
    + simpl. case_decide; [done|].
      destruct (all_hold _ conditions) as [[|]|e]; simpl; done.
    + assert (field_value field payee narration = "") as ->; [|done].
      unfold field_value. repeat case_decide; tauto.
  - induction 1 as [|[field conditions] cond [Hp Hn] _ IH]; simpl; [done|].
    assert (field_value field payee narration = "") as ->; [|done].
    unfold field_value. simpl in Hp, Hn. by repeat case_decide.
Qed.

(** On a mapping whose rules are mappings, the loop over the document is the
    loop over the rules. *)
Lemma load_items_mappings (ys : list yaml_rule) :
  load_items (item_mapping <$> ys) = load_rule_list ys.
Proof.
  induction ys as [|y ys IH]; [done|].
  rewrite fmap_cons. cbn [load_items load_rule_list load_item].
  destruct (yaml_name y), (yaml_condition y), (yaml_prediction_account y);
    cbn [getitem bind]; try done.
  by rewrite IH.
Qed.

Lemma load_item_complete (item : yaml_item) :
  complete_item item → raises (load_item item) = false.
Proof.
  intros (y & -> & [n Hn] & [c Hc] & [a Ha]).
  cbn [load_item]. by rewrite Hn, Hc, Ha.
Qed.

(** The first item that cannot be loaded decides the outcome. *)
Lemma load_items_first_bad (pre post : list yaml_item) (bad : yaml_item)
    (e : exn) :
  Forall complete_item pre → load_item bad = Raise e →
  load_items (pre ++ bad :: post)%list = Raise e.
Proof.
  intros Hpre Hbad. induction Hpre as [|item pre Hitem _ IH].
  - cbn [app load_items]. by rewrite Hbad.
  - rewrite <- app_comm_cons. cbn [load_items].
    apply load_item_complete in Hitem.
    destruct (load_item item) as [rule|]; [|done].
    cbn [bind]. by rewrite IH.
Qed.

(** What is loaded is the items, key by key. *)
Lemma load_items_copies (items : list yaml_item) (rs : list AccountRule) :
  load_items items = Return rs →
  Forall2 (fun item rule =>
             item = item_mapping
                      {| yaml_name := Some (name rule);
                         yaml_condition := Some (condition rule);
                         yaml_prediction_account :=
                           Some (prediction_account rule) |})
    items rs.
Proof.
  revert rs. induction items as [|item items IH]; intros rs; cbn [load_items].
  - intros [= <-]. constructor.
  - destruct item as [[[n|] [c|] [a|]]|]; cbn [load_item getitem bind];
      try done.
    destruct (load_items items) as [rs'|e]; [|done]. cbn [bind].
    intros [= <-]. constructor; [done|]. by apply IH.
Qed.

(** X5.  Building a classifier raises [TypeError] when the loaded rule file
    is not a mapping (an empty file, a list, a text), [KeyError] when it is
    a mapping without the key [rules], and [TypeError] when the value under
    [rules] cannot be iterated ([rules:] left empty).  Otherwise the first
    item that is not a mapping with the three keys decides: [TypeError] when
    it is not a mapping, [KeyError] when it is a mapping that lacks its name,
    its condition or its account.  A classifier that is built holds one rule
    for each item, in order, with the three values of the item.  On a
    mapping whose rules are a list of mappings this is [__init__]. *)
Theorem malformed_rule_file_fails (doc : yaml_document) :
  (∀ cfg, load_document (document_of cfg) = __init__ cfg) ∧
  (doc = document_other → load_document doc = Raise TypeError) ∧
  (doc = document_mapping None → load_document doc = Raise KeyError) ∧
  (doc = document_mapping (Some rules_not_iterable) →
   load_document doc = Raise TypeError) ∧
  (∀ rules_value pre bad post,
     doc = document_mapping (Some rules_value) →
     iter rules_value = Return (pre ++ bad :: post)%list →
     Forall complete_item pre →
     (bad = item_other → load_document doc = Raise TypeError) ∧
     (∀ rule,
        bad = item_mapping rule →
        yaml_name rule = None ∨ yaml_condition rule = None
        ∨ yaml_prediction_account rule = None →
        load_document doc = Raise KeyError)) ∧
  (∀ self,
     load_document doc = Return self →
     ∃ rules_value items,
       doc = document_mapping (Some rules_value) ∧
       iter rules_value = Return items ∧
       length (rules self) = length items ∧
       Forall2 (fun item rule =>
                  item = item_mapping
                           {| yaml_name := Some (name rule);
                              yaml_condition := Some (condition rule);
                              yaml_prediction_account :=
                                Some (prediction_account rule) |})
         items (rules self)).
Proof.
  repeat apply conj.
  - intros [[ys|]]; [|done].
    unfold load_document, document_of, __init__, _load_rules.
    cbn [yaml_rules option_map getitem_rules getitem iter bind].
    by rewrite load_items_mappings.
  - by intros ->.
  - by intros ->.
  - by intros ->.
  - intros rules_value pre bad post -> Hiter Hpre.
    unfold load_document. cbn [getitem_rules getitem bind].
    rewrite Hiter. cbn [bind]. split.
    + intros ->. by rewrite (load_items_first_bad pre post _ TypeError).
    + intros rule -> Hmissing.
      rewrite (load_items_first_bad pre post _ KeyError); [done|done|].
      cbn [load_item].
      destruct (yaml_name rule), (yaml_condition rule),
        (yaml_prediction_account rule); cbn [getitem bind]; try done;
        destruct Hmissing as [?|[?|?]]; done.
  - intros self. unfold load_document.
    destruct doc as [[rules_value|]|]; cbn [getitem_rules getitem bind];
      try done.
    destruct (iter rules_value) as [items|e] eqn:Hiter; [|done].
    cbn [bind].
    destruct (load_items items) as [rs|e] eqn:Hrs; [|done].
    cbn [bind]. intros [= <-]. cbn [rules].
    pose proof (load_items_copies items rs Hrs) as Hcopies.
    exists rules_value, items. split; [done|]. split; [done|].
    split; [|done]. symmetry. by eapply Forall2_length.
Qed.

End more_classifier.

(** * Further properties of the importers *)

Section more_synthesis.
Context `{Python}.
Context (ledger : config.LedgerSettings).

Lemma split_once_unfold (sep s : string) :
  split_once sep s
  = if String.prefix sep s then Some ("", str_drop (String.length sep) s)
    else match s with
         | "" => None
         | String c s' =>
             match split_once sep s' with
             | Some (before, after) => Some (String c before, after)
             | None => None
             end
         end.
Proof. by destruct s. Qed.

Lemma split_once_None (sep s : string) :
  split_once sep s = None ↔ str_in sep s = false.
Proof.
  induction s as [|c s IH]; rewrite str_in_unfold, split_once_unfold.
  - by destruct (String.prefix sep "").
  - destruct (String.prefix sep (String c s)); [done|].
    rewrite <- IH. by destruct (split_once sep s) as [[a b]|].
Qed.

Lemma split_once_Some (sep s before after : string) :
  split_once sep s = Some (before, after) →
  s = before ++ sep ++ after ∧
  ∀ a b, s = a ++ sep ++ b → String.length before ≤ String.length a.
Proof.
  revert before. induction s as [|c s IH]; intros before;
    rewrite split_once_unfold.
  - destruct (String.prefix sep "") eqn:Hp; [|done].
    intros [= <- <-]. split; [|simpl; lia].
    apply prefix_spec in Hp as [rest Hrest]. simpl.
    by destruct sep.
  - destruct (String.prefix sep (String c s)) eqn:Hp.
    + intros [= <- <-]. split; [|simpl; lia].
      apply prefix_spec in Hp as [rest Hrest]. simpl.
      rewrite Hrest. by rewrite str_drop_prefix.
    + destruct (split_once sep s) as [[a0 b0]|] eqn:Hs; [|done].
      intros [= <- <-]. destruct (IH a0 eq_refl) as [Heq0 Hmin].
      split; [by rewrite Heq0 at 1|].
      intros a b Heq. destruct a as [|d a].
      * simpl in Heq.
        assert (String.prefix sep (String c s) = true)
          as Hp' by (apply prefix_spec; by exists b).
        congruence.
      * injection Heq as _ Heq. simpl. apply le_n_S. by apply (Hmin a b).
Qed.

(** X6.  The payee and the narration of a CMB credit or CITIC entry are the
    two sides of the first separator of the description: put together again
    around the separator they give the description back, and no separator
    occurs earlier; a description without a separator is the payee, with an
    empty narration. *)
Theorem description_is_split :
  (∀ sep description,
     (str_in sep description = true →
      description
      = (split_description sep description).1 ++ sep
        ++ (split_description sep description).2 ∧
      ∀ a b, description = a ++ sep ++ b →
        String.length (split_description sep description).1
        ≤ String.length a) ∧
     (str_in sep description = false →
      split_description sep description = (description, ""))) ∧
  (∀ self file_name r t,
     cmb_credit._parse_transaction ledger self file_name r = Some t →
     (data.payee t, data.narration t)
     = split_description "-" (cmb_credit.transaction_description r)) ∧
  (∀ self file_name r t,
     citic_credit._parse_transaction ledger self file_name r = Some t →
     (data.payee t, data.narration t)
     = split_description "－" (citic_credit.transaction_description r)).
Proof.
  split; [|split].
  - intros sep description. unfold split_description.
    destruct (str_in sep description) eqn:Hin; split; try done.
    intros _. destruct (split_once sep description) as [[a b]|] eqn:Hs.
    + by apply split_once_Some.
    + apply split_once_None in Hs. congruence.
  - intros self file_name r t. unfold cmb_credit._parse_transaction.
    rewrite (split_eta (cmb_credit.transaction_description r) "-").
    destruct (run_classifier _ _ _) as [[reliable predicted]|e]; [|done].
    by intros [= <-].
  - intros self file_name r t. unfold citic_credit._parse_transaction.
    rewrite (split_eta (citic_credit.transaction_description r) "－").
    destruct (run_classifier _ _ _) as [[reliable predicted]|e]; [|done].
    by intros [= <-].
Qed.

(** X7.  The importers that keep no state between records extract a file
    record by record: the entries of two lists of records put together are
    the entries of the one followed by those of the other, in [alipay],
    [boc], [cmb_credit] and [citic_credit], and in the opposite order in
    [cmb] and [wechat], which return their entries reversed; and no importer
    returns more entries than it is given records. *)
Theorem extract_of_concatenation :
  (∀ self file_name a b,
     alipay.extract self file_name (a ++ b)%list
     = (alipay.extract self file_name a
        ++ alipay.extract self file_name b)%list ∧
     length (alipay.extract self file_name a) ≤ length a) ∧
  (∀ self file_name a b,
     boc.extract ledger self file_name (a ++ b)%list
     = (boc.extract ledger self file_name a
        ++ boc.extract ledger self file_name b)%list ∧
     length (boc.extract ledger self file_name a) ≤ length a) ∧
  (∀ self file_name a b,
     cmb_credit.extract ledger self file_name (a ++ b)%list
     = (cmb_credit.extract ledger self file_name a
        ++ cmb_credit.extract ledger self file_name b)%list ∧
     length (cmb_credit.extract ledger self file_name a) ≤ length a) ∧
  (∀ self file_name a b,
     citic_credit.extract ledger self file_name (a ++ b)%list
     = (citic_credit.extract ledger self file_name a
        ++ citic_credit.extract ledger self file_name b)%list ∧
     length (citic_credit.extract ledger self file_name a) ≤ length a) ∧
  (∀ self file_name a b,
     cmb.extract ledger self file_name (a ++ b)%list
     = (cmb.extract ledger self file_name b
        ++ cmb.extract ledger self file_name a)%list ∧
     length (cmb.extract ledger self file_name a) ≤ length a) ∧
  (∀ self file_name a b,
     wechat.extract self file_name (a ++ b)%list
     = (wechat.extract self file_name b
        ++ wechat.extract self file_name a)%list ∧
     length (wechat.extract self file_name a) ≤ length a).
Proof.
  assert (∀ (A B : Type) (f : A → option B) (l : list A),
            length (omap f l) ≤ length l) as Hlen.
  { intros A B f l. induction l as [|x l IH]; csimpl; [done|].
    destruct (f x); simpl; lia. }
  repeat apply conj; intros self file_name a b;
    unfold alipay.extract, boc.extract, cmb_credit.extract,
      citic_credit.extract, cmb.extract, wechat.extract;
    rewrite ?length_reverse, ?omap_app, ?reverse_app;
    (split; [done | apply Hlen]).
Qed.

(** X8.  When the classifier answers with a match, a record that reaches
    the synthesis gives an entry flagged ["*"] whose counter posting is on
    the account the classifier gave, in every importer; in [wechat] this
    holds of the records that are neither an income nor a withdrawal, and an
    income is booked against the fixed income account with flag ["*"]
    whatever the classifier answers. *)
Theorem matched_is_confident :
  (∀ self file_name r predicted,
     alipay.classified self r = Return (true, predicted) →
     alipay.transaction_counterparty r ≠ "余额宝" →
     ∃ t, alipay._parse_transaction self file_name r = Some t ∧
          confident_on predicted t) ∧
  (∀ self file_name r predicted,
     boc.classified self r = Return (true, predicted) →
     boc.currency r = "人民币" →
     ∃ t, boc._parse_transaction ledger self file_name
            (boc.card_last_four r) r = Some t ∧
          confident_on predicted t) ∧
  (∀ self file_name r predicted,
     cmb.classified self r = Return (true, predicted) →
     ∃ t, cmb._parse_transaction ledger self file_name r = Some t ∧
          confident_on predicted t) ∧
  (∀ self file_name r predicted,
     cmb_credit.classified self r = Return (true, predicted) →
     ∃ t, cmb_credit._parse_transaction ledger self file_name r = Some t ∧
          confident_on predicted t) ∧
  (∀ self file_name r predicted,
     citic_credit.classified self r = Return (true, predicted) →
     ∃ t, citic_credit._parse_transaction ledger self file_name r = Some t ∧
          confident_on predicted t) ∧
  (∀ self file_name r predicted,
     confident_on predicted
       (boc_credit.new_entry ledger self file_name r true predicted)) ∧
  (∀ self file_name r predicted,
     wechat.classified self r = Return (true, predicted) →
     wechat.income_expense r ≠ "收入" →
     wechat.transaction_category r ≠ "零钱提现" →
     ∃ t, wechat._parse_transaction self file_name r = Some t ∧
          confident_on predicted t) ∧
  (∀ self file_name r answer,
     wechat.classified self r = Return answer →
     wechat.income_expense r = "收入" →
     ∃ t, wechat._parse_transaction self file_name r = Some t ∧
          data.flag t = "*" ∧
          data.postings t
          = [ data.mkPosting
                (Some (wechat._get_asset_account self
                         (wechat.payment_method r)))
                (Some (data.mkAmount (wechat.amount r) "CNY"));
              data.mkPosting (Some wechat.income_account) None ]).
Proof.
  assert (∀ is_expense own amount predicted e1 e2,
            ∃ p q, two_postings is_expense own amount true predicted e1 e2
                   = [p; q] ∧ data.account q = predicted) as Htwo.
  { intros [] own amount predicted e1 e2; simpl; eauto. }
  repeat apply conj.
  - intros self file_name r predicted Hc Hpayee.
    unfold alipay._parse_transaction, alipay.classified in *. simpl in Hc.
    case_decide; [done|]. rewrite Hc. eexists. split; [done|].
    split; [done|]. simpl. apply Htwo.
  - intros self file_name r predicted Hc Hcur.
    unfold boc._parse_transaction, boc.classified in *. simpl in Hc.
    case_decide; [|done]. rewrite Hc. eexists. split; [done|].
    split; [done|]. simpl. apply Htwo.
  - intros self file_name r predicted Hc.
    unfold cmb._parse_transaction, cmb.classified in *. simpl in Hc.
    rewrite Hc. eexists. split; [done|]. split; [done|]. simpl. apply Htwo.
  - intros self file_name r predicted Hc.
    unfold cmb_credit._parse_transaction, cmb_credit.classified,
      cmb_credit.payee_narration in *.
    rewrite split_eta, Hc. eexists. split; [done|]. split; [done|].
    simpl. apply Htwo.
  - intros self file_name r predicted Hc.
    unfold citic_credit._parse_transaction, citic_credit.classified,
      citic_credit.payee_narration in *.
    rewrite split_eta, Hc. eexists. split; [done|]. split; [done|].
    simpl. apply Htwo.
  - intros self file_name r predicted. unfold boc_credit.new_entry.
    destruct (boc_credit.payee_narration r) as [payee narration].
    split; [done|]. simpl.
    destruct (boc_credit.is_expense r); by eexists _, _.
  - intros self file_name r predicted Hc Hincome Hwithdrawal.
    unfold wechat._parse_transaction, wechat.classified in *. simpl in Hc.
    rewrite Hc. eexists. split; [done|]. split; simpl.
    + by rewrite orb_true_r.
    + repeat case_decide; try done. by eexists _, _.
  - intros self file_name r [reliable predicted] Hc Hincome.
    unfold wechat._parse_transaction, wechat.classified in *. simpl in Hc.
    rewrite Hc. eexists. split; [done|]. simpl.
    rewrite (bool_decide_eq_true_2 _ Hincome). simpl.
    split; [done|]. by case_decide.
Qed.

End more_synthesis.

Section more_metadata.
Context `{Python}.
Context (ledger : config.LedgerSettings).

(** A property every new entry of [boc_credit] has and an appended posting
    keeps holds of every entry of a run. *)
Lemma heap_Forall (self : boc_credit.Importer) (file_name : string)
    (P : data.Transaction → Prop) (records : list boc_credit.record) :
  (∀ r reliable predicted,
     P (boc_credit.new_entry ledger self file_name r reliable predicted)) →
  (∀ t acc n cur, P t → P (data.create_simple_posting t acc n cur)) →
  Forall P
    (boc_credit.heap (boc_credit.extract_run ledger self file_name records).1).
Proof.
  intros Hnew Hkeep.
  induction records as [|r pre IH] using rev_ind; [by constructor|].
  rewrite run_snoc.
  destruct (boc_credit.extract_run ledger self file_name pre)
    as [st entries].
  simpl in IH.
  destruct (boc_credit.classified self r) as [[reliable predicted]|e] eqn:Hr.
  - destruct (boc_credit.cached_entries st !! boc_credit.merge_key r)
      as [entry|] eqn:Hkey.
    + rewrite (step_hit _ _ _ _ _ _ _ _ _ Hr Hkey). simpl.
      apply Forall_alter; [done|]. intros t _ Ht. by apply Hkeep.
    + rewrite (step_miss _ _ _ _ _ _ _ _ Hr Hkey). simpl.
      apply Forall_app. split; [done|]. constructor; [|constructor].
      apply Hnew.
  - by rewrite (step_raise _ _ _ _ _ _ _ Hr).
Qed.

Lemma new_metadata_names_file (file_name : string)
    (kv : gmap string data.meta_value) :
  kv !! "filename" = None → kv !! "lineno" = None →
  data.new_metadata (basename file_name) 0 kv !! "filename"
  = Some (data.MStr (basename file_name)) ∧
  data.new_metadata (basename file_name) 0 kv !! "lineno"
  = Some (data.MInt 0).
Proof.
  intros Hf Hl. unfold data.new_metadata.
  rewrite !lookup_union, Hf, Hl. by split.
Qed.

Lemma mark_duplicate_lookup_ne (ignore : bool) (apps : list string)
    (text k : string) (m : gmap string data.meta_value) :
  config.duplicate_meta ledger ≠ k →
  mark_duplicate ledger ignore apps text m !! k = m !! k.
Proof.
  intros Hk. unfold mark_duplicate.
  destruct ignore, (any_in apps text); try done.
  by rewrite lookup_insert_ne.
Qed.

Lemma mark_duplicate_lookup (ignore : bool) (apps : list string)
    (text : string) (m : gmap string data.meta_value) :
  m !! config.duplicate_meta ledger = None →
  mark_duplicate ledger ignore apps text m !! config.duplicate_meta ledger
  = if ignore && any_in apps text then Some (data.MBool true) else None.
Proof.
  intros Hm. unfold mark_duplicate.
  destruct ignore, (any_in apps text); simpl; try done.
  by rewrite lookup_insert_eq.
Qed.

Lemma alipay_meta_kv_other (row : alipay.record) (k : string) :
  k ≠ "transaction_type" → k ≠ "payment_method" →
  k ≠ "alipay_trade_no" → k ≠ "out_trade_no" →
  alipay.meta_kv row !! k = None.
Proof.
  intros. unfold alipay.meta_kv.
  repeat case_decide; by rewrite ?lookup_insert_ne, ?lookup_empty.
Qed.

Lemma wechat_meta_kv_other (r : wechat.record) (k : string) :
  k ≠ "transaction_type" → k ≠ "payment_method" → k ≠ "time" →
  k ≠ "note" → k ≠ "wechat_trade_no" → k ≠ "out_trade_no" →
  wechat.meta_kv r !! k = None.
Proof.
  intros. unfold wechat.meta_kv.
  repeat case_decide; by rewrite ?lookup_insert_ne, ?lookup_empty.
Qed.

(** X9.  Every entry of every importer names the file it was read from: its
    metadata holds the base name of the file under [filename] and 0 under
    [lineno], provided the reserved duplicate key is configured to be
    neither of the two. *)
Theorem entries_name_their_file :
  config.duplicate_meta ledger ≠ "filename" →
  config.duplicate_meta ledger ≠ "lineno" →
  (∀ self file_name records,
     Forall (names_file file_name)
       (alipay.extract self file_name records)) ∧
  (∀ self file_name records,
     Forall (names_file file_name)
       (wechat.extract self file_name records)) ∧
  (∀ self file_name records,
     Forall (names_file file_name)
       (boc.extract ledger self file_name records)) ∧
  (∀ self file_name records,
     Forall (names_file file_name)
       (boc_credit.extract ledger self file_name records)) ∧
  (∀ self file_name records,
     Forall (names_file file_name)
       (cmb.extract ledger self file_name records)) ∧
  (∀ self file_name records,
     Forall (names_file file_name)
       (cmb_credit.extract ledger self file_name records)) ∧
  (∀ self file_name records,
     Forall (names_file file_name)
       (citic_credit.extract ledger self file_name records)).
Proof.
  intros Hf Hl.
  assert (∀ file_name,
            names_file file_name
              {| data.meta := data.new_metadata (basename file_name) 0 ∅;
                 data.date_ := (0, 0, 0); data.flag := "";
                 data.payee := ""; data.narration := "";
                 data.tags := ∅; data.links := ∅; data.postings := [] |})
    as Hbase.
  { intros file_name. by apply new_metadata_names_file. }
  unfold names_file in *. simpl in Hbase.
  repeat apply conj; intros self file_name records.
  - apply Forall_omap_Some. intros r t.
    unfold alipay._parse_transaction. case_decide; [done|].
    destruct (run_classifier _ _ _) as [[reliable predicted]|e]; [|done].
    intros [= <-]. simpl.
    apply new_metadata_names_file; by apply alipay_meta_kv_other.
  - apply Forall_reverse, Forall_omap_Some. intros r t.
    unfold wechat._parse_transaction.
    destruct (run_classifier _ _ _) as [[reliable predicted]|e]; [|done].
    intros [= <-]. simpl.
    apply new_metadata_names_file; by apply wechat_meta_kv_other.
  - apply Forall_omap_Some. intros r t.
    unfold boc._parse_transaction. case_decide; [|done].
    destruct (run_classifier _ _ _) as [[reliable predicted]|e]; [|done].
    intros [= <-]. simpl.
    rewrite !mark_duplicate_lookup_ne, !lookup_insert_ne by done.
    apply Hbase.
  - rewrite extract_heap. apply heap_Forall; [|done].
    intros r reliable predicted. unfold boc_credit.new_entry.
    destruct (boc_credit.payee_narration r) as [payee narration]. simpl.
    rewrite !mark_duplicate_lookup_ne, !lookup_insert_ne by done.
    apply Hbase.
  - apply Forall_reverse, Forall_omap_Some. intros r t.
    unfold cmb._parse_transaction.
    destruct (run_classifier _ _ _) as [[reliable predicted]|e]; [|done].
    intros [= <-]. simpl.
    rewrite !mark_duplicate_lookup_ne, !lookup_insert_ne by done.
    apply Hbase.
  - apply Forall_omap_Some. intros r t.
    unfold cmb_credit._parse_transaction. rewrite split_eta.
    destruct (run_classifier _ _ _) as [[reliable predicted]|e]; [|done].
    intros [= <-]. simpl.
    case_decide;
      rewrite ?lookup_insert_ne, !mark_duplicate_lookup_ne by done;
      apply Hbase.
  - apply Forall_omap_Some. intros r t.
    unfold citic_credit._parse_transaction. rewrite split_eta.
    destruct (run_classifier _ _ _) as [[reliable predicted]|e]; [|done].
    intros [= <-]. simpl.
    rewrite !mark_duplicate_lookup_ne by done.
    apply Hbase.
Qed.

Lemma new_metadata_other (file_name k : string) :
  k ≠ "filename" → k ≠ "lineno" →
  data.new_metadata (basename file_name) 0 ∅ !! k = None.
Proof.
  intros Hf Hl. unfold data.new_metadata.
  by rewrite lookup_union, lookup_empty, !lookup_insert_ne, lookup_empty.
Qed.

(** X10.  When the reserved duplicate key is configured to be none of the
    keys the importers write themselves, an entry carries it, set to [True],
    exactly when the policy on the known apps is on and the inspected text
    (the narration in [cmb], the payee elsewhere) holds a marker of a known
    app, or, in [cmb_credit], when the record is a repayment; otherwise the
    key is not in the metadata at all. *)
Theorem duplicate_key_presence :
  config.duplicate_meta ledger ≠ "filename" →
  config.duplicate_meta ledger ≠ "lineno" →
  config.duplicate_meta ledger ≠ "time" →
  config.duplicate_meta ledger ≠ "transaction_date" →
  (∀ self file_name card r t,
     boc._parse_transaction ledger self file_name card r = Some t →
     duplicate_key_iff ledger
       (boc.ignore_apps self && any_in boc.apps (data.payee t)) t) ∧
  (∀ self file_name r t,
     cmb._parse_transaction ledger self file_name r = Some t →
     duplicate_key_iff ledger
       (cmb.ignore_apps self && any_in cmb.apps (data.narration t)) t) ∧
  (∀ self file_name r t,
     cmb_credit._parse_transaction ledger self file_name r = Some t →
     duplicate_key_iff ledger
       (cmb_credit.ignore_apps self
          && any_in cmb_credit.apps (data.payee t)
        || bool_decide (cmb_credit.transaction_type r = "还款")) t) ∧
  (∀ self file_name r t,
     citic_credit._parse_transaction ledger self file_name r = Some t →
     duplicate_key_iff ledger
       (citic_credit.ignore_apps self
          && any_in citic_credit.apps (data.payee t)) t) ∧
  (∀ self file_name records,
     Forall
       (fun t =>
          duplicate_key_iff ledger
            (boc_credit.ignore_apps self
               && any_in boc_credit.apps (data.payee t)) t)
       (boc_credit.extract ledger self file_name records)).
Proof.
  intros Hf Hl Ht Hd. unfold duplicate_key_iff.
  repeat apply conj.
  - intros self file_name card r t.
    unfold boc._parse_transaction. case_decide; [|done].
    destruct (run_classifier _ _ _) as [[reliable predicted]|e]; [|done].
    intros [= <-]. simpl.
    rewrite mark_duplicate_lookup; [done|].
    by rewrite lookup_insert_ne, new_metadata_other.
  - intros self file_name r t.
    unfold cmb._parse_transaction.
    destruct (run_classifier _ _ _) as [[reliable predicted]|e]; [|done].
    intros [= <-]. simpl.
    rewrite mark_duplicate_lookup; [done|].
    by rewrite lookup_insert_ne, new_metadata_other.
  - intros self file_name r t.
    unfold cmb_credit._parse_transaction. rewrite split_eta.
    destruct (run_classifier _ _ _) as [[reliable predicted]|e]; [|done].
    intros [= <-]. simpl.
    case_decide as Htype.
    + rewrite lookup_insert_eq, (bool_decide_eq_true_2 _ Htype).
      by rewrite orb_true_r.
    + rewrite (bool_decide_eq_false_2 _ Htype), orb_false_r.
      rewrite mark_duplicate_lookup; [done|].
      by rewrite new_metadata_other.
  - intros self file_name r t.
    unfold citic_credit._parse_transaction. rewrite split_eta.
    destruct (run_classifier _ _ _) as [[reliable predicted]|e]; [|done].
    intros [= <-]. simpl.
    rewrite mark_duplicate_lookup; [done|].
    by rewrite new_metadata_other.
  - intros self file_name records.
    rewrite extract_heap. apply heap_Forall; [|done].
    intros r reliable predicted. unfold boc_credit.new_entry.
    destruct (boc_credit.payee_narration r) as [payee narration]. simpl.
    rewrite mark_duplicate_lookup; [done|].
    by rewrite lookup_insert_ne, new_metadata_other.
Qed.

(** X11.  The identifiers of a WeChat or Alipay record go into the metadata
    of its entry when they are there: the type and the payment method
    always, the time of day for WeChat, the trade number when it is not
    empty, and the note and the merchant order number when they are neither
    empty nor the placeholder [/]; each is stripped of surrounding white
    space, and a key whose value is left out is not in the metadata. *)
Theorem identifiers_in_metadata :
  (∀ self file_name r t,
     wechat._parse_transaction self file_name r = Some t →
     data.meta t !! "transaction_type"
     = Some (data.MStr (wechat.transaction_category r)) ∧
     data.meta t !! "payment_method"
     = Some (data.MStr (wechat.payment_method r)) ∧
     data.meta t !! "time"
     = Some (data.MStr (strftime_HMS (wechat.transaction_time r).2)) ∧
     data.meta t !! "note"
     = (if decide (wechat.note r = "") then None
        else if decide (wechat.note r = "/") then None
        else Some (data.MStr (str_strip (wechat.note r)))) ∧
     data.meta t !! "wechat_trade_no"
     = (if decide (wechat.wechat_trade_no r = "") then None
        else Some (data.MStr (str_strip (wechat.wechat_trade_no r)))) ∧
     data.meta t !! "out_trade_no"
     = (if decide (wechat.out_trade_no r = "") then None
        else if decide (wechat.out_trade_no r = "/") then None
        else Some (data.MStr (str_strip (wechat.out_trade_no r))))) ∧
  (∀ self file_name r t,
     alipay._parse_transaction self file_name r = Some t →
     data.meta t !! "transaction_type"
     = Some (data.MStr (alipay.transaction_category r)) ∧
     data.meta t !! "payment_method"
     = Some (data.MStr (alipay.payment_method r)) ∧
     data.meta t !! "alipay_trade_no"
     = (if decide (alipay.transaction_order_number r = "") then None
        else Some (data.MStr
                     (str_strip (alipay.transaction_order_number r)))) ∧
     data.meta t !! "out_trade_no"
     = (if decide (alipay.merchant_order_number r = "") then None
        else if decide (alipay.merchant_order_number r = "/") then None
        else Some (data.MStr
                     (str_strip (alipay.merchant_order_number r))))).
Proof.
  split.
  - intros self file_name r t. unfold wechat._parse_transaction.
    destruct (run_classifier _ _ _) as [[reliable predicted]|e]; [|done].
    intros [= <-]. simpl. unfold data.new_metadata, wechat.meta_kv.
    rewrite !lookup_union.
    destruct (decide (wechat.note r = "")),
      (decide (wechat.note r = "/")),
      (decide (wechat.wechat_trade_no r = "")),
      (decide (wechat.out_trade_no r = "")),
      (decide (wechat.out_trade_no r = "/"));
      repeat split; by simplify_map_eq.
  - intros self file_name r t. unfold alipay._parse_transaction.
    case_decide; [done|].
    destruct (run_classifier _ _ _) as [[reliable predicted]|e]; [|done].
    intros [= <-]. simpl. unfold data.new_metadata, alipay.meta_kv.
    rewrite !lookup_union.
    destruct (decide (alipay.transaction_order_number r = "")),
      (decide (alipay.merchant_order_number r = "")),
      (decide (alipay.merchant_order_number r = "/"));
      repeat split; by simplify_map_eq.
Qed.

End more_metadata.

(** * Further properties of the leg merge *)

Section more_merge.
Context `{Python}.
Context (ledger : config.LedgerSettings).
Context (self : boc_credit.Importer) (file_name : string).
Import boc_credit.

Lemma Qc_eq_of_minus (a b : Qc) : (a - b = 0)%Qc → a = b.
Proof.
  intros Hab. assert ((a - b) + b = a)%Qc as <- by ring.
  rewrite Hab. ring.
Qed.

Local Ltac qc_ring := apply Qc_eq_of_minus; ring.

Lemma accepted_records_snoc (pre : list record) (r : record) :
  accepted_records self (pre ++ [r])%list
  = (accepted_records self pre
     ++ if raises (classified self r) then [] else [r])%list.
Proof.
  unfold accepted_records. rewrite list.filter_app. f_equal.
  rewrite filter_cons, filter_nil.
  destruct (raises (classified self r)); by case_decide.
Qed.

(** After the records [pre], the cache holds the keys of the records the
    classifier returned on, and one entry for each of them. *)
Lemma cache_holds_accepted_keys (pre : list record) :
  dom (cached_entries (extract_run ledger self file_name pre).1)
  = (list_to_set (merge_key <$> accepted_records self pre)
     : gset (date * string * string)) ∧
  size (cached_entries (extract_run ledger self file_name pre).1)
  = length (heap (extract_run ledger self file_name pre).1).
Proof.
  induction pre as [|r pre IH] using rev_ind.
  - simpl. split; [by rewrite dom_empty_L | by rewrite map_size_empty].
  - rewrite run_snoc, accepted_records_snoc, fmap_app.
    destruct (extract_run ledger self file_name pre) as [st entries].
    destruct IH as [Hdom Hsize]. simpl in Hdom, Hsize.
    destruct (classified self r) as [[reliable predicted]|e] eqn:Hr.
    + simpl raises. cbv iota. simpl fmap.
      rewrite list_to_set_snoc_L, <- Hdom.
      destruct (cached_entries st !! merge_key r) as [entry|] eqn:Hkey.
      * rewrite (step_hit _ _ _ _ _ _ _ _ _ Hr Hkey). simpl.
        rewrite length_alter. split; [|done].
        assert (merge_key r ∈ dom (cached_entries st)) as Hin
          by (apply elem_of_dom; eauto).
        apply set_eq. intros k. rewrite elem_of_union, elem_of_singleton.
        split; [tauto | intros [?| ->]; done].
      * rewrite (step_miss _ _ _ _ _ _ _ _ Hr Hkey). simpl.
        rewrite dom_insert_L, List.length_app, map_size_insert_None by done.
        simpl. split; [apply union_comm_L | lia].
    + rewrite (step_raise _ _ _ _ _ _ _ Hr). simpl.
      by rewrite app_nil_r.
Qed.


Lemma explicit_sum_snoc (cur : string) (ps : list data.Posting)
    (acc : option string) (n : Decimal) (c : string) :
  data.explicit_sum cur
    (ps ++ [data.mkPosting acc (Some (data.mkAmount n c))])%list
  = (data.explicit_sum cur ps + if String.eqb c cur then n else 0)%Qc.
Proof.
  induction ps as [|p ps IH]; simpl.
  - destruct (String.eqb c cur); qc_ring.
  - destruct (data.units p) as [a|]; [|done].
    destruct (String.eqb (data.currency a) cur); rewrite IH; qc_ring.
Qed.

Lemma booked_app (cur : string) (ts us : list data.Transaction) :
  booked cur (ts ++ us)%list = (booked cur ts + booked cur us)%Qc.
Proof.
  induction ts as [|t ts IH]; simpl; [qc_ring|]. rewrite IH. qc_ring.
Qed.

Lemma booked_alter (cur : string) (ts : list data.Transaction)
    (i : nat) (t : data.Transaction) (f : data.Transaction → data.Transaction)
    (delta : Decimal) :
  ts !! i = Some t →
  data.explicit_sum cur (data.postings (f t))
  = (data.explicit_sum cur (data.postings t) + delta)%Qc →
  booked cur (alter f i ts) = (booked cur ts + delta)%Qc.
Proof.
  intros Hi Hf. revert i Hi.
  induction ts as [|u ts IH]; intros [|i] Hi; try done.
  - injection Hi as ->.
    change ((data.explicit_sum cur (data.postings (f t)) + booked cur ts)%Qc
            = (data.explicit_sum cur (data.postings t) + booked cur ts
               + delta)%Qc).
    rewrite Hf. qc_ring.
  - change ((data.explicit_sum cur (data.postings u)
             + booked cur (alter f i ts))%Qc
            = (data.explicit_sum cur (data.postings u) + booked cur ts
               + delta)%Qc).
    rewrite (IH i Hi). qc_ring.
Qed.

Lemma charged_app (cur : string) (rs qs : list record) :
  charged cur (rs ++ qs)%list = (charged cur rs + charged cur qs)%Qc.
Proof.
  induction rs as [|r rs IH]; simpl; [qc_ring|].
  destruct (String.eqb (currency r) cur); rewrite IH; qc_ring.
Qed.

(** The negation of a number within the context is within the context. *)
Lemma within_context_opp (a : Decimal) :
  within_context a → within_context (- a)%Qc.
Proof.
  intros (coefficient & exponent & Hdigits & Hrange & ->).
  exists (- coefficient)%Z, exponent.
  split; [by rewrite Z.abs_opp|]. split; [done|].
  assert (Q2Qc (inject_Z (- coefficient)) = (- Q2Qc (inject_Z coefficient))%Qc)
    as ->.
  { apply Qc_is_canon. simpl. rewrite !Qred_correct. reflexivity. }
  qc_ring.
Qed.

Lemma new_entry_within_context (r : record) (reliable : bool)
    (predicted : option string) :
  within_context (amount r) →
  amounts_within_context (new_entry ledger self file_name r reliable predicted).
Proof.
  intros Hr. unfold amounts_within_context, new_entry.
  destruct (payee_narration r) as [payee narration]. cbn [data.postings].
  destruct (is_expense r); repeat constructor; intros a; cbn [data.units];
    try done; intros [= <-]; cbn [data.neg data.number];
    [by apply within_context_opp | done].
Qed.

(** X13.  On a file whose amounts the decimal context holds exactly (at most
    28 significant digits, exponents within range), so that no negation is
    rounded, the merge loses no amount: in every currency, the explicit
    amounts of the entries [extract] of [boc_credit] returns add up to the
    signed amounts of the records the classifier returned on, an expense
    counting negative; and every amount booked is again within the
    context. *)
Theorem merge_conserves_amounts (cur : string) (records : list record) :
  Forall (fun r => within_context (amount r)) records →
  booked cur (extract ledger self file_name records)
  = charged cur (accepted_records self records) ∧
  Forall amounts_within_context (extract ledger self file_name records).
Proof.
  rewrite extract_heap.
  induction records as [|r pre IH] using rev_ind; [done|].
  intros [Hpre [Hr _]%list.Forall_cons]%Forall_app.
  destruct (IH Hpre) as [IHsum IHctx]. clear IH.
  rewrite run_snoc, accepted_records_snoc, charged_app.
  pose proof (run_invariant_holds ledger self file_name pre) as [_ Hcache].
  specialize (Hcache (merge_key r)).
  destruct (extract_run ledger self file_name pre) as [st entries].
  simpl in IHsum, IHctx, Hcache.
  destruct (classified self r) as [[reliable predicted]|e] eqn:Hcl.
  - destruct (cached_entries st !! merge_key r) as [entry|] eqn:Hkey.
    + destruct Hcache as (r1 & rel & pred & t & _ & _ & Ht & _).
      rewrite (step_hit _ _ _ _ _ _ _ _ _ Hcl Hkey). simpl. split.
      * rewrite (booked_alter cur _ entry t _
                   (if String.eqb (currency r) cur then signed_amount r
                    else 0%Qc)
                   Ht).
        -- rewrite IHsum. unfold signed_amount.
           destruct (String.eqb (currency r) cur); qc_ring.
        -- simpl. apply explicit_sum_snoc.
      * apply Forall_alter; [done|]. intros u _ Hu.
        unfold amounts_within_context in *. cbn [data.postings
          data.create_simple_posting].
        apply Forall_app. split; [done|]. repeat constructor.
        intros a [= <-]. cbn [data.number].
        destruct (is_expense r); [by apply within_context_opp | done].
    + rewrite (step_miss _ _ _ _ _ _ _ _ Hcl Hkey). simpl. split.
      * rewrite booked_app, IHsum. f_equal. simpl.
        unfold new_entry, signed_amount.
        destruct (payee_narration r) as [payee narration]. simpl.
        destruct (is_expense r); simpl;
          destruct (String.eqb (currency r) cur); qc_ring.
      * apply Forall_app. split; [done|]. repeat constructor.
        by apply new_entry_within_context.
  - rewrite (step_raise _ _ _ _ _ _ _ Hcl). simpl.
    split; [|done]. rewrite IHsum. qc_ring.
Qed.

End more_merge.

(** * The account of a BOC credit file *)

Section more_file_account.
Import boc_credit.

Lemma dict_get_tally (g : string → nat) (l : list string) (x : string) :
  dict_get ((fun c => (c, g c)) <$> l) x
  = if decide (x ∈ l) then g x else 0.
Proof.
  induction l as [|c l IH].
  - destruct (decide (x ∈ [])) as [Hin|_]; [|done].
    by apply elem_of_nil in Hin.
  - rewrite fmap_cons. cbn [dict_get]. rewrite IH.
    destruct (decide (c = x)) as [->|Hne].
    + destruct (decide (x ∈ x :: l)) as [_|Hnin]; [done|].
      exfalso. apply Hnin, list_elem_of_here.
    + destruct (decide (x ∈ l)) as [Hin|Hnin];
        destruct (decide (x ∈ c :: l)) as [Hin'|Hnin']; try done.
      * exfalso. apply Hnin'. by apply list_elem_of_further.
      * apply elem_of_cons in Hin' as [->|?]; done.
Qed.

Lemma dict_set_new (g : string → nat) (l : list string) (x : string)
    (v : nat) :
  x ∉ l →
  dict_set ((fun c => (c, g c)) <$> l) x v
  = (((fun c => (c, g c)) <$> l) ++ [(x, v)])%list.
Proof.
  induction l as [|c l IH]; [done|].
  intros [Hne Hnin]%not_elem_of_cons.
  rewrite fmap_cons. cbn [dict_set].
  destruct (decide (c = x)) as [->|_]; [done|].
  by rewrite (IH Hnin).
Qed.

Lemma dict_set_old (g : string → nat) (l : list string) (x : string)
    (v : nat) :
  NoDup l → x ∈ l →
  dict_set ((fun c => (c, g c)) <$> l) x v
  = (fun c => (c, if decide (c = x) then v else g c)) <$> l.
Proof.
  induction l as [|c l IH].
  - intros _ Hin. by apply elem_of_nil in Hin.
  - intros Hnd Hin%elem_of_cons.
    pose proof (NoDup_cons_1_1 _ _ Hnd) as Hc.
    pose proof (NoDup_cons_1_2 _ _ Hnd) as Hl.
    rewrite !fmap_cons. cbn [dict_set].
    destruct (decide (c = x)) as [->|Hne].
    + f_equal. apply list_fmap_ext. intros i c Hi.
      destruct (decide (c = x)) as [->|_]; [|done].
      exfalso. apply Hc. by eapply list_elem_of_lookup_2.
    + f_equal. apply IH; [done|]. by destruct Hin as [->|?].
Qed.

Lemma first_seen_snoc (cards : list string) (x : string) :
  first_seen (cards ++ [x])%list
  = if decide (x ∈ first_seen cards) then first_seen cards
    else (first_seen cards ++ [x])%list.
Proof. unfold first_seen. by rewrite foldl_app. Qed.

Lemma elem_of_first_seen (cards : list string) (x : string) :
  x ∈ first_seen cards ↔ x ∈ cards.
Proof.
  induction cards as [|c cards IH] using rev_ind; [done|].
  rewrite first_seen_snoc, elem_of_app, list_elem_of_singleton.
  destruct (decide (c ∈ first_seen cards)) as [Hin|Hnin].
  - rewrite IH. split; [tauto|]. intros [?| ->]; [done|]. by apply IH.
  - by rewrite elem_of_app, list_elem_of_singleton, IH.
Qed.

Lemma NoDup_first_seen (cards : list string) : NoDup (first_seen cards).
Proof.
  induction cards as [|c cards IH] using rev_ind; [apply NoDup_nil_2|].
  rewrite first_seen_snoc.
  destruct (decide (c ∈ first_seen cards)) as [Hin|Hnin]; [done|].
  apply list.NoDup_app. split; [done|]. split.
  - intros y Hy. rewrite list_elem_of_singleton. by intros ->.
  - apply NoDup_singleton.
Qed.

(** A card of the list of the cards first seen stands in the cards
    themselves behind cards that are listed before it. *)
Lemma first_seen_split (cards p q : list string) (c : string) :
  first_seen cards = (p ++ c :: q)%list →
  ∃ pre post, cards = (pre ++ c :: post)%list ∧ ∀ x, x ∈ pre → x ∈ p.
Proof.
  revert q. induction cards as [|x cards IH] using rev_ind; intros q.
  - intros Heq. by destruct p.
  - rewrite first_seen_snoc.
    destruct (decide (x ∈ first_seen cards)) as [Hin|Hnin].
    + intros Heq. destruct (IH q Heq) as (pre & post & -> & Hpre).
      exists pre, (post ++ [x])%list.
      split; [by rewrite <- app_assoc|done].
    + destruct q as [|y q _] using rev_ind.
      * intros Heq. apply app_inj_tail in Heq as [Hp ->].
        exists cards, []. split; [done|].
        intros y Hy. rewrite <- Hp. by apply elem_of_first_seen.
      * rewrite app_comm_cons, app_assoc.
        intros Heq. apply app_inj_tail in Heq as [Hp ->].
        destruct (IH q Hp) as (pre & post & -> & Hpre).
        exists pre, (post ++ [y])%list.
        split; [by rewrite <- app_assoc|done].
Qed.

Lemma card_count_snoc (c : string) (rs : list record) (r : record) :
  card_count c (rs ++ [r])%list
  = card_count c rs + if decide (card_last_four r = c) then 1 else 0.
Proof.
  unfold card_count. rewrite list.filter_app, List.length_app.
  rewrite filter_cons, filter_nil. by case_decide.
Qed.

Lemma card_count_unseen (c : string) (rs : list record) :
  c ∉ card_last_four <$> rs → card_count c rs = 0.
Proof.
  unfold card_count. induction rs as [|r rs IH]; [done|].
  rewrite fmap_cons. intros [Hne Hnin]%not_elem_of_cons.
  rewrite filter_cons. rewrite decide_False by done. by apply IH.
Qed.

(** The dict the loop builds: the cards in the order they are first seen,
    each with the number of its records. *)
Lemma count_cards_tally (rs : list record) :
  count_cards rs
  = (fun c => (c, card_count c rs)) <$> first_seen (card_last_four <$> rs).
Proof.
  induction rs as [|r rs IH] using rev_ind; [done|].
  unfold count_cards in *. rewrite foldl_app. simpl. rewrite IH.
  rewrite fmap_app. simpl. rewrite first_seen_snoc, dict_get_tally.
  destruct (decide (card_last_four r ∈ first_seen (card_last_four <$> rs)))
    as [Hin|Hnin].
  - rewrite dict_set_old by (done || apply NoDup_first_seen).
    apply list_fmap_ext. intros i c Hi.
    rewrite card_count_snoc.
    destruct (decide (c = card_last_four r)) as [->|Hne].
    + by rewrite decide_True.
    + rewrite decide_False by done. f_equal. lia.
  - rewrite dict_set_new by done. rewrite fmap_app. simpl.
    rewrite (card_count_snoc (card_last_four r)), decide_True by done.
    rewrite card_count_unseen by (by rewrite <- elem_of_first_seen).
    f_equal. apply list_fmap_ext. intros i c Hi.
    rewrite card_count_snoc, decide_False; [by rewrite Nat.add_0_r|].
    intros Heq. apply Hnin. rewrite Heq. by eapply list_elem_of_lookup_2.
Qed.

(** [max] gives the first of the items whose count is the greatest. *)
Lemma max_from_first (best : string * nat) (items : list (string * nat)) :
  ∃ pre post,
    best :: items = (pre ++ max_from best items :: post)%list ∧
    Forall (fun x => x.2 < (max_from best items).2) pre ∧
    Forall (fun x => x.2 ≤ (max_from best items).2) post ∧
    best.2 ≤ (max_from best items).2.
Proof.
  revert best. induction items as [|x rest IH]; intros best; simpl.
  - exists [], []. by repeat split.
  - destruct (Nat.ltb_spec best.2 x.2) as [Hlt|Hge].
    + destruct (IH x) as (pre & post & Heq & Hpre & Hpost & Hx).
      set (m := max_from x rest) in *. clearbody m.
      exists (best :: pre), post. rewrite Heq. split; [done|].
      split; [apply list.Forall_cons; split; [lia|done]|].
      split; [done|lia].
    + destruct (IH best) as (pre & post & Heq & Hpre & Hpost & Hbest).
      set (m := max_from best rest) in *. clearbody m.
      destruct pre as [|b pre]; simpl in Heq.
      * injection Heq as Hb Hrest. subst m post. exists [], (x :: rest).
        split; [done|]. split; [done|].
        split; [|done]. apply list.Forall_cons. split; [lia|done].
      * injection Heq as Hb Hrest. subst b rest.
        exists (best :: x :: pre), post.
        split; [done|]. apply list.Forall_cons in Hpre as [Hb Hpre].
        split; [|done]. apply list.Forall_cons. split; [done|].
        apply list.Forall_cons. split; [lia|done].
Qed.

(** X14.  The account of a BOC credit file is the account of the importer
    when the file could not be read or holds no record; otherwise it is the
    account followed by the card with the most records, and among the cards
    with the most records the one that is seen first: every record before
    the first record of that card is on a card with fewer records.  The
    function never raises. *)
Theorem file_account_most_frequent_card (self : Importer) :
  file_account self None = Return (account self) ∧
  (∀ pdf, records pdf = [] →
     file_account self (Some pdf) = Return (account self)) ∧
  (∀ pdf, records pdf ≠ [] →
     ∃ pre r post,
       file_account self (Some pdf)
       = Return (account self ++ ":" ++ card_last_four r) ∧
       records pdf = (pre ++ r :: post)%list ∧
       Forall (fun r' => card_count (card_last_four r') (records pdf)
                         < card_count (card_last_four r) (records pdf)) pre ∧
       ∀ card, card_count card (records pdf)
               ≤ card_count (card_last_four r) (records pdf)).
Proof.
  split; [done|]. split; [by intros pdf Hnil; simpl; rewrite Hnil|].
  intros pdf Hne. unfold file_account.
  destruct (records pdf) as [|r0 rs0] eqn:Hrs; [done|]. clear Hne.
  rewrite <- Hrs. set (rs := records pdf) in *. clearbody rs.
  rewrite count_cards_tally.
  destruct ((λ c, (c, card_count c rs)) <$> first_seen (card_last_four <$> rs))
    as [|x rest] eqn:Htally.
  { apply fmap_nil_inv in Htally.
    assert (card_last_four r0 ∈ first_seen (card_last_four <$> rs)) as Hin.
    { apply elem_of_first_seen. rewrite Hrs, fmap_cons.
      apply list_elem_of_here. }
    rewrite Htally in Hin. by apply elem_of_nil in Hin. }
  cbn [max_by_count bind].
  destruct (max_from_first x rest) as (p & q & Heq & Hp & Hq & _).
  set (m := max_from x rest) in *. clearbody m.
  rewrite <- Htally in Heq.
  apply fmap_app_inv in Heq as (p' & mq & -> & Hmq & Hseen).
  symmetry in Hmq. apply fmap_cons_inv in Hmq as (c & q' & -> & -> & ->).
  cbn [fst snd] in *.
  destruct (first_seen_split _ _ _ _ Hseen) as (pre & post & Hcards & Hpre).
  apply fmap_app_inv in Hcards as (rpre & rpost & -> & Hrpost & Hrs').
  symmetry in Hrpost.
  apply fmap_cons_inv in Hrpost as (r & rq & -> & -> & ->).
  exists rpre, r, rq. split; [done|]. split; [done|].
  rewrite Forall_fmap in Hp, Hq.
  rewrite list.Forall_forall in Hp, Hq. split.
  - apply list.Forall_forall. intros r' Hr'.
    apply (Hp (card_last_four r')), Hpre. by apply list_elem_of_fmap_2.
  - intros card.
    destruct (decide (card ∈ card_last_four <$> rs))
      as [Hin|Hnin]; [|rewrite (card_count_unseen card) by done; lia].
    apply elem_of_first_seen in Hin. rewrite Hseen in Hin.
    apply elem_of_app in Hin as [Hin|Hin].
    + apply Nat.lt_le_incl. by apply (Hp _ Hin).
    + apply elem_of_cons in Hin as [->|Hin]; [done|].
      by apply (Hq _ Hin).
Qed.

End more_file_account.

(** * The rows of a BOC statement *)

Section more_rows.
Context `{Python}.
Context (ledger : config.LedgerSettings).

Lemma table_rows_returns (card : string) (rows : list (list string))
    (records : list boc.record) :
  Forall (fun row => raises (boc.parse_row card row) = false) rows →
  raises (boc.table_rows card rows records) = false.
Proof.
  intros Hrows. revert records.
  induction Hrows as [|row rows Hrow _ IH]; intros records; [done|].
  simpl. destruct (boc.parse_row card row) as [parsed|e]; [|done].
  apply IH.
Qed.

(** X15.  One row that cannot be read loses the whole table: when the rows
    before it are read and the row raises, the loop raises what the row
    raises, whatever follows.  A row raises when it is empty, and when it is
    a row in 人民币 that is not the header line and has fewer than twelve
    cells or an empty amount cell. *)
Theorem bad_row_loses_table (card : string) (row : list string) :
  (∀ pre post records e,
     Forall (fun row' => raises (boc.parse_row card row') = false) pre →
     boc.parse_row card row = Raise e →
     boc.table_rows card (pre ++ row :: post)%list records = Raise e) ∧
  (row = [] → boc.parse_row card row = Raise IndexError) ∧
  (∀ c0,
     row !! 0 = Some c0 → str_in "记账日期" c0 = false →
     row !! 2 = Some "人民币" →
     length row < 12 ∨ row !! 3 = Some "" →
     raises (boc.parse_row card row) = true).
Proof.
  split; [|split].
  - intros pre post records e Hpre Hrow.
    rewrite table_rows_app.
    pose proof (table_rows_returns card pre records Hpre) as Hret.
    destruct (boc.table_rows card pre records) as [records'|e']; [|done].
    simpl. by rewrite Hrow.
  - by intros ->.
  - intros c0 H0 Hheader H2 Hbad.
    unfold boc.parse_row, boc.cell. rewrite H0, H2. cbn [bind].
    rewrite Hheader.
    destruct (strptime_Ymd c0) as [d|]; [|done]. cbn [bind].
    destruct (row !! 1) as [c1|]; [|done]. cbn [bind].
    destruct (strptime_HMS c1) as [t|]; [|done]. cbn [bind].
    rewrite decide_True by done.
    destruct Hbad as [Hlen|H3].
    + assert (row !! 11 = None) as H11 by (apply lookup_ge_None; lia).
      rewrite H11.
      repeat match goal with
             | |- context [bind (match ?x with _ => _ end) _] =>
                 destruct x; cbn [bind]; try done
             | |- context [bind (D ?x) _] =>
                 destruct (D x); cbn [bind]; try done
             end.
    + by rewrite H3.
Qed.

Lemma parse_row_record (card : string) (row : list string) (r : boc.record) :
  boc.parse_row card row = Return (Some r) →
  boc.currency r = "人民币" ∧ boc.card_last_four r = card.
Proof.
  unfold boc.parse_row.
  repeat match goal with
         | |- context [bind ?m _] =>
             destruct m; cbn [bind]; try done
         | |- context [if ?b then _ else _] =>
             destruct b; try done
         end.
  intros [= <-]. done.
Qed.

Lemma table_rows_records (card : string) (rows : list (list string))
    (acc records : list boc.record) :
  boc.table_rows card rows acc = Return records →
  ∃ new,
    records = (acc ++ new)%list ∧ length new ≤ length rows ∧
    Forall (fun r => boc.currency r = "人民币" ∧ boc.card_last_four r = card)
      new.
Proof.
  revert acc. induction rows as [|row rows IH]; intros acc; simpl.
  - intros [= <-]. exists []. by rewrite app_nil_r.
  - destruct (boc.parse_row card row) as [[r|]|e] eqn:Hrow; [| |done]; simpl.
    + intros Hrest. destruct (IH _ Hrest) as (new & -> & Hlen & Hnew).
      exists (r :: new). rewrite <- app_assoc. split; [done|].
      split; [simpl; lia|]. apply list.Forall_cons. split; [|done].
      by eapply parse_row_record.
    + intros Hrest. destruct (IH _ Hrest) as (new & -> & Hlen & Hnew).
      exists new. split; [done|]. split; [lia|done].
Qed.

(** What a record in 人民币 gives, by the answer of the classifier. *)
Lemma boc_record_booked (self : boc.Importer) (file_name card : string)
    (r : boc.record) :
  boc.currency r = "人民币" →
  match boc.classified self r with
  | Return _ =>
      ∃ t, boc._parse_transaction ledger self file_name card r = Some t ∧
           ∃ p, p ∈ data.postings t ∧
                data.account p = Some (boc.account self ++ ":" ++ card)
  | Raise _ => boc._parse_transaction ledger self file_name card r = None
  end.
Proof.
  intros Hcur. unfold boc._parse_transaction, boc.classified.
  unfold boc.payee_narration. cbn [fst snd].
  rewrite decide_True by done.
  destruct (run_classifier _ _ _) as [[reliable predicted]|e]; [|done].
  eexists. split; [done|]. cbn [data.postings]. unfold two_postings.
  destruct (boc.is_expense r); eexists; (split; [apply list_elem_of_here|done]).
Qed.

(** X16.  What is read from a table is booked: the loop reads at most one
    record per row, each in 人民币 and on the card of the statement, so
    [extract] passes over none of the records for its currency; it gives one
    entry for each record on which the classifier returns, all of them on
    the account of that card, and one entry per record when no classifier is
    configured. *)
Theorem rows_read_are_booked (self : boc.Importer) (file_name card : string)
    (rows : list (list string)) (records : list boc.record) :
  boc.table_rows card rows [] = Return records →
  length records ≤ length rows ∧
  Forall (fun r => boc.currency r = "人民币" ∧ boc.card_last_four r = card)
    records ∧
  length (boc.extract ledger self file_name records)
  = length (filter (fun r => raises (boc.classified self r) = false)
              records) ∧
  Forall (fun t => ∃ p, p ∈ data.postings t ∧
                        data.account p
                        = Some (boc.account self ++ ":" ++ card))
    (boc.extract ledger self file_name records) ∧
  (boc.classifier self = None →
   length (boc.extract ledger self file_name records) = length records).
Proof.
  intros Hrows.
  destruct (table_rows_records _ _ _ _ Hrows) as (new & -> & Hlen & Hnew).
  simpl. split; [done|]. split; [done|].
  assert (length (boc.extract ledger self file_name new)
          = length (filter (fun r => raises (boc.classified self r) = false)
                      new) ∧
          Forall (fun t => ∃ p, p ∈ data.postings t ∧
                                data.account p
                                = Some (boc.account self ++ ":" ++ card))
            (boc.extract ledger self file_name new)) as [Hlength Haccount].
  { clear Hrows Hlen.
    induction Hnew as [|r rs [Hcur Hcard] _ [IHlen IHacc]]; [done|].
    unfold boc.extract in *. cbn [omap list_omap].
    rewrite filter_cons.
    pose proof (boc_record_booked self file_name card r Hcur) as Hr.
    rewrite Hcard.
    destruct (boc.classified self r) as [answer|e]; cbn [raises].
    - destruct Hr as (t & -> & Hp). rewrite decide_True by done.
      split; [by cbn [length]; rewrite IHlen|].
      apply list.Forall_cons. by split.
    - rewrite Hr. by rewrite decide_False by done. }
  split; [done|]. split; [done|].
  intros Hnone. rewrite Hlength. f_equal.
  clear -Hnone. induction new as [|r new IH]; [done|].
  assert (raises (boc.classified self r) = false) as Hr
    by (unfold boc.classified, run_classifier; by rewrite Hnone).
  rewrite filter_cons, decide_True by done. by rewrite IH.
Qed.

End more_rows.

(** * The further properties on examples *)

Section more_examples.
Import sample.
Import rule_classify.

Local Existing Instance python.

(** X2 on a payee in capitals: every rule and every classifier answer as
    they do on the payee in small letters. *)
Lemma classification_ignores_case_witness :
  (str_lower "STARBUCKS" = str_lower "starbucks" ∧
   str_lower "Latte" = str_lower "latte") ∧
  (∀ rule, matches rule "STARBUCKS" "Latte" = matches rule "starbucks" "latte") ∧
  (∀ self, classify self "STARBUCKS" "Latte"
           = classify self "starbucks" "latte").
Proof.
  split; [split; reflexivity|].
  apply (classification_ignores_case "STARBUCKS" "starbucks" "Latte" "latte").
  - reflexivity.
  - split; discriminate.
  - reflexivity.
  - split; discriminate.
Defined.

(** X9 with the reserved key of the default settings, on a BOC record. *)
Lemma entries_name_their_file_witness :
  config.duplicate_meta config.default_ledger ≠ "filename" ∧
  config.duplicate_meta config.default_ledger ≠ "lineno" ∧
  Forall (names_file "statements/boc.pdf")
    (boc.extract config.default_ledger (boc_importer None)
       "statements/boc.pdf" [boc_row "人民币"]).
Proof.
  assert (config.duplicate_meta config.default_ledger ≠ "filename") as Hf
    by discriminate.
  assert (config.duplicate_meta config.default_ledger ≠ "lineno") as Hl
    by discriminate.
  split; [exact Hf|]. split; [exact Hl|].
  pose proof (entries_name_their_file config.default_ledger Hf Hl)
    as (_ & _ & Hboc & _).
  apply Hboc.
Defined.

(** X10 with the reserved key of the default settings, on a repayment read
    with the policy on the known apps off. *)
Lemma duplicate_key_presence_witness :
  (config.duplicate_meta config.default_ledger ≠ "filename" ∧
   config.duplicate_meta config.default_ledger ≠ "lineno" ∧
   config.duplicate_meta config.default_ledger ≠ "time" ∧
   config.duplicate_meta config.default_ledger ≠ "transaction_date") ∧
  ∀ t,
    cmb_credit._parse_transaction config.default_ledger
      (cmb_credit_importer false) "cmb.pdf" cmb_credit_repayment = Some t →
    duplicate_key_iff config.default_ledger
      (cmb_credit.ignore_apps (cmb_credit_importer false)
         && any_in cmb_credit.apps (data.payee t)
       || bool_decide
            (cmb_credit.transaction_type cmb_credit_repayment = "还款")) t.
Proof.
  assert (config.duplicate_meta config.default_ledger ≠ "filename") as Hf
    by discriminate.
  assert (config.duplicate_meta config.default_ledger ≠ "lineno") as Hl
    by discriminate.
  assert (config.duplicate_meta config.default_ledger ≠ "time") as Ht
    by discriminate.
  assert (config.duplicate_meta config.default_ledger ≠ "transaction_date")
    as Hd by discriminate.
  split; [by repeat split|].
  pose proof (duplicate_key_presence config.default_ledger Hf Hl Ht Hd)
    as (_ & _ & Hcmb & _).
  intros t. apply Hcmb.
Defined.

(** X13 on the charge of 500.00 and the refund of 120.00 under the same
    key: one entry, whose explicit amounts add up to -380. *)
Lemma merge_conserves_amounts_witness :
  Forall (fun r => within_context (boc_credit.amount r))
    [hotel_charge; hotel_refund] ∧
  booked "CNY"
    (boc_credit.extract config.default_ledger (boc_credit_importer None)
       "statement.pdf" [hotel_charge; hotel_refund])
  = charged "CNY"
      (accepted_records (boc_credit_importer None)
         [hotel_charge; hotel_refund]) ∧
  Forall amounts_within_context
    (boc_credit.extract config.default_ledger (boc_credit_importer None)
       "statement.pdf" [hotel_charge; hotel_refund]).
Proof.
  assert (Forall (fun r => within_context (boc_credit.amount r))
            [hotel_charge; hotel_refund]) as Hamounts.
  { repeat constructor.
    - exists 500%Z, 0%Z. split; [reflexivity|]. split; [lia|].
      apply Qc_is_canon. reflexivity.
    - exists 120%Z, 0%Z. split; [reflexivity|]. split; [lia|].
      apply Qc_is_canon. reflexivity. }
  split; [exact Hamounts|].
  apply (merge_conserves_amounts config.default_ledger
           (boc_credit_importer None) "statement.pdf" "CNY"
           [hotel_charge; hotel_refund] Hamounts).
Defined.

(** The amounts of the merged entry add up to -380. *)
Example merged_amounts :
  Qcanon.this
    (booked "CNY"
       (boc_credit.extract config.default_ledger (boc_credit_importer None)
          "statement.pdf" [hotel_charge; hotel_refund]))
  = (-380 # 1)%Q.
Proof. vm_compute. reflexivity. Qed.

(** X5 on rule files that are not a mapping of rules: an empty file, a
    mapping whose rules are an empty text, a mapping whose rules are a text
    of three characters, and a list of rules whose second item is a text. *)
Example rule_files_of_other_shapes :
  load_document document_other = Raise TypeError ∧
  load_document (document_mapping (Some (rules_scalars 0)))
  = Return {| rules := [] |} ∧
  load_document (document_mapping (Some (rules_scalars 3)))
  = Raise TypeError ∧
  load_document
    (document_mapping
       (Some (rules_sequence
                [ item_mapping
                    {| yaml_name := Some "coffee";
                       yaml_condition := Some (condition coffee);
                       yaml_prediction_account := Some "Expenses:Coffee" |};
                  item_other ])))
  = Raise TypeError.
Proof. repeat split. Qed.

(** X16 on a table of three rows, the second in dollars: two records, two
    entries. *)
Lemma rows_read_are_booked_witness :
  ∃ records,
    boc.table_rows "1234"
      [ boc_cells "人民币" "-20.00"; boc_cells "美元" "-3.00";
        boc_cells "人民币" "15.50" ] [] = Return records ∧
    length records ≤ 3 ∧
    length (boc.extract config.default_ledger (boc_importer None) "boc.pdf"
              records) = length records.
Proof.
  eexists. split; [vm_compute; reflexivity|].
  pose proof (rows_read_are_booked config.default_ledger (boc_importer None)
                "boc.pdf" "1234"
                [ boc_cells "人民币" "-20.00"; boc_cells "美元" "-3.00";
                  boc_cells "人民币" "15.50" ] _ eq_refl)
    as (Hlen & _ & _ & _ & Hall).
  split; [exact Hlen | by apply Hall].
Defined.

(** X14 on two statements: the card with two records out of three wins,
    although it is seen last; of two cards with one record each, the one
    seen first wins. *)
Example most_frequent_card :
  boc_credit.file_account (boc_credit_importer None)
    (Some (boc_credit_statement
             [card_charge "5678"; card_charge "1234"; card_charge "1234"]))
  = Return "Liabilities:Credit:BOC:1234" ∧
  boc_credit.file_account (boc_credit_importer None)
    (Some (boc_credit_statement [card_charge "5678"; card_charge "1234"]))
  = Return "Liabilities:Credit:BOC:5678".
Proof. split; reflexivity. Qed.

End more_examples.
